(** * The self-update mechanism of the Sakura Blossom launcher

    A shallow embedding of [UpdateManager] (launcher.py, lines 20-306):
    version comparison, the last-check timestamp, the manifest check, the
    backup, the application of an update and the rollback.

    Conventions of the embedding:
    - Python exceptions are values of [exn]; a computation that may raise
      returns a [result].
    - The methods of [UpdateManager] run in a [world] (file system, clock,
      network, emitted Qt signals) that is threaded explicitly; an exception
      does not undo the effects that happened before it.
    - Library code the launcher only calls (the JSON and ZIP codecs, the
      floating-point clock arithmetic, [str(e)]) is a parameter, collected
      in the class [Runtime]: every theorem holds for all of them.
    - A [str] is held as its UTF-8 encoding, a string of bytes;
      [Py.code_points] reads its characters. White space and decimal
      digits are those of Unicode 14.0, the database of CPython 3.11, and
      [int] reads numbers of up to 4300 digits, the default of
      [sys.set_int_max_str_digits].
    - The file system is a map from paths to files and directories. A call
      fails as the operating system makes it fail on such a tree (a path is
      missing, is a directory, is not a directory, exists already);
      permissions, full disks and I/O errors are not modelled. *)

From Stdlib Require Import ZArith String Ascii List Lia Bool.
From stdpp Require Import base option list gmap strings pretty.

Local Open Scope string_scope.
Local Open Scope Z_scope.

(** * Exceptions and results *)

(** Paths are relative to [script_dir], one component per element:
    ["backup"; "assets"; "logo.png"] is [script_dir/backup/assets/logo.png];
    the empty path is [script_dir] itself. *)
Abbreviation path := (list string).

Inductive exn : Type :=
| URLError (reason : string)            (* urllib.error.URLError and HTTPError *)
| FileNotFoundError (p : path)
| IsADirectoryError (p : path)
| NotADirectoryError (p : path)
| FileExistsError (p : path)
| SameFileError (p : path)
| ValueError (fn lit : string)          (* int(lit), float(lit) on a bad literal *)
| AttributeError (ty attr : string)     (* 'ty' object has no attribute 'attr' *)
| TypeError (what : string)
| LibraryError (cls msg : string).      (* raised inside a library call *)

Definition is_URLError (e : exn) : bool :=
  match e with URLError _ => true | _ => false end.

Inductive result (A : Type) : Type :=
| Ok (a : A)
| Raise (e : exn).
Arguments Ok {A} a.
Arguments Raise {A} e.

Definition rbind {A B} (r : result A) (k : A -> result B) : result B :=
  match r with Ok a => k a | Raise e => Raise e end.

Fixpoint rmap_list {A B} (f : A -> result B) (l : list A) : result (list B) :=
  match l with
  | [] => Ok []
  | x :: l' => rbind (f x) (fun y => rbind (rmap_list f l') (fun ys => Ok (y :: ys)))
  end.

(** * Python string primitives *)

Module Py.

(** [s.split(sep)] for a one-character separator: never empty,
    ["".split('.') == ['']]. *)
Fixpoint split (sep : ascii) (s : string) : list string :=
  match s with
  | EmptyString => [EmptyString]
  | String c s' =>
      if Ascii.eqb c sep then EmptyString :: split sep s'
      else match split sep s' with
           | [] => [String c EmptyString]
           | seg :: segs => String c seg :: segs
           end
  end.

(** ** A [str], held as its UTF-8 encoding *)

Definition byte (a : ascii) : Z := Z.of_nat (nat_of_ascii a).

(** A continuation byte, 10xxxxxx, and the six bits it carries. *)
Definition cont (a : ascii) : bool := (0x80 <=? byte a) && (byte a <? 0xC0).

Definition low (a : ascii) : Z := byte a - 0x80.

(** The character a string starts with: its code point and the number
    of bytes that encode it. Bytes that start no character give
    [(-1, 1)]; no [str] is encoded so. *)
Definition first_char (s : string) : Z * nat :=
  match s with
  | EmptyString => (-1, 1%nat)
  | String a r =>
      let n := byte a in
      if n <? 0x80 then (n, 1%nat)
      else if (0xC0 <=? n) && (n <? 0xE0) then
        match r with
        | String b _ =>
            if cont b then ((n - 0xC0) * 64 + low b, 2%nat) else (-1, 1%nat)
        | _ => (-1, 1%nat)
        end
      else if (0xE0 <=? n) && (n <? 0xF0) then
        match r with
        | String b (String c _) =>
            if cont b && cont c
            then (((n - 0xE0) * 64 + low b) * 64 + low c, 3%nat)
            else (-1, 1%nat)
        | _ => (-1, 1%nat)
        end
      else if 0xF0 <=? n then
        match r with
        | String b (String c (String d _)) =>
            if cont b && cont c && cont d
            then ((((n - 0xF0) * 64 + low b) * 64 + low c) * 64 + low d, 4%nat)
            else (-1, 1%nat)
        | _ => (-1, 1%nat)
        end
      else (-1, 1%nat)
  end.

(** The code points of a string; [skip] bytes of the character under
    way are still to be passed. *)
Fixpoint code_points_from (skip : nat) (s : string) : list Z :=
  match s with
  | EmptyString => []
  | String _ r =>
      match skip with
      | S k => code_points_from k r
      | O => fst (first_char s) :: code_points_from (snd (first_char s) - 1) r
      end
  end.

Definition code_points (s : string) : list Z := code_points_from 0 s.

(** White space above ASCII, as [Py_UNICODE_ISSPACE] has it. *)
Definition wide_space (n : Z) : bool :=
  (n =? 0x85) || (n =? 0xA0) || (n =? 0x1680) ||
  ((0x2000 <=? n) && (n <=? 0x200A)) ||
  (n =? 0x2028) || (n =? 0x2029) || (n =? 0x202F) || (n =? 0x205F) || (n =? 0x3000).

(** The white space [int] skips: tab to carriage return, the space, and
    the white space above ASCII. *)
Definition int_space (n : Z) : bool :=
  ((9 <=? n) && (n <=? 13)) || (n =? 32) || wide_space n.

(** White space as [str.isspace] and [str.strip] see it: the four
    separators U+001C to U+001F as well. *)
Definition is_space (n : Z) : bool :=
  int_space n || ((28 <=? n) && (n <=? 31)).

Definition starts_with_space (s : string) : bool := is_space (fst (first_char s)).

Fixpoint lstrip_from (skip : nat) (s : string) : string :=
  match s with
  | EmptyString => EmptyString
  | String _ r =>
      match skip with
      | S k => lstrip_from k r
      | O => if starts_with_space s then lstrip_from (snd (first_char s) - 1) r else s
      end
  end.

Definition lstrip (s : string) : string := lstrip_from 0 s.

(** [t] is one white-space character and nothing more. *)
Definition one_space (t : string) : bool :=
  starts_with_space t && (String.length t =? snd (first_char t))%nat.

Fixpoint rstrip (s : string) : string :=
  match s with
  | EmptyString => EmptyString
  | String a r =>
      let t := String a (rstrip r) in
      if one_space t then EmptyString else t
  end.

Definition strip (s : string) : string := rstrip (lstrip s).

(** The code points of the digits zero of the decimal digits of Unicode
    14.0 (general category Nd); the digits one to nine follow each. *)
Definition decimal_zeros : list Z :=
  [ 0x30; 0x660; 0x6F0; 0x7C0; 0x966; 0x9E6; 0xA66; 0xAE6; 0xB66; 0xBE6;
    0xC66; 0xCE6; 0xD66; 0xDE6; 0xE50; 0xED0; 0xF20; 0x1040; 0x1090;
    0x17E0; 0x1810; 0x1946; 0x19D0; 0x1A80; 0x1A90; 0x1B50; 0x1BB0;
    0x1C40; 0x1C50; 0xA620; 0xA8D0; 0xA900; 0xA9D0; 0xA9F0; 0xAA50;
    0xABF0; 0xFF10; 0x104A0; 0x10D30; 0x11066; 0x110F0; 0x11136; 0x111D0;
    0x112F0; 0x11450; 0x114D0; 0x11650; 0x116C0; 0x11730; 0x118E0;
    0x11950; 0x11C50; 0x11D50; 0x11DA0; 0x16A60; 0x16AC0; 0x16B50;
    0x1D7CE; 0x1D7D8; 0x1D7E2; 0x1D7EC; 0x1D7F6; 0x1E140; 0x1E2F0;
    0x1E950; 0x1FBF0 ].

(** [Py_UNICODE_TODECIMAL] *)
Definition digit_val (n : Z) : option Z :=
  match find (fun z => (z <=? n) && (n <=? z + 9)) decimal_zeros with
  | Some z => Some (n - z)
  | None => None
  end.

(** [sys.int_info.default_max_str_digits] *)
Definition max_str_digits : Z := 4300.

(** The digits of a decimal literal, most significant first; single
    underscores are allowed between digits. [count] digits were read,
    [after_digit] tells whether the previous character was one. *)
Fixpoint digits (acc count : Z) (after_digit : bool) (l : list Z) : option Z :=
  match l with
  | [] => if after_digit && (count <=? max_str_digits) then Some acc else None
  | c :: l' =>
      match digit_val c with
      | Some d => digits (10 * acc + d) (count + 1) true l'
      | None =>
          if (c =? 95) && after_digit then digits acc count false l'
          else None
      end
  end.

Fixpoint skip_spaces (l : list Z) : list Z :=
  match l with
  | c :: l' => if int_space c then skip_spaces l' else l
  | [] => []
  end.

Definition trim (l : list Z) : list Z := rev (skip_spaces (rev (skip_spaces l))).

(** The literal without its sign. *)
Definition unsigned (t : list Z) : list Z :=
  match t with
  | c :: r => if (c =? 45) || (c =? 43) then r else t
  | [] => []
  end.

Definition negative (t : list Z) : bool :=
  match t with
  | c :: _ => c =? 45
  | [] => false
  end.

(** [int(s)] on a [str], base 10: white space around, an optional sign,
    decimal digits of any script with single underscores between them,
    no more of them than the interpreter reads. [None] is [ValueError]. *)
Definition int (s : string) : option Z :=
  let t := trim (code_points s) in
  let value := digits 0 0 false (unsigned t) in
  if negative t then Z.opp <$> value else value.

End Py.

Definition int_of_str (s : string) : result Z :=
  match Py.int s with
  | Some n => Ok n
  | None => Raise (ValueError "int" s)
  end.

(** * compare_versions (launcher.py:126-143) *)

(** [while len(parts) < n: parts.append(0)], one [append] per round. *)
Fixpoint append_zeros (rounds : nat) (parts : list Z) : list Z :=
  match rounds with
  | O => parts
  | S k => append_zeros k (parts ++ [0])
  end.

Definition pad_while (parts : list Z) (n : nat) : list Z :=
  append_zeros (n - length parts)%nat parts.

(** [for i in range(len(v1_parts))]: the loop walks both lists in step;
    [v2_parts[i]] past the end of [v2_parts] would be an [IndexError]. *)
Fixpoint compare_parts (v1_parts v2_parts : list Z) : result Z :=
  match v1_parts with
  | [] => Ok 0
  | x :: v1_rest =>
      match v2_parts with
      | [] => Raise (LibraryError "IndexError" "list index out of range")
      | y :: v2_rest =>
          if x >? y then Ok 1
          else if x <? y then Ok (-1)
          else compare_parts v1_rest v2_rest
      end
  end.

Definition compare_versions (v1 v2 : string) : result Z :=
  rbind (rmap_list int_of_str (Py.split "." v1)) (fun v1_parts =>
  rbind (rmap_list int_of_str (Py.split "." v2)) (fun v2_parts =>
  let v1_parts := pad_while v1_parts (length v2_parts) in
  let v2_parts := pad_while v2_parts (length v1_parts) in
  compare_parts v1_parts v2_parts)).

(** ** The literals [int] accepts, said on the characters of the string *)

Definition is_digit (c : Z) : bool :=
  match Py.digit_val c with Some _ => true | None => false end.

(** No underscore follows another. *)
Fixpoint single_underscores (u : list Z) : bool :=
  match u with
  | c :: u' =>
      negb ((c =? 95) && match u' with d :: _ => d =? 95 | [] => false end) &&
      single_underscores u'
  | [] => true
  end.

(** Digits with single underscores between them, at most
    [max_str_digits] digits. *)
Definition numeral (u : list Z) : bool :=
  forallb (fun c => is_digit c || (c =? 95)) u &&
  match u with c :: _ => is_digit c | [] => false end &&
  match last u with Some c => is_digit c | None => false end &&
  single_underscores u &&
  (Z.of_nat (length (List.filter is_digit u)) <=? Py.max_str_digits).

(** What [int] takes for a number, said on the characters of the string:
    white space around and one sign in front set aside, a numeral. *)
Definition int_literal (s : string) : bool :=
  numeral (Py.unsigned (Py.trim (Py.code_points s))).

(** Some character of [s] satisfies [P]. *)
Fixpoint has_char (P : ascii -> bool) (s : string) : bool :=
  match s with
  | EmptyString => false
  | String c s' => P c || has_char P s'
  end.

(** ** The comparison as the specification words it *)

(** The value of a decimal digit of ASCII. *)
Definition ascii_digit (c : ascii) : option Z :=
  let n := Py.byte c in
  if (48 <=? n) && (n <=? 57) then Some (n - 48) else None.

(** A segment of a version string: one or more decimal digits. *)
Fixpoint all_digits (s : string) : bool :=
  match s with
  | EmptyString => true
  | String c s' => bool_decide (is_Some (ascii_digit c)) && all_digits s'
  end.

Definition is_segment (s : string) : bool :=
  negb (String.eqb s EmptyString) && all_digits s.

(** Dot-separated non-negative integers, such as "0.0.7". *)
Definition is_version (v : string) : bool :=
  forallb is_segment (Py.split "." v).

(** No segment is longer than the numbers [int] reads. *)
Definition within_int_limit (v : string) : bool :=
  forallb (fun seg => Z.of_nat (String.length seg) <=? Py.max_str_digits)
    (Py.split "." v).

(** The value of a digit string, read from the left. *)
Fixpoint decimal (acc : Z) (s : string) : Z :=
  match s with
  | EmptyString => acc
  | String c s' => decimal (10 * acc + default 0 (ascii_digit c)) s'
  end.

(** The bytes of a string. *)
Fixpoint byte_list (s : string) : list Z :=
  match s with
  | EmptyString => []
  | String a r => Py.byte a :: byte_list r
  end.

Definition spec_parts (v : string) : list Z :=
  map (decimal 0) (Py.split "." v).

(** Right-pad with zeros to a given length. *)
Definition spec_pad (n : nat) (l : list Z) : list Z :=
  l ++ repeat 0 (n - length l)%nat.

(** Lexicographic comparison: the first differing position decides. *)
Fixpoint spec_lex (a b : list Z) : Z :=
  match a, b with
  | x :: a', y :: b' =>
      match x ?= y with
      | Gt => 1
      | Lt => -1
      | Eq => spec_lex a' b'
      end
  | _, _ => 0
  end.

(** The same, as a relation: equal sequences give 0, otherwise the first
    position where they differ gives 1 or -1. *)
Definition first_difference (xs ys : list Z) (r : Z) : Prop :=
  (xs = ys /\ r = 0) \/
  exists (i : nat) (x y : Z),
    take i xs = take i ys /\ xs !! i = Some x /\ ys !! i = Some y /\
    ((x > y /\ r = 1) \/ (x < y /\ r = -1)).

Definition spec_compare (a b : string) : Z :=
  let xs := spec_parts a in
  let ys := spec_parts b in
  let n := Nat.max (length xs) (length ys) in
  spec_lex (spec_pad n xs) (spec_pad n ys).

(** * Python values read from JSON *)

#[warnings="-register-all"]
Inductive json : Type :=
| JNull
| JBool (b : bool)
| JInt (n : Z)
| JFloat (lit : string)
| JStr (s : string)
| JList (l : list json)
| JDict (d : list (string * json)).     (* keys are distinct, in insertion order *)

Definition type_name (v : json) : string :=
  match v with
  | JNull => "NoneType" | JBool _ => "bool" | JInt _ => "int"
  | JFloat _ => "float" | JStr _ => "str" | JList _ => "list" | JDict _ => "dict"
  end.

Fixpoint assoc (key : string) (d : list (string * json)) : option json :=
  match d with
  | [] => None
  | (k, v) :: d' => if String.eqb k key then Some v else assoc key d'
  end.

(** [obj.get(key, dflt)]: only a dict has [get]. *)
Definition py_get (obj : json) (key : string) (dflt : json) : result json :=
  match obj with
  | JDict d => Ok (default dflt (assoc key d))
  | _ => Raise (AttributeError (type_name obj) "get")
  end.

(** * ZIP archives *)

Inductive zip_body : Type :=
| ZDir                                   (* a directory entry, name ends in '/' *)
| ZData (d : string)                     (* a file entry that decompresses to [d] *)
| ZOpenFails (e : exn)                   (* the entry cannot be opened *)
| ZReadFails (written : string) (e : exn). (* reading fails after [written] was copied *)

Record zip_member : Type := ZipMember {
  zname : string;        (* the name, as [namelist] gives it *)
  zpath : path;          (* where the sanitised name points, under script_dir *)
  zbody : zip_body
}.

(** * The file system under script_dir *)

(** [fmeta] stands for what [shutil.copystat] carries over: times and
    permission bits. *)
Record file : Type := File { fdata : string; fmeta : Z }.

Inductive node : Type :=
| NFile (f : file)
| NDir.

Abbreviation fsmap := (gmap path node).

(** [script_dir] itself (the empty path) is always a directory. *)
Definition fs_node (m : fsmap) (p : path) : option node :=
  match p with
  | [] => Some NDir
  | _ => m !! p
  end.

Definition dirname (p : path) : path := removelast p.

Definition fs_exists (m : fsmap) (p : path) : bool :=
  match fs_node m p with Some _ => true | None => false end.

Definition fs_isdir (m : fsmap) (p : path) : bool :=
  match fs_node m p with Some NDir => true | _ => false end.

Definition fs_isfile (m : fsmap) (p : path) : bool :=
  match fs_node m p with Some (NFile _) => true | _ => false end.

(** The error of reaching for a path that is not there. *)
Definition missing (m : fsmap) (p : path) : exn :=
  match fs_node m (dirname p) with
  | Some (NFile _) => NotADirectoryError p
  | _ => FileNotFoundError p
  end.

(** [open(p, 'r').read()] *)
Definition fs_read (m : fsmap) (p : path) : result file :=
  match fs_node m p with
  | Some (NFile f) => Ok f
  | Some NDir => Raise (IsADirectoryError p)
  | None => Raise (missing m p)
  end.

(** [open(p, 'w')]: creates or truncates; [meta] is the metadata the
    system gives the written file. *)
Definition fs_open_w (meta : Z) (m : fsmap) (p : path) : result fsmap :=
  match fs_node m p with
  | Some NDir => Raise (IsADirectoryError p)
  | Some (NFile _) => Ok (<[p := NFile (File "" meta)]> m)
  | None =>
      match fs_node m (dirname p) with
      | Some NDir => Ok (<[p := NFile (File "" meta)]> m)
      | _ => Raise (missing m p)
      end
  end.

(** [f.write(s)] on the file opened at [p]. *)
Definition fs_write (m : fsmap) (p : path) (s : string) : fsmap :=
  alter (fun n => match n with
                  | NFile f => NFile (File (fdata f ++ s) (fmeta f))
                  | NDir => NDir
                  end) p m.

(** [os.remove(p)] *)
Definition fs_remove (m : fsmap) (p : path) : result fsmap :=
  match fs_node m p with
  | Some (NFile _) => Ok (delete p m)
  | Some NDir => Raise (IsADirectoryError p)
  | None => Raise (missing m p)
  end.

(** [shutil.rmtree(p)]: the directory and everything below it. *)
Definition fs_rmtree (m : fsmap) (p : path) : result fsmap :=
  match fs_node m p with
  | Some NDir => Ok (filter (fun kv => ¬ (p `prefix_of` kv.1)) m)
  | Some (NFile _) => Raise (NotADirectoryError p)
  | None => Raise (missing m p)
  end.

(** [os.mkdir(p)] *)
Definition fs_mkdir (m : fsmap) (p : path) : result fsmap :=
  match fs_node m p with
  | Some _ => Raise (FileExistsError p)
  | None =>
      match fs_node m (dirname p) with
      | Some NDir => Ok (<[p := NDir]> m)
      | _ => Raise (missing m p)
      end
  end.

(** [shutil.copy2(src, dst)]: into [dst/basename(src)] when [dst] is a
    directory; data and metadata are copied. *)
Definition fs_copy2 (m : fsmap) (src dst : path) : result fsmap :=
  let dst := if fs_isdir m dst then (dst ++ [default "" (last src)])%list else dst in
  if bool_decide (src = dst) && fs_exists m src then Raise (SameFileError src) else
  rbind (fs_read m src) (fun f =>
  rbind (fs_open_w (fmeta f) m dst) (fun m' =>
  Ok (<[dst := NFile f]> m'))).

Definition is_file_node (n : node) : bool :=
  match n with NFile _ => true | NDir => false end.

(** The files [os.walk(top)] visits: every regular file below [top]; none
    when [top] is not a directory. The listing is taken when the walk
    starts; the order of the visit is the one of the map. *)
Definition fs_walk_files (m : fsmap) (top : path) : list path :=
  if fs_isdir m top then
    (map_to_list
       (filter (fun kv => top `prefix_of` kv.1 /\ is_file_node kv.2 = true) m)).*1
  else [].

(** * Library code taken as given *)

(** What the launcher calls and does not define. [float] is the type of
    [datetime.now().timestamp()]; its arithmetic is the interpreter's. *)
Class Runtime : Type := {
  datetime : Type;
  float : Type;
  timestamp : datetime -> float;              (* dt.timestamp() *)
  isoformat : datetime -> string;             (* dt.isoformat() *)
  float_sub : float -> float -> float;        (* x - y *)
  float_gt : float -> Z -> bool;              (* x > n, n an int *)
  str_of_float : float -> string;             (* str(x) *)
  float_of_str : string -> option float;      (* float(s); None is ValueError *)
  json_loads : string -> result json;         (* json.loads(s), json.load(f) *)
  json_dumps : json -> string;                (* the text json.dump(obj, f, indent=2) writes *)
  zip_read : string -> result (list zip_member); (* zipfile.ZipFile on these bytes *)
  qt_convert : json -> result string;         (* a non-str argument of a str signal *)
  exn_str : exn -> string                     (* str(e) *)
}.

(** * Configuration (launcher.py:20-24) and paths (launcher.py:40-44) *)

Definition VERSION : string := "0.0.7".
Definition UPDATE_SERVER : string :=
  "https://raw.githubusercontent.com/Plxgio/SakuraLauncher/master/updates/".
Definition VERSION_FILE : string := "launcher_version.json".
Definition UPDATE_FILE : string := "launcher_update.zip".
Definition CHECK_INTERVAL : Z := 3600.

Definition temp_dir : path := ["temp_updates"].
Definition backup_dir : path := ["backup"].
Definition last_check_file : path := ["last_check.txt"].
Definition update_info_file : path := ["update_info.json"].

(** * Signals *)

(** The texts sent through [status_changed], one constructor per message
    of the source; the formatted value is the argument. *)
Inductive status : Type :=
| Searching                      (* "Buscando actualizaciones..." *)
| Connecting                     (* "Conectando a {UPDATE_SERVER}" *)
| RemoteVersion (v : json)       (* "Versión remota: {remote_version}" *)
| NewVersion (v : json)          (* "¡Nueva versión disponible! ({remote_version})" *)
| UpToDate                       (* "Estás en la última versión" *)
| ConnectionFailed (msg : string) (* "Error de conexión: {str(e)}" *)
| CheckFailed (msg : string)     (* "Error: {str(e)}" *)
| BackingUp                      (* "Creando copia de seguridad..." *)
| BackupDone                     (* "Copia de seguridad creada" *)
| BackupFailed (msg : string)    (* "Error en backup: {str(e)}" *)
| Applying                       (* "Aplicando actualización..." *)
| WithoutBackup                  (* "Continuando sin backup..." *)
| Applied                        (* "¡Actualización aplicada con éxito!" *)
| ApplyFailed (msg : string)     (* "Error aplicando update: {str(e)}" *)
| Restoring                      (* "Restaurando desde copia de seguridad..." *)
| Restored                       (* "Restauración completada" *)
| NoBackup                       (* "No hay copia de seguridad disponible" *)
| RestoreFailed (msg : string)   (* "Error en restauración: {str(e)}" *)
| Cleaned.                       (* "Archivos temporales limpiados" *)

Inductive event : Type :=
| StatusChanged (s : status)                   (* status_changed = pyqtSignal(str) *)
| UpdateAvailable (version changelog : string) (* update_available = pyqtSignal(str, str) *)
| UpdateProgress (percent : Z)                 (* update_progress = pyqtSignal(int) *)
| UpdateFinished (ok : bool) (msg : string).   (* update_finished = pyqtSignal(bool, str) *)

Section UpdateManager.
Context {RT : Runtime}.

(** * The world a method runs in *)

Record world : Type := World {
  fs : fsmap;                          (* the files under script_dir *)
  clock : nat -> datetime;             (* the successive values of datetime.now() *)
  ticks : nat;                         (* how many were read *)
  urlopen : string -> result string;   (* urlopen(url, timeout=10).read().decode('utf-8') *)
  new_meta : Z;                        (* metadata of a file written through open() *)
  events : list event                  (* the signals emitted so far, oldest first *)
}.

Definition set_fs (m : fsmap) (w : world) : world :=
  World m (clock w) (ticks w) (urlopen w) (new_meta w) (events w).

(** * Effects *)

Definition M (A : Type) : Type := world -> result A * world.

Definition ret {A} (a : A) : M A := fun w => (Ok a, w).

Definition raise {A} (e : exn) : M A := fun w => (Raise e, w).

Definition bind {A B} (m : M A) (k : A -> M B) : M B :=
  fun w => match m w with
           | (Ok a, w') => k a w'
           | (Raise e, w') => (Raise e, w')
           end.

(** [try: m  except Exception as e: h e] *)
Definition try_except {A} (m : M A) (h : exn -> M A) : M A :=
  fun w => match m w with
           | (Ok a, w') => (Ok a, w')
           | (Raise e, w') => h e w'
           end.

Notation "'let*' x ':=' m 'in' k" := (bind m (fun x => k))
  (at level 10, x name, m at level 100, k at level 200).
Notation "m ';;' k" := (bind m (fun _ => k))
  (at level 100, k at level 200, right associativity).

Definition lift {A} (r : result A) : M A := fun w => (r, w).

Definition when (b : bool) (m : M unit) : M unit := if b then m else ret tt.

(** [for x in l: body x] *)
Fixpoint for_each {A} (l : list A) (body : A -> M unit) : M unit :=
  match l with
  | [] => ret tt
  | x :: l' => body x ;; for_each l' body
  end.

(** [signal.emit(...)] *)
Definition emit (e : event) : M unit :=
  fun w => (Ok tt, World (fs w) (clock w) (ticks w) (urlopen w) (new_meta w) (events w ++ [e])).

Definition say (s : status) : M unit := emit (StatusChanged s).

(** [datetime.now()] *)
Definition datetime_now : M datetime :=
  fun w => (Ok (clock w (ticks w)),
            World (fs w) (clock w) (S (ticks w)) (urlopen w) (new_meta w) (events w)).

(** A file system call that changes the tree or raises. *)
Definition fs_do (f : fsmap -> result fsmap) : M unit :=
  fun w => match f (fs w) with
           | Ok m => (Ok tt, set_fs m w)
           | Raise e => (Raise e, w)
           end.

Definition path_exists (p : path) : M bool := fun w => (Ok (fs_exists (fs w) p), w).
Definition path_isdir (p : path) : M bool := fun w => (Ok (fs_isdir (fs w) p), w).
Definition read_file (p : path) : M string :=
  fun w => (match fs_read (fs w) p with Ok f => Ok (fdata f) | Raise e => Raise e end, w).
Definition open_w (p : path) : M unit := fun w => fs_do (fun m => fs_open_w (new_meta w) m p) w.
Definition file_write (p : path) (s : string) : M unit := fs_do (fun m => Ok (fs_write m p s)).
Definition remove (p : path) : M unit := fs_do (fun m => fs_remove m p).
Definition rmtree (p : path) : M unit := fs_do (fun m => fs_rmtree m p).
Definition mkdir (p : path) : M unit := fs_do (fun m => fs_mkdir m p).
Definition copy2 (src dst : path) : M unit := fs_do (fun m => fs_copy2 m src dst).
Definition walk_files (top : path) : M (list path) := fun w => (Ok (fs_walk_files (fs w) top), w).

(** [os.makedirs(p, exist_ok=True)], as the standard library writes it:
    the missing ancestors first, then the directory itself; [depth] is the
    number of components of [p]. *)
Fixpoint makedirs_at (depth : nat) (p : path) : M unit :=
  match depth with
  | O => ret tt
  | S k =>
      let head := dirname p in
      (let* head_exists := path_exists head in
       when (negb head_exists)
         (try_except (makedirs_at k head)
            (fun e => match e with FileExistsError _ => ret tt | _ => raise e end))) ;;
      try_except (mkdir p)
        (fun e => let* isdir := path_isdir p in
                  if isdir then ret tt else raise e)
  end.

Definition makedirs (p : path) : M unit := makedirs_at (length p) p.

(** * UpdateManager *)

(** [__init__] (launcher.py:38-48) *)
Definition init : M unit :=
  makedirs temp_dir ;;
  makedirs backup_dir.

(** [float(s)] *)
Definition float_of (s : string) : M float :=
  match float_of_str s with
  | Some x => ret x
  | None => raise (ValueError "float" s)
  end.

(** [should_check_update] (launcher.py:50-62) *)
Definition should_check_update : M bool :=
  let* there := path_exists last_check_file in
  if negb there then ret true
  else
    try_except
      (let* text := read_file last_check_file in
       let* last_check := float_of (Py.strip text) in
       let* now := datetime_now in
       let elapsed := float_sub (timestamp now) last_check in
       ret (float_gt elapsed CHECK_INTERVAL))
      (fun _ => ret true).

(** [update_last_check] (launcher.py:64-70) *)
Definition update_last_check : M unit :=
  try_except
    (open_w last_check_file ;;
     let* now := datetime_now in
     file_write last_check_file (str_of_float (timestamp now)))
    (fun _ => ret tt).

(** [v.split('.')] needs a [str]. *)
Definition compare_versions_of (v1 : json) (v2 : string) : M Z :=
  match v1 with
  | JStr s => lift (compare_versions s v2)
  | _ => raise (AttributeError (type_name v1) "split")
  end.

(** An argument of a [str] signal: a [str] goes through as it is. *)
Definition signal_arg (v : json) : result string :=
  match v with
  | JStr s => Ok s
  | _ => qt_convert v
  end.

(** The record written to update_info.json (launcher.py:98-104). *)
Definition update_info_of (remote_version changelog download_url files : json)
    (now : datetime) : json :=
  JDict [("remote_version", remote_version);
         ("changelog", changelog);
         ("download_url", download_url);
         ("files", files);
         ("timestamp", JStr (isoformat now))].

(** The [try:] block of [check_for_updates] (launcher.py:80-117). *)
Definition check_body (force : bool) : M bool :=
  let version_url := UPDATE_SERVER ++ VERSION_FILE in
  say Connecting ;;
  let* body := (fun w => (urlopen w version_url, w)) in
  let* data := lift (json_loads body) in
  let* remote_version := lift (py_get data "version" (JStr "0.0.0")) in
  let* changelog := lift (py_get data "changelog" (JStr "Sin información de cambios")) in
  let* download_url := lift (py_get data "download_url" (JStr "")) in
  say (RemoteVersion remote_version) ;;
  let* c := compare_versions_of remote_version VERSION in
  if c >? 0 then
    say (NewVersion remote_version) ;;
    let* files := lift (py_get data "files" (JList [])) in
    let* now := datetime_now in
    let update_info := update_info_of remote_version changelog download_url files now in
    open_w update_info_file ;;
    file_write update_info_file (json_dumps update_info) ;;
    let* version_arg := lift (signal_arg remote_version) in
    let* changelog_arg := lift (signal_arg changelog) in
    emit (UpdateAvailable version_arg changelog_arg) ;;
    update_last_check ;;
    ret true
  else
    say UpToDate ;;
    when force (emit (UpdateFinished true "Ya tienes la última versión")) ;;
    update_last_check ;;
    ret false.

(** The two [except] clauses of [check_for_updates] (launcher.py:119-124). *)
Definition check_failed (e : exn) : M bool :=
  if is_URLError e then say (ConnectionFailed (exn_str e)) ;; ret false
  else say (CheckFailed (exn_str e)) ;; ret false.

(** [check_for_updates] (launcher.py:72-124) *)
Definition check_for_updates (force : bool) : M bool :=
  let* due := (if force then ret true else should_check_update) in
  if negb due then ret false
  else
    say Searching ;;
    try_except (check_body force) check_failed.

(** The tracked files (launcher.py:190-195). *)
Definition files_to_backup : list path :=
  [ ["launcher.py"]; ["assets"; "logo.png"]; ["assets"; "fondo.png"];
    ["assets"; "background.png"] ].

(** The body of the loop of [create_backup] (launcher.py:198-206). *)
Definition backup_file (file_path : path) : M unit :=
  let full_path := file_path in
  let* present := path_exists full_path in
  when present
    (let dest_dir := (backup_dir ++ dirname file_path)%list in
     makedirs dest_dir ;;
     let dest_path := (backup_dir ++ file_path)%list in
     copy2 full_path dest_path).

(** [create_backup] (launcher.py:179-213) *)
Definition create_backup : M bool :=
  say BackingUp ;;
  try_except
    (let* there := path_exists backup_dir in
     when there (rmtree backup_dir) ;;
     makedirs backup_dir ;;
     for_each files_to_backup backup_file ;;
     say BackupDone ;;
     ret true)
    (fun e => say (BackupFailed (exn_str e)) ;; ret false).

(** The body of the inner loop of [restore_backup] (launcher.py:264-272). *)
Definition restore_file (src_path : path) : M unit :=
  let rel_path := drop (length backup_dir) src_path in
  let dst_path := rel_path in
  makedirs (dirname dst_path) ;;
  copy2 src_path dst_path.

(** [restore_backup] (launcher.py:255-282) *)
Definition restore_backup : M bool :=
  try_except
    (say Restoring ;;
     let* there := path_exists backup_dir in
     if there then
       let* found := walk_files backup_dir in
       for_each found restore_file ;;
       say Restored ;;
       ret true
     else
       say NoBackup ;;
       ret false)
    (fun e => say (RestoreFailed (exn_str e)) ;; ret false).

(** [cleanup_temp_files] (launcher.py:284-296) *)
Definition cleanup_temp_files : M unit :=
  try_except
    (let* temp_there := path_exists temp_dir in
     when temp_there (rmtree temp_dir) ;;
     let* info_there := path_exists update_info_file in
     when info_there (remove update_info_file) ;;
     say Cleaned)
    (fun _ => ret tt).

(** [NameToInfo[name]]: of two members with one name the later one. *)
Definition getinfo (members : list zip_member) (name : string) : option zip_member :=
  last (filter (fun mem => zname mem = name) members).

(** [zip_ref.extract(name, script_dir)]. The library makes the missing
    parent directories with [os.makedirs(upperdirs)]; under the test that
    [upperdirs] does not exist this is [makedirs] above. *)
Definition extract (members : list zip_member) (name : string) : M unit :=
  match getinfo members name with
  | None => raise (LibraryError "KeyError" name)
  | Some mem =>
      let targetpath := zpath mem in
      let upperdirs := dirname targetpath in
      let* upper_there := path_exists upperdirs in
      when (negb upper_there) (makedirs upperdirs) ;;
      match zbody mem with
      | ZDir =>
          let* isdir := path_isdir targetpath in
          when (negb isdir) (mkdir targetpath)
      | ZData d =>
          open_w targetpath ;;
          file_write targetpath d
      | ZOpenFails e => raise e
      | ZReadFails written e =>
          open_w targetpath ;;
          file_write targetpath written ;;
          raise e
      end
  end.

(** [for i, file in enumerate(file_list)] of [apply_update]; [i] is the
    index of the head of [names], [total] is [len(file_list)]. The
    quotient is the one of the integers. *)
Fixpoint extract_all (members : list zip_member) (total : Z) (i : Z)
    (names : list string) : M unit :=
  match names with
  | [] => ret tt
  | file :: rest =>
      extract members file ;;
      let progress := (i + 1) * 100 / total in
      emit (UpdateProgress progress) ;;
      extract_all members total (i + 1) rest
  end.

(** The first part of the [try:] block of [apply_update]
    (launcher.py:218-235): backup, then extraction. *)
Definition unpack (update_file : path) : M unit :=
  say Applying ;;
  let* backed_up := create_backup in
  when (negb backed_up) (say WithoutBackup) ;;
  let* bytes := read_file update_file in
  let* members := lift (zip_read bytes) in
  let file_list := map zname members in
  extract_all members (Z.of_nat (length file_list)) 0 file_list.

(** The whole [try:] block (launcher.py:218-246); the second component
    of the answer is a Python value, what the record holds. *)
Definition apply_body (update_file : path) : M (bool * json) :=
  unpack update_file ;;
  cleanup_temp_files ;;
  say Applied ;;
  let* text := read_file update_info_file in
  let* update_info := lift (json_loads text) in
  let* version := lift (py_get update_info "remote_version" (JStr "")) in
  ret (true, version).

(** The [except] clause of [apply_update] (launcher.py:248-253). *)
Definition apply_failed (e : exn) : M (bool * json) :=
  say (ApplyFailed (exn_str e)) ;;
  restore_backup ;;
  ret (false, JStr (exn_str e)).

(** [apply_update] (launcher.py:215-253) *)
Definition apply_update (update_file : path) : M (bool * json) :=
  try_except (apply_body update_file) apply_failed.

End UpdateManager.

(** * Worlds after a step, as the theorems name them *)

(** What went out through [update_available]: version and changelog. *)
Fixpoint announced (l : list event) : list (string * string) :=
  match l with
  | [] => []
  | UpdateAvailable version changelog :: l' => (version, changelog) :: announced l'
  | _ :: l' => announced l'
  end.

Section Outcomes.
Context {RT : Runtime}.

(** The world once [e] was emitted. *)
Definition emitting (l : list event) (w : world) : world :=
  World (fs w) (clock w) (ticks w) (urlopen w) (new_meta w) (events w ++ l).

(** The world once the clock was read. *)
Definition ticking (w : world) : world :=
  World (fs w) (clock w) (S (ticks w)) (urlopen w) (new_meta w) (events w).

(** The world once [update_last_check] wrote the reading of the clock. *)
Definition stamped (w : world) : world :=
  ticking (set_fs
    (<[last_check_file :=
         NFile (File (str_of_float (timestamp (clock w (ticks w)))) (new_meta w))]> (fs w)) w).

(** The world once the pending-update [record] was written. *)
Definition persisted (record : json) (w : world) : world :=
  set_fs (<[update_info_file := NFile (File (json_dumps record) (new_meta w))]> (fs w)) w.

(** A check starts its fetch in [w0]: it is forced, or the interval has
    elapsed. *)
Definition starts_fetch (force : bool) (w w0 : world) : Prop :=
  if force then w0 = w else should_check_update w = (Ok true, w0).

(** The fields of a manifest as [check_for_updates] reads them. *)
Definition manifest_version (d : list (string * json)) : json :=
  default (JStr "0.0.0") (assoc "version" d).
Definition manifest_changelog (d : list (string * json)) : json :=
  default (JStr "Sin información de cambios") (assoc "changelog" d).
Definition manifest_download_url (d : list (string * json)) : json :=
  default (JStr "") (assoc "download_url" d).
Definition manifest_files (d : list (string * json)) : json :=
  default (JList []) (assoc "files" d).

(** A computation that touches nothing but the file system. *)
Definition only_fs {A} (m : M A) : Prop :=
  forall w, snd (m w) = set_fs (fs (snd (m w))) w.

(** [p] made a directory, unless something is there already. *)
Definition ensure_dir (p : path) (m : fsmap) : fsmap :=
  if fs_exists m p then m else <[p := NDir]> m.

(** What holds of the tree [m] while [create_backup] copies the tracked
    files of [m0], [seen] being those handled so far: the backup
    directory is there; outside it nothing changed; a handled file is in
    the backup as it is in the installation, inside its directory; and
    nothing else lies in the backup. *)
Definition backup_inv (m0 m : fsmap) (seen : list path) : Prop :=
  m !! backup_dir = Some NDir /\
  (forall q, ~ backup_dir `prefix_of` q -> m !! q = m0 !! q) /\
  (forall p, p ∈ seen -> m !! (backup_dir ++ p)%list = m0 !! p) /\
  (forall p, p ∈ seen -> is_Some (m0 !! p) ->
             m !! (backup_dir ++ dirname p)%list = Some NDir) /\
  (forall q n, backup_dir `prefix_of` q -> m !! q = Some n ->
     q = backup_dir \/
     (q = (backup_dir ++ ["assets"])%list /\ n = NDir) \/
     exists p, p ∈ seen /\ q = (backup_dir ++ p)%list).

(** Every path that is there lies in a directory that is there. *)
Definition tree_shaped (m : fsmap) : Prop :=
  forall p n, m !! p = Some n -> p <> [] /\ fs_isdir m (dirname p) = true.

End Outcomes.

(** * A concrete runtime, to run the methods on concrete worlds *)

Module Sample.

(** The double quote character. *)
Definition dq : string := String "034"%char EmptyString.

Definition quoted (s : string) : string := dq ++ s ++ dq.

(** A serialiser for the values used below: no escapes, no indentation. *)
Fixpoint dumps (v : json) : string :=
  match v with
  | JNull => "null"
  | JBool b => if b then "true" else "false"
  | JInt n => pretty n
  | JFloat lit => lit
  | JStr s => quoted s
  | JList l =>
      "[" ++ (fix items (l : list json) : string :=
                match l with
                | [] => ""
                | [x] => dumps x
                | x :: l' => dumps x ++ ", " ++ items l'
                end) l ++ "]"
  | JDict d =>
      "{" ++ (fix items (d : list (string * json)) : string :=
                match d with
                | [] => ""
                | [(k, x)] => quoted k ++ ": " ++ dumps x
                | (k, x) :: d' => quoted k ++ ": " ++ dumps x ++ ", " ++ items d'
                end) d ++ "}"
  end.

(** Manifests. *)
Definition manifest_newer : json := JDict [("version", JStr "1.0.0")].
Definition manifest_full : json :=
  JDict [("version", JStr "0.1.0"); ("changelog", JStr "Fixes");
         ("download_url", JStr "https://example.org/launcher_update.zip");
         ("files", JList [JStr "launcher.py"])].
Definition manifest_same : json := JDict [("version", JStr "0.0.7")].
Definition manifest_empty : json := JDict [].
Definition manifest_bad_version : json := JDict [("version", JStr "1.2b")].
Definition manifest_underscore : json := JDict [("version", JStr "1_0")].
Definition manifest_list_changelog : json :=
  JDict [("version", JStr "1.0.0"); ("changelog", JList [JStr "Fixes"])].

(** The pending-update record of [manifest_full], fetched at time 1000. *)
Definition pending_record : json :=
  JDict [("remote_version", JStr "0.1.0"); ("changelog", JStr "Fixes");
         ("download_url", JStr "https://example.org/launcher_update.zip");
         ("files", JList [JStr "launcher.py"]); ("timestamp", JStr "1000")].

Definition known_documents : list json :=
  [manifest_newer; manifest_full; manifest_same; manifest_empty;
   manifest_bad_version; manifest_underscore; manifest_list_changelog;
   pending_record].

(** A decoder for the documents above; anything else is malformed. *)
Definition loads (s : string) : result json :=
  match filter (fun v => dumps v = s) known_documents with
  | v :: _ => Ok v
  | [] => Raise (LibraryError "JSONDecodeError" "Expecting value")
  end.

(** Archives, by their bytes. *)
Definition good_archive : list zip_member :=
  [ ZipMember "launcher.py" ["launcher.py"] (ZData "print('0.1.0')");
    ZipMember "assets/" ["assets"] ZDir;
    ZipMember "assets/logo.png" ["assets"; "logo.png"] (ZData "new logo") ].

Definition truncated_archive : list zip_member :=
  [ ZipMember "launcher.py" ["launcher.py"] (ZData "print('0.1.0')");
    ZipMember "assets/logo.png" ["assets"; "logo.png"]
      (ZReadFails "new" (LibraryError "BadZipFile" "Bad CRC-32 for file 'assets/logo.png'")) ].

Definition unzip (bytes : string) : result (list zip_member) :=
  if String.eqb bytes "good archive" then Ok good_archive
  else if String.eqb bytes "truncated archive" then Ok truncated_archive
  else Raise (LibraryError "BadZipFile" "File is not a zip file").

Definition show_path (p : path) : string :=
  "'" ++ foldr (fun c r => "/" ++ c ++ r) "" p ++ "'".

Definition show_exn (e : exn) : string :=
  match e with
  | URLError reason => "<urlopen error " ++ reason ++ ">"
  | FileNotFoundError p => "[Errno 2] No such file or directory: " ++ show_path p
  | IsADirectoryError p => "[Errno 21] Is a directory: " ++ show_path p
  | NotADirectoryError p => "[Errno 20] Not a directory: " ++ show_path p
  | FileExistsError p => "[Errno 17] File exists: " ++ show_path p
  | SameFileError p => show_path p ++ " and " ++ show_path p ++ " are the same file"
  | ValueError fn lit => "invalid literal for " ++ fn ++ "(): '" ++ lit ++ "'"
  | AttributeError ty attr => "'" ++ ty ++ "' object has no attribute '" ++ attr ++ "'"
  | TypeError what => what
  | LibraryError _ msg => msg
  end.

(** Time in whole seconds. *)
#[export] Instance runtime : Runtime := {|
  datetime := Z;
  float := Z;
  timestamp := fun t => t;
  isoformat := fun t => pretty t;
  float_sub := Z.sub;
  float_gt := Z.gtb;
  str_of_float := fun x => pretty x;
  float_of_str := Py.int;
  json_loads := loads;
  json_dumps := dumps;
  zip_read := unzip;
  qt_convert := fun v => Raise (TypeError ("unexpected type '" ++ type_name v ++ "'"));
  exn_str := show_exn
|}.

(** The network: the manifest URL answers with [body]. *)
Definition serving (body : result string) (url : string) : result string :=
  if String.eqb url (UPDATE_SERVER ++ VERSION_FILE) then body
  else Raise (URLError "HTTP Error 404: Not Found").

(** An installation: the launcher, one asset, the two directories
    [__init__] creates. *)
Definition installed : fsmap :=
  list_to_map [ (["launcher.py"], NFile (File "print('0.0.7')" 7));
                (["assets"], NDir);
                (["assets"; "logo.png"], NFile (File "old logo" 8));
                (["temp_updates"], NDir);
                (["backup"], NDir) ].

(** A clock that starts at 1000 and advances [step] seconds per reading. *)
Definition clock_by (step : Z) (n : nat) : Z := 1000 + step * Z.of_nat n.

Definition world_at (step : Z) (m : fsmap) (body : result string) : world :=
  World m (clock_by step) 0 (serving body) 0 [].

Definition world_of (m : fsmap) (body : result string) : world :=
  world_at 5000 m body.

(** A number of [n] digits. *)
Definition ones (n : nat) : string := string_of_list_ascii (repeat "1"%char n).

(** The installation after a check found version 0.1.0 and the archive
    [bytes] was downloaded. *)
Definition update_file : path := ["temp_updates"; "launcher_update.zip"].

Definition downloaded (bytes : string) : fsmap :=
  <[update_file := NFile (File bytes 0)]>
    (<[update_info_file := NFile (File (dumps pending_record) 0)]> installed).

End Sample.

(** * More of the launcher

    The rest of [UpdateManager] ([get_update_info], [download_update]),
    the methods of the window that drive it or react to it
    ([perform_update], [on_update_finished], [attempt_login]), and the
    words the theorems about them are stated in. *)

(** ** Versions as sequences without an end *)

(** The [i]-th number of a version, 0 past its last segment. *)
Definition part_at (l : list Z) (i : nat) : Z := default 0 (l !! i).

(** Two sequences compared position by position: [r] is 0 when they agree
    everywhere, otherwise 1 or -1 as the first position where they differ
    decides. *)
Definition cmp_seq (f g : nat -> Z) (r : Z) : Prop :=
  ((forall i, f i = g i) /\ r = 0) \/
  exists i : nat,
    (forall j : nat, (j < i)%nat -> f j = g j) /\
    ((f i > g i /\ r = 1) \/ (f i < g i /\ r = -1)).

(** The segments of [v] all read as integers, [xs] being the values. *)
Definition parses (v : string) (xs : list Z) : Prop :=
  Forall2 (fun seg x => Py.int seg = Some x) (Py.split "." v) xs.

(** ** The pending-update record read back *)

Section PendingRecord.
Context {RT : Runtime}.

Notation "'let*' x ':=' m 'in' k" := (bind m (fun x => k))
  (at level 10, x name, m at level 100, k at level 200).

(** [get_update_info] (launcher.py:298-306); Python's [None] is [JNull]. *)
Definition get_update_info : M json :=
  try_except
    (let* there := path_exists update_info_file in
     if there then
       let* text := read_file update_info_file in
       lift (json_loads text)
     else ret JNull)
    (fun _ => ret JNull).

End PendingRecord.

(** ** Directories made on the way *)

(** What a call that only makes directories on the way to [p] may have
    done to the tree [m]: nothing is removed or replaced, and what is new
    in [m'] is a directory at a prefix of [p]. *)
Definition grown_towards (p : path) (m m' : fsmap) : Prop :=
  forall q, m' !! q = m !! q \/
            (m !! q = None /\ m' !! q = Some NDir /\ q <> [] /\ q `prefix_of` p).

(** The backup directory of the tree [m] holds a snapshot as
    [create_backup] leaves it (copies of tracked files, under backup and
    backup/assets, and nothing else), and nothing stands where the copies
    go back to: no tracked path is a directory, assets is no regular
    file. *)
Definition snapshot_in_place (m : fsmap) : Prop :=
  m !! backup_dir = Some NDir /\
  (forall q n, backup_dir `prefix_of` q -> m !! q = Some n ->
     q = backup_dir \/ (q = (backup_dir ++ ["assets"])%list /\ n = NDir) \/
     exists p, p ∈ files_to_backup /\ q = (backup_dir ++ p)%list /\
               is_file_node n = true) /\
  (forall p, p ∈ files_to_backup -> fs_isdir m p = false) /\
  fs_isfile m ["assets"] = false.

Section Frames.
Context {RT : Runtime}.

(** A computation that leaves the paths in [P] as they are, whether it
    returns or raises. *)
Definition keeps {A} (P : path -> Prop) (m : M A) : Prop :=
  forall w q, P q -> fs (snd (m w)) !! q = fs w !! q.

(** A computation that only adds to the signals emitted, and only
    signals in [P]. *)
Definition emits_only {A} (P : event -> Prop) (m : M A) : Prop :=
  forall w, exists l, events (snd (m w)) = (events w ++ l)%list /\ Forall P l.

End Frames.


(** ** Signals that report on an update under way *)

(** A status text or a progress value. *)
Definition is_report (e : event) : Prop :=
  match e with
  | StatusChanged _ | UpdateProgress _ => True
  | UpdateAvailable _ _ | UpdateFinished _ _ => False
  end.

(** A progress value between 0 and 100. *)
Definition is_percentage (e : event) : Prop :=
  exists v, e = UpdateProgress v /\ 0 <= v <= 100.

(** The progress [apply_update] reports after entry [j] (from 0) of
    [total] entries. *)
Definition progress_after (total : Z) (j : nat) : event :=
  UpdateProgress ((Z.of_nat j + 1) * 100 / total).


(** ** The download (launcher.py:145-177) and the whole update
       (launcher.py:919-935) *)

(** The texts [download_update] sends through [status_changed]. *)
Inductive download_status : Type :=
| NoDownloadUrl                   (* "No hay URL de descarga disponible" *)
| Downloading                     (* "Descargando actualización..." *)
| DownloadDone                    (* "Descarga completada" *)
| DownloadFailed (msg : string).  (* "Error en descarga: {str(e)}" *)

(** A signal of the launcher while it updates: one of the signals of
    [event], or [status_changed] with a text of [download_update]. *)
Inductive signal : Type :=
| Core (e : event)
| DownloadStatus (s : download_status).

(** What [update_finished] carried, oldest first. *)
Fixpoint finished (l : list signal) : list (bool * string) :=
  match l with
  | [] => []
  | Core (UpdateFinished ok msg) :: l' => (ok, msg) :: finished l'
  | _ :: l' => finished l'
  end.

(** A block that [read] returns before the end of the data: it is not
    empty (the loop of [urlretrieve] stops at the first empty one), so it
    is given by its first byte and the rest. *)
Definition block : Type := ascii * string.

Definition block_bytes (b : block) : string := String (fst b) (snd b).

(** What a server sends for a download: the Content-Length header (-1
    when there is none), the blocks that [read] returns one after the
    other, and the error that ends the reading, if any. *)
Record transfer : Type := Transfer {
  content_length : Z;
  blocks : list block;
  read_error : option exn
}.

(** The bytes of the blocks, one after the other. *)
Definition received (bl : list block) : string :=
  foldr (fun b acc => (block_bytes b ++ acc)%string) "" bl.

(** [os.listdir(p)]: the names of the entries directly in [p], in the
    order of the map. *)
Definition fs_listdir (m : fsmap) (p : path) : result (list string) :=
  match fs_node m p with
  | Some NDir =>
      Ok (omap (fun q => if bool_decide (q <> [] /\ dirname q = p) then last q else None)
               (map_to_list m).*1)
  | Some (NFile _) => Raise (NotADirectoryError p)
  | None => Raise (missing m p)
  end.

(** [bool(v)]; [float_truth] tells whether the float of a literal is
    non-zero. *)
Definition truthy (float_truth : string -> bool) (v : json) : bool :=
  match v with
  | JNull => false
  | JBool b => b
  | JInt n => negb (n =? 0)
  | JFloat lit => float_truth lit
  | JStr s => negb (String.eqb s "")
  | JList l => match l with [] => false | _ => true end
  | JDict d => match d with [] => false | _ => true end
  end.

(** A download status, or a progress value between 0 and 100. *)
Definition is_download_report (s : signal) : Prop :=
  match s with
  | Core e => is_percentage e
  | DownloadStatus _ => True
  end.

Section Download.
Context {RT : Runtime}.

(** What [urlopen(url)] inside [urlretrieve] answers, and the truth of a
    float read from JSON: the library's. *)
Variable retrieve : string -> result transfer.
Variable float_truth : string -> bool.

Notation "'let*' x ':=' m 'in' k" := (bind m (fun x => k))
  (at level 10, x name, m at level 100, k at level 200).
Notation "m ';;' k" := (bind m (fun _ => k))
  (at level 100, k at level 200, right associativity).

Definition listdir (p : path) : M (list string) := fun w => (fs_listdir (fs w) p, w).

(** [report_progress] (launcher.py:165-168). The quotient is the one of
    the integers. *)
Definition report_progress (count block_size total_size : Z) : M unit :=
  when (total_size >? 0)
    (let percent := count * block_size * 100 / total_size in
     emit (UpdateProgress (Z.min percent 100))).

(** The loop of [urlretrieve]: every block read is written and
    reported; [blocknum] blocks were read before [bl]. *)
Fixpoint receive (filename : path) (size : Z) (blocknum : Z) (bl : list block) : M unit :=
  match bl with
  | [] => ret tt
  | b :: rest =>
      file_write filename (block_bytes b) ;;
      report_progress (blocknum + 1) 8192 size ;;
      receive filename size (blocknum + 1) rest
  end.

(** [urllib.request.urlretrieve(url, filename, report_progress)] *)
Definition urlretrieve (url : json) (filename : path) : M unit :=
  match url with
  | JStr u =>
      let* t := lift (retrieve u) in
      let size := content_length t in
      open_w filename ;;
      report_progress 0 8192 size ;;
      receive filename size 0 (blocks t) ;;
      match read_error t with
      | Some e => raise e
      | None =>
          let read := Z.of_nat (String.length (received (blocks t))) in
          if (0 <=? size) && (read <? size)
          then raise (LibraryError "ContentTooShortError" "retrieval incomplete")
          else ret tt
      end
  | _ =>
      raise (TypeError ("expected string or bytes-like object, got '" ++
                        type_name url ++ "'"))
  end.

(** ** Effects with the signals of the download among the others *)

(** The world, and every signal emitted so far, oldest first. *)
Record session : Type := Session {
  base : world;
  log : list signal
}.

Definition U (A : Type) : Type := session -> result A * session.

Definition uret {A} (a : A) : U A := fun s => (Ok a, s).

Definition ubind {A B} (m : U A) (k : A -> U B) : U B :=
  fun s => match m s with
           | (Ok a, s') => k a s'
           | (Raise e, s') => (Raise e, s')
           end.

Definition utry {A} (m : U A) (h : exn -> U A) : U A :=
  fun s => match m s with
           | (Ok a, s') => (Ok a, s')
           | (Raise e, s') => h e s'
           end.

(** A computation of [M], its new signals going to the log. *)
Definition core {A} (m : M A) : U A :=
  fun s => match m (base s) with
           | (r, w') =>
               (r, Session w'
                     (log s ++ map Core (drop (length (events (base s))) (events w'))))
           end.

(** [status_changed.emit] with a text of [download_update]. *)
Definition tell (t : download_status) : U unit :=
  fun s => (Ok tt, Session (base s) (log s ++ [DownloadStatus t])).

Notation "'let+' x ':=' m 'in' k" := (ubind m (fun x => k))
  (at level 10, x name, m at level 100, k at level 200).
Notation "m ';+' k" := (ubind m (fun _ => k))
  (at level 100, k at level 200, right associativity).

(** [download_update] (launcher.py:145-177); the answer [False] is
    [None]. *)
Definition download_update : U (option path) :=
  utry
    (let+ text := core (read_file update_info_file) in
     let+ update_info := core (lift (json_loads text)) in
     let+ download_url := core (lift (py_get update_info "download_url" JNull)) in
     if negb (truthy float_truth download_url) then
       tell NoDownloadUrl ;+
       uret None
     else
       tell Downloading ;+
       let+ names := core (listdir temp_dir) in
       core (for_each names (fun file => remove (temp_dir ++ [file])%list)) ;+
       let temp_file := (temp_dir ++ [UPDATE_FILE])%list in
       core (urlretrieve download_url temp_file) ;+
       tell DownloadDone ;+
       uret (Some temp_file))
    (fun e => tell (DownloadFailed (exn_str e)) ;+ uret None).

(** [perform_update] of the window (launcher.py:919-935). *)
Definition perform_update : U unit :=
  utry
    (let+ update_file := download_update in
     match update_file with
     | None => core (emit (UpdateFinished false "Error en la descarga"))
     | Some update_file =>
         let+ answer := core (apply_update update_file) in
         let (success, message) := answer in
         let+ message_arg := core (lift (signal_arg message)) in
         core (emit (UpdateFinished success message_arg))
     end)
    (fun e => core (emit (UpdateFinished false (exn_str e)))).

End Download.

Section SessionFrames.
Context {RT : Runtime}.

(** As [keeps] and [emits_only], for the computations of [U]. *)
Definition ukeeps {A} (P : path -> Prop) (m : U A) : Prop :=
  forall s q, P q -> fs (base (snd (m s))) !! q = fs (base s) !! q.

Definition ulogs {A} (P : signal -> Prop) (m : U A) : Prop :=
  forall s, exists l, log (snd (m s)) = (log s ++ l)%list /\ Forall P l.

End SessionFrames.


(** ** The login screen (launcher.py:1219-1227) *)

(** The two attributes of the window that tell who plays. *)
Record account : Type := Account {
  current_user : string;
  user_logged_in : bool
}.

(** What the window does next. *)
Inductive login_answer : Type :=
| MainScreen      (* self.show_main_screen() *)
| Warning.        (* QMessageBox.warning(..., "Por favor, ingresa un nombre de usuario") *)

(** [attempt_login]; [text] is what the name field holds. *)
Definition attempt_login (text : string) (a : account) : account * login_answer :=
  let username := Py.strip text in
  if negb (String.eqb username "") && negb (String.eqb username "Ingresa tu nombre")
  then (Account username true, MainScreen)
  else (a, Warning).

(** [s] ends with a white-space character. *)
Fixpoint ends_with_space (s : string) : bool :=
  match s with
  | EmptyString => false
  | String _ r => Py.one_space s || ends_with_space r
  end.

(** Every character of [s] is white space. *)
Definition all_space (s : string) : bool := forallb Py.is_space (Py.code_points s).


(** ** The window on [update_finished] (launcher.py:801, 870-885) *)

(** What the window does when an update is reported finished. *)
Inductive reaction : Type :=
| AnnounceCompleted          (* QMessageBox.information: "La actualización se ha aplicado
                                correctamente. El launcher se reiniciará automáticamente." *)
| ScheduleRestart (msec : Z) (* QTimer.singleShot(msec, self.restart_launcher) *)
| WarnFailed (message : string).
                             (* QMessageBox.warning: "No se pudo completar la
                                actualización:" and the message *)

(** [on_update_finished], the slot connected to [update_finished]. *)
Definition on_update_finished (success : bool) (message : string) : list reaction :=
  if success then [AnnounceCompleted; ScheduleRestart 2000]
  else [WarnFailed message].

(** What [update_finished] carried among the signals of [UpdateManager]. *)
Fixpoint finished_events (l : list event) : list (bool * string) :=
  match l with
  | [] => []
  | UpdateFinished ok msg :: l' => (ok, msg) :: finished_events l'
  | _ :: l' => finished_events l'
  end.

(** The slot runs once for each emission, in order. *)
Definition reactions_to (reports : list (bool * string)) : list reaction :=
  flat_map (fun report => on_update_finished (fst report) (snd report)) reports.


(** ** A concrete server, to run the download on concrete sessions *)

Module Served.
Import Sample.

Definition archive_url : string := "https://example.org/launcher_update.zip".

(** The archive "good archive", sent in two blocks with its length. *)
Definition transfer_of_archive : transfer :=
  Transfer 12 [("g"%char, "ood "); ("a"%char, "rchive")] None.

Definition retrieve (url : string) : result transfer :=
  if String.eqb url archive_url then Ok transfer_of_archive
  else Raise (URLError "HTTP Error 404: Not Found").

(** A float is true when one of the digits of its literal is not 0
    (literals with an exponent are not used here). *)
Definition float_truth (lit : string) : bool :=
  has_char (fun c => (49 <=? nat_of_ascii c)%nat && (nat_of_ascii c <=? 57)%nat) lit.

(** The installation after a check found version 0.1.0, with a file left
    in the download directory by an earlier download. *)
Definition pending : fsmap :=
  <[["temp_updates"; "old.zip"] := NFile (File "stale" 3)]>
    (<[update_info_file := NFile (File (dumps pending_record) 0)]> installed).

(** The same, the record naming no download URL. *)
Definition pending_without_url : fsmap :=
  <[update_info_file := NFile (File (dumps manifest_newer) 0)]> installed.

(** The installation with the archive downloaded and launcher.py lost
    since the backup [m] was made. *)
Definition damaged (m : fsmap) : fsmap := delete ["launcher.py"] m.

End Served.

(** * Version comparison: the code against the specification *)

Section Versions.

Lemma ascii_digit_range c d : ascii_digit c = Some d -> 48 <= Py.byte c <= 57 /\ d = Py.byte c - 48.
Proof.
  unfold ascii_digit. cbv zeta.
  destruct (48 <=? Py.byte c) eqn:E1; [|done]. destruct (Py.byte c <=? 57) eqn:E2; [|done].
  intros [= <-]. lia.
Qed.

Lemma digit_val_ascii n : 48 <= n <= 57 -> Py.digit_val n = Some (n - 48).
Proof.
  intros Hn. unfold Py.digit_val, Py.decimal_zeros. cbn [find].
  replace ((48 <=? n) && (n <=? 48 + 9)) with true; [done|].
  symmetry. apply andb_true_iff. split; apply Z.leb_le; lia.
Qed.

Lemma first_char_ascii a r : Py.byte a < 128 -> Py.first_char (String a r) = (Py.byte a, 1%nat).
Proof.
  intros Ha. unfold Py.first_char. by rewrite (proj2 (Z.ltb_lt _ _) Ha).
Qed.

(** The code points of a string of ASCII digits are its byte_list. *)
Lemma code_points_digits s : all_digits s = true -> Py.code_points s = byte_list s.
Proof.
  unfold Py.code_points. induction s as [|a r IH]; [done|].
  cbn [all_digits]. intros [Ha Hr]%andb_true_iff. apply bool_decide_eq_true in Ha as [d Hd].
  apply ascii_digit_range in Hd as [Hrange _].
  cbn [Py.code_points_from byte_list]. rewrite first_char_ascii by lia. cbn [fst snd Nat.sub].
  by rewrite IH.
Qed.

Lemma int_space_digit n : 48 <= n <= 57 -> Py.int_space n = false.
Proof.
  intros Hn. unfold Py.int_space, Py.wide_space.
  repeat match goal with
  | |- context [?a <=? ?b] => destruct (Z.leb_spec a b); try lia
  | |- context [?a =? ?b] => destruct (Z.eqb_spec a b); try lia
  end; done.
Qed.

Lemma skip_spaces_id l : Forall (fun c => Py.int_space c = false) l -> Py.skip_spaces l = l.
Proof. destruct 1 as [|c l Hc _]; [done|]. cbn. by rewrite Hc. Qed.

Lemma trim_id l : Forall (fun c => Py.int_space c = false) l -> Py.trim l = l.
Proof.
  intros Hl. unfold Py.trim. rewrite (skip_spaces_id l Hl).
  rewrite skip_spaces_id; [apply rev_involutive|]. by apply Forall_rev.
Qed.

Lemma bytes_digits s :
  all_digits s = true -> Forall (fun c => 48 <= c <= 57) (byte_list s).
Proof.
  induction s as [|a r IH]; cbn [all_digits byte_list]; [by constructor|].
  intros [Ha Hr]%andb_true_iff. apply bool_decide_eq_true in Ha as [d Hd].
  apply ascii_digit_range in Hd as [Hrange _]. constructor; auto.
Qed.

Lemma length_bytes s : length (byte_list s) = String.length s.
Proof. induction s as [|a r IH]; cbn; congruence. Qed.

Lemma all_digits_value s acc count after :
  all_digits s = true ->
  (after = true \/ s <> EmptyString) ->
  count + Z.of_nat (String.length s) <= Py.max_str_digits ->
  Py.digits acc count after (byte_list s) = Some (decimal acc s).
Proof.
  revert acc count after. induction s as [|a r IH]; intros acc count after Hs Hne Hlen.
  - destruct Hne as [->|Hne]; [|done]. cbn in *.
    by rewrite (proj2 (Z.leb_le _ _)) by lia.
  - cbn [all_digits] in Hs. apply andb_true_iff in Hs as [Ha Hr].
    apply bool_decide_eq_true in Ha as [d Hd].
    cbn [byte_list Py.digits decimal]. rewrite Hd. cbn [default].
    apply ascii_digit_range in Hd as [Hrange ->].
    rewrite digit_val_ascii by done.
    apply IH; [done|by left|]. cbn [String.length] in Hlen. lia.
Qed.

(** On a segment [int] reads the decimal value. *)
Lemma int_of_segment s :
  is_segment s = true ->
  Z.of_nat (String.length s) <= Py.max_str_digits ->
  int_of_str s = Ok (decimal 0 s).
Proof.
  unfold is_segment. intros [Hne Hs]%andb_true_iff Hlen.
  assert (Py.int s = Some (decimal 0 s)) as Hint; [|unfold int_of_str; by rewrite Hint].
  unfold Py.int. rewrite (code_points_digits _ Hs).
  pose proof (bytes_digits _ Hs) as Hd.
  rewrite trim_id; last first.
  { eapply Forall_impl; [exact Hd|]. intros c Hc. by apply int_space_digit. }
  assert (Py.digits 0 0 false (byte_list s) = Some (decimal 0 s)) as Hv.
  { apply all_digits_value; [done| |lia]. right. intros ->. done. }
  destruct s as [|a r]; [done|]. cbn [byte_list] in *.
  apply Forall_cons in Hd as [Ha _]. cbv zeta. cbn [Py.unsigned Py.negative].
  rewrite (proj2 (Z.eqb_neq _ 45)), (proj2 (Z.eqb_neq _ 43)) by lia. exact Hv.
Qed.


(** The parser of [int] accepts the numerals, and nothing else. *)
Lemma digits_shape u acc count after :
  match Py.digits acc count after u with Some _ => true | None => false end =
  forallb (fun c => is_digit c || (c =? 95)) u &&
  (after || match u with c :: _ => is_digit c | [] => false end) &&
  match last u with Some c => is_digit c | None => true end &&
  single_underscores u &&
  (count + Z.of_nat (length (List.filter is_digit u)) <=? Py.max_str_digits).
Proof.
  revert acc count after. induction u as [|c u IH]; intros acc count after.
  - cbn. rewrite Z.add_0_r, orb_false_r. by destruct after, (count <=? Py.max_str_digits).
  - cbn [Py.digits forallb single_underscores List.filter].
    destruct (Py.digit_val c) as [d|] eqn:Hd.
    + assert (is_digit c = true) as Hc by (unfold is_digit; by rewrite Hd).
      assert ((c =? 95) = false) as Hu.
      { destruct (Z.eqb_spec c 95) as [->|]; [discriminate Hd|done]. }
      rewrite IH, Hc, Hu. cbn [orb andb negb length].
      replace (count + 1 + Z.of_nat (length (List.filter is_digit u)))
        with (count + Z.of_nat (S (length (List.filter is_digit u)))) by lia.
      rewrite orb_true_r. cbn [andb].
      destruct u as [|c' u]; [|done]. cbn. by rewrite Hc.
    + assert (is_digit c = false) as Hc by (unfold is_digit; by rewrite Hd).
      rewrite Hc. cbn [orb].
      destruct (Z.eqb_spec c 95) as [Hu|Hu]; cbn [andb]; [|done].
      destruct after; cbn [andb orb]; [|by rewrite andb_false_r].
      rewrite IH. cbn [orb]. subst c.
      destruct u as [|c' u]; [cbn; by rewrite ?andb_false_r|].
      cbn [forallb last single_underscores].
      change (last (95 :: c' :: u)) with (last (c' :: u)).
      destruct (is_digit c') eqn:Hc'.
      * assert ((c' =? 95) = false) as ->.
        { destruct (Z.eqb_spec c' 95) as [->|]; [discriminate Hc'|done]. }
        done.
      * cbn [orb]. destruct (c' =? 95); cbn [andb negb]; [|done].
        by rewrite ?andb_false_r.
Qed.

Lemma numeral_digits u :
  numeral u = match Py.digits 0 0 false u with Some _ => true | None => false end.
Proof.
  rewrite digits_shape. unfold numeral. rewrite Z.add_0_l. cbn [orb].
  destruct u as [|c u]; [done|].
  destruct (last_is_Some (c :: u)) as [_ [x Hx]]; [done|]. by rewrite Hx.
Qed.

(** [int] raises exactly on the strings that are no literal. *)
Lemma int_literal_spec s : Py.int s = None <-> int_literal s = false.
Proof.
  unfold int_literal, Py.int. cbv zeta. rewrite numeral_digits.
  destruct (Py.digits 0 0 false _); destruct (Py.negative _); cbn; split; done.
Qed.

Lemma parts_of_version v :
  is_version v = true -> within_int_limit v = true ->
  rmap_list int_of_str (Py.split "." v) = Ok (spec_parts v).
Proof.
  unfold is_version, within_int_limit, spec_parts.
  induction (Py.split "." v) as [|s l IH]; simpl; [done|].
  intros [Hs Hl]%andb_true_iff [Hn Hln]%andb_true_iff.
  apply Z.leb_le in Hn. rewrite (int_of_segment _ Hs Hn). simpl.
  by rewrite (IH Hl Hln).
Qed.

Lemma append_zeros_repeat k l : append_zeros k l = (l ++ repeat 0 k)%list.
Proof.
  revert l. induction k as [|k IH]; intros l; simpl.
  - by rewrite app_nil_r.
  - rewrite IH, <- app_assoc. done.
Qed.

Lemma pad_while_spec l n : pad_while l n = spec_pad n l.
Proof. unfold pad_while, spec_pad. apply append_zeros_repeat. Qed.

Lemma spec_pad_length n l : length (spec_pad n l) = Nat.max n (length l).
Proof. unfold spec_pad. rewrite length_app, repeat_length. lia. Qed.

Lemma spec_pad_max n l : spec_pad (Nat.max n (length l)) l = spec_pad n l.
Proof. unfold spec_pad. f_equal. f_equal. lia. Qed.

Lemma compare_parts_lex a b :
  length a = length b -> compare_parts a b = Ok (spec_lex a b).
Proof.
  revert b. induction a as [|x a IH]; intros [|y b] Hlen; simpl in *; try done.
  destruct (Z.compare_spec x y) as [->|Hlt|Hgt].
  - rewrite Z.gtb_ltb, Z.ltb_irrefl. apply IH. lia.
  - destruct (x >? y) eqn:E; [rewrite Z.gtb_ltb in E; apply Z.ltb_lt in E; lia|].
    by rewrite (proj2 (Z.ltb_lt x y) Hlt).
  - destruct (x >? y) eqn:E; [done|]. rewrite Z.gtb_ltb in E. apply Z.ltb_ge in E. lia.
Qed.

(** The code computes the comparison of the specification. *)
Lemma compare_versions_spec a b :
  is_version a = true -> within_int_limit a = true ->
  is_version b = true -> within_int_limit b = true ->
  compare_versions a b = Ok (spec_compare a b).
Proof.
  intros Ha Hla Hb Hlb. unfold compare_versions, spec_compare.
  rewrite (parts_of_version _ Ha Hla), (parts_of_version _ Hb Hlb). simpl.
  set (xs := spec_parts a). set (ys := spec_parts b).
  rewrite !pad_while_spec, spec_pad_length.
  rewrite compare_parts_lex.
  - f_equal. f_equal.
    + rewrite <- (spec_pad_max (length ys) xs). f_equal. lia.
    + rewrite <- (spec_pad_max _ ys). f_equal. lia.
  - rewrite !spec_pad_length. lia.
Qed.

Lemma spec_lex_opp a b : spec_lex b a = - spec_lex a b.
Proof.
  revert b. induction a as [|x a IH]; intros [|y b]; simpl; try done.
  rewrite (Z.compare_antisym x y). destruct (x ?= y); simpl; auto.
Qed.

Lemma spec_lex_refl a : spec_lex a a = 0.
Proof. induction a as [|x a IH]; simpl; [done|]. by rewrite Z.compare_refl. Qed.

Lemma spec_compare_opp a b : spec_compare b a = - spec_compare a b.
Proof.
  unfold spec_compare. rewrite (Nat.max_comm (length (spec_parts b))).
  apply spec_lex_opp.
Qed.

Lemma spec_lex_first_difference a b :
  length a = length b -> first_difference a b (spec_lex a b).
Proof.
  revert b. induction a as [|x a IH]; intros [|y b] Hlen; simpl in *; try done.
  { by left. }
  destruct (Z.compare_spec x y) as [->|Hlt|Hgt].
  - destruct (IH b ltac:(lia)) as [[-> Hr]|(i & u & v & Ht & Hu & Hv & Hr)];
      [by left|].
    right. exists (S i), u, v. simpl. rewrite Ht. done.
  - right. exists 0%nat, x, y. simpl. repeat split; try done. right. lia.
  - right. exists 0%nat, x, y. simpl. repeat split; try done. left. lia.
Qed.

(** Parts that were all read are compared: the comparison returns. *)
Lemma compare_versions_literals v1 v2 :
  (forall seg, seg ∈ Py.split "." v2 -> is_Some (Py.int seg)) ->
  (forall seg, seg ∈ Py.split "." v1 -> int_literal seg = true) ->
  exists c, compare_versions v1 v2 = Ok c.
Proof.
  intros H2 H1.
  assert (forall l, (forall seg, seg ∈ l -> is_Some (Py.int seg)) ->
                    exists xs, rmap_list int_of_str l = Ok xs) as Hall.
  { induction l as [|s l IH]; intros Hl; [by exists []|].
    destruct (Hl s ltac:(by left)) as [x Hx].
    destruct IH as [xs Hxs]; [intros seg Hseg; apply Hl; by right|].
    exists (x :: xs). cbn [rmap_list]. unfold int_of_str at 1. rewrite Hx. cbn [rbind].
    by rewrite Hxs. }
  destruct (Hall (Py.split "." v1)) as [xs Hxs].
  { intros seg Hseg. specialize (H1 seg Hseg).
    destruct (Py.int seg) eqn:E; [done|]. apply int_literal_spec in E. congruence. }
  destruct (Hall _ H2) as [ys Hys].
  unfold compare_versions. rewrite Hxs, Hys. cbn [rbind]. cbv zeta.
  rewrite !pad_while_spec, compare_parts_lex; [by eexists|].
  rewrite !spec_pad_length. lia.
Qed.

(** C2, as the code has it. For dot-separated non-negative-integer
    version strings [a] and [b] none of whose segments is longer than the
    4300 digits [int] reads, [compare_versions a b] is the comparison of
    the specification: split on '.', read every segment as an integer,
    right-pad the shorter sequence with zeros, compare lexicographically;
    the answer is 0 when the padded sequences are equal and otherwise 1
    or -1 as the first differing position decides. The four sample
    comparisons hold. *)
Theorem compare_versions_refines_spec (a b : string) :
  is_version a = true -> within_int_limit a = true ->
  is_version b = true -> within_int_limit b = true ->
  compare_versions a b = Ok (spec_compare a b) /\
  (let n := Nat.max (length (spec_parts a)) (length (spec_parts b)) in
   first_difference (spec_pad n (spec_parts a)) (spec_pad n (spec_parts b))
     (spec_compare a b)) /\
  compare_versions "1.2.0" "1.2" = Ok 0 /\
  compare_versions "1.3.0" "1.2.9" = Ok 1 /\
  compare_versions "1.2" "1.2.1" = Ok (-1) /\
  compare_versions "0.0.7" "0.0.7" = Ok 0.
Proof.
  intros Ha Hla Hb Hlb. split; [by apply compare_versions_spec|].
  split; [|by repeat split].
  apply spec_lex_first_difference. rewrite !spec_pad_length. lia.
Qed.

(** C10, as the code has it. On version strings none of whose segments
    is longer than the 4300 digits [int] reads, the comparison is
    antisymmetric and reflexive: [compare_versions b a] is the negation of
    [compare_versions a b], and [compare_versions a a] is 0. *)
Theorem compare_versions_antisym_refl (a b : string) :
  is_version a = true -> within_int_limit a = true ->
  is_version b = true -> within_int_limit b = true ->
  (exists r, compare_versions a b = Ok r /\ compare_versions b a = Ok (- r)) /\
  compare_versions a a = Ok 0.
Proof.
  intros Ha Hla Hb Hlb. split.
  - exists (spec_compare a b).
    rewrite !compare_versions_spec by done. by rewrite (spec_compare_opp a b).
  - rewrite compare_versions_spec by done. f_equal. apply spec_lex_refl.
Qed.

End Versions.

(** * The monad and the file system: basic facts *)

(** Closes a goal between two spellings of one outcome. *)
Ltac same_world :=
  unfold ret, emitting, stamped, persisted, ticking, set_fs; simpl;
  rewrite <- ?app_assoc; simpl; reflexivity.

(** Runs the monadic plumbing, leaving the maps alone. *)
Ltac mrun :=
  cbv beta iota zeta delta
    [bind try_except ret raise lift when say emit fs_do path_exists path_isdir
     read_file rmtree remove mkdir copy2 open_w file_write walk_files
     datetime_now set_fs emitting ticking negb];
  cbn [fs events clock ticks urlopen new_meta].

Section Effects.
Context {RT : Runtime}.

Lemma set_fs_same w : set_fs (fs w) w = w.
Proof. by destruct w. Qed.

Lemma bind_ok {A B} (m : M A) (k : A -> M B) w a w' :
  m w = (Ok a, w') -> bind m k w = k a w'.
Proof. unfold bind. by intros ->. Qed.

Lemma bind_raise {A B} (m : M A) (k : A -> M B) w e w' :
  m w = (Raise e, w') -> bind m k w = (Raise e, w').
Proof. unfold bind. by intros ->. Qed.

Lemma bind_inv_ok {A B} (m : M A) (k : A -> M B) w b w' :
  bind m k w = (Ok b, w') -> exists a w1, m w = (Ok a, w1) /\ k a w1 = (Ok b, w').
Proof.
  unfold bind. destruct (m w) as [[a|e] w1]; [eauto|discriminate].
Qed.

Lemma try_ok {A} (m : M A) h w a w' :
  m w = (Ok a, w') -> try_except m h w = (Ok a, w').
Proof. unfold try_except. by intros ->. Qed.

Lemma try_raise {A} (m : M A) h w e w' :
  m w = (Raise e, w') -> try_except m h w = h e w'.
Proof. unfold try_except. by intros ->. Qed.

Lemma say_run s w : say s w = (Ok tt, emitting [StatusChanged s] w).
Proof. reflexivity. Qed.

Lemma emit_run e w : emit e w = (Ok tt, emitting [e] w).
Proof. reflexivity. Qed.

Lemma emitting_app l1 l2 w : emitting l2 (emitting l1 w) = emitting (l1 ++ l2) w.
Proof. unfold emitting. simpl. by rewrite app_assoc. Qed.

Lemma fs_write_fresh (m : fsmap) (p : path) (s : string) (meta : Z) :
  fs_write (<[p := NFile (File "" meta)]> m) p s = <[p := NFile (File s meta)]> m.
Proof. unfold fs_write. by rewrite alter_insert_eq. Qed.

(** [open(p, 'w')] directly under script_dir fails only on a directory. *)
Lemma fs_open_w_top (meta : Z) (m : fsmap) (c : string) :
  fs_open_w meta m [c] =
    if fs_isdir m [c] then Raise (IsADirectoryError [c])
    else Ok (<[[c] := NFile (File "" meta)]> m).
Proof.
  unfold fs_open_w, fs_isdir. simpl. by destruct (m !! [c]) as [[]|].
Qed.

(** [update_last_check] never raises; it writes unless the path is a
    directory. *)
Lemma update_last_check_run w :
  update_last_check w =
    (Ok tt, if fs_isdir (fs w) last_check_file then w else stamped w).
Proof.
  unfold update_last_check, try_except, bind, open_w, fs_do, last_check_file.
  rewrite fs_open_w_top. destruct (fs_isdir (fs w) ["last_check.txt"]) eqn:E; simpl.
  - reflexivity.
  - unfold file_write, fs_do, stamped, ticking, set_fs. simpl.
    by rewrite fs_write_fresh.
Qed.

(** [should_check_update] always answers and only reads the clock. *)
Lemma should_check_update_run w :
  exists due, should_check_update w = (Ok due, w) \/
              should_check_update w = (Ok due, ticking w).
Proof.
  unfold should_check_update, bind, try_except, path_exists, read_file, float_of.
  simpl. destruct (fs_exists (fs w) last_check_file); simpl; [|eauto].
  destruct (fs_read (fs w) last_check_file) as [f|e]; simpl; [|eauto].
  destruct (float_of_str (Py.strip (fdata f))); simpl; eauto.
Qed.

End Effects.

(** * The manifest check *)

Section Check.
Context {RT : Runtime}.

Lemma isdir_insert_ne (m : fsmap) (p q : path) (n : node) :
  p <> q -> q <> [] -> fs_isdir (<[p := n]> m) q = fs_isdir m q.
Proof.
  intros Hne Hq. unfold fs_isdir, fs_node. destruct q; [done|].
  by rewrite lookup_insert_ne.
Qed.

Lemma check_body_not_newer force w body d v c :
  urlopen w (UPDATE_SERVER ++ VERSION_FILE) = Ok body ->
  json_loads body = Ok (JDict d) ->
  manifest_version d = JStr v ->
  compare_versions v VERSION = Ok c ->
  c <= 0 ->
  check_body force w =
    (Ok false,
     let w1 := emitting ([StatusChanged Connecting;
                          StatusChanged (RemoteVersion (JStr v));
                          StatusChanged UpToDate] ++
                         if force then [UpdateFinished true "Ya tienes la última versión"]
                         else []) w in
     if fs_isdir (fs w) last_check_file then w1 else stamped w1).
Proof.
  intros Hurl Hjson Hv Hc Hle. unfold check_body, bind, say, emit, lift. simpl.
  rewrite Hurl, Hjson. simpl. fold (manifest_version d). rewrite Hv. simpl.
  rewrite Hc. destruct (c >? 0) eqn:E; [apply Z.gtb_lt in E; lia|].
  destruct force; simpl; rewrite update_last_check_run; simpl;
    destruct (fs_isdir (fs w) last_check_file); same_world.
Qed.

Lemma check_body_newer force w body d v c cs :
  urlopen w (UPDATE_SERVER ++ VERSION_FILE) = Ok body ->
  json_loads body = Ok (JDict d) ->
  manifest_version d = JStr v ->
  compare_versions v VERSION = Ok c ->
  0 < c ->
  signal_arg (manifest_changelog d) = Ok cs ->
  fs_isdir (fs w) update_info_file = false ->
  check_body force w =
    (Ok true,
     let record := update_info_of (JStr v) (manifest_changelog d)
                     (manifest_download_url d) (manifest_files d) (clock w (ticks w)) in
     let w0 := emitting [StatusChanged Connecting;
                         StatusChanged (RemoteVersion (JStr v));
                         StatusChanged (NewVersion (JStr v))] w in
     let w1 := emitting [UpdateAvailable v cs] (persisted record (ticking w0)) in
     if fs_isdir (fs w) last_check_file then w1 else stamped w1).
Proof.
  intros Hurl Hjson Hv Hc Hlt Hcs Hdir.
  unfold check_body, bind, say, emit, lift. simpl.
  rewrite Hurl, Hjson. simpl.
  fold (manifest_version d) (manifest_changelog d) (manifest_download_url d)
       (manifest_files d).
  rewrite Hv. simpl. rewrite Hc.
  destruct (c >? 0) eqn:E; [|rewrite Z.gtb_ltb in E; apply Z.ltb_ge in E; lia].
  simpl. unfold open_w, fs_do, update_info_file. simpl fs. rewrite fs_open_w_top.
  fold update_info_file. rewrite Hdir. simpl.
  unfold file_write, fs_do. simpl. rewrite fs_write_fresh, Hcs. simpl.
  rewrite update_last_check_run. simpl.
  rewrite isdir_insert_ne by done.
  destruct (fs_isdir (fs w) last_check_file); same_world.
Qed.

(** A newer version whose record cannot be written: the block raises
    before anything is announced. *)
Lemma check_body_unwritable force w body d v c :
  urlopen w (UPDATE_SERVER ++ VERSION_FILE) = Ok body ->
  json_loads body = Ok (JDict d) ->
  manifest_version d = JStr v ->
  compare_versions v VERSION = Ok c ->
  0 < c ->
  fs_isdir (fs w) update_info_file = true ->
  check_body force w =
    (Raise (IsADirectoryError update_info_file),
     ticking (emitting [StatusChanged Connecting;
                        StatusChanged (RemoteVersion (JStr v));
                        StatusChanged (NewVersion (JStr v))] w)).
Proof.
  intros Hurl Hjson Hv Hc Hlt Hdir.
  unfold check_body, bind, say, emit, lift. simpl.
  rewrite Hurl, Hjson. simpl. fold (manifest_version d). rewrite Hv. simpl. rewrite Hc.
  destruct (c >? 0) eqn:E; [|rewrite Z.gtb_ltb in E; apply Z.ltb_ge in E; lia].
  simpl. unfold open_w, fs_do, update_info_file. simpl fs. rewrite fs_open_w_top.
  fold update_info_file. rewrite Hdir. same_world.
Qed.

(** A newer version whose changelog no [str] signal carries: the record
    is written, then the emission raises. *)
Lemma check_body_unannounced force w body d v c e :
  urlopen w (UPDATE_SERVER ++ VERSION_FILE) = Ok body ->
  json_loads body = Ok (JDict d) ->
  manifest_version d = JStr v ->
  compare_versions v VERSION = Ok c ->
  0 < c ->
  fs_isdir (fs w) update_info_file = false ->
  signal_arg (manifest_changelog d) = Raise e ->
  check_body force w =
    (Raise e,
     let record := update_info_of (JStr v) (manifest_changelog d)
                     (manifest_download_url d) (manifest_files d) (clock w (ticks w)) in
     persisted record (ticking (emitting [StatusChanged Connecting;
                        StatusChanged (RemoteVersion (JStr v));
                        StatusChanged (NewVersion (JStr v))] w))).
Proof.
  intros Hurl Hjson Hv Hc Hlt Hdir Hcs.
  unfold check_body, bind, say, emit, lift. simpl.
  rewrite Hurl, Hjson. simpl.
  fold (manifest_version d) (manifest_changelog d) (manifest_download_url d)
       (manifest_files d).
  rewrite Hv. simpl. rewrite Hc.
  destruct (c >? 0) eqn:E; [|rewrite Z.gtb_ltb in E; apply Z.ltb_ge in E; lia].
  simpl. unfold open_w, fs_do, update_info_file. simpl fs. rewrite fs_open_w_top.
  fold update_info_file. rewrite Hdir. simpl.
  unfold file_write, fs_do. simpl. rewrite fs_write_fresh, Hcs. same_world.
Qed.

(** When the [try:] block of the check runs to its end. *)
Lemma check_body_completes force w :
  (exists found w1, check_body force w = (Ok found, w1)) <->
  exists body d v c,
    urlopen w (UPDATE_SERVER ++ VERSION_FILE) = Ok body /\
    json_loads body = Ok (JDict d) /\
    manifest_version d = JStr v /\
    compare_versions v VERSION = Ok c /\
    (0 < c -> fs_isdir (fs w) update_info_file = false /\
              exists cs, signal_arg (manifest_changelog d) = Ok cs).
Proof.
  split.
  - intros (found & w1 & Hrun). revert Hrun.
    unfold check_body, bind, say, emit, lift. simpl.
    destruct (urlopen w (UPDATE_SERVER ++ VERSION_FILE)) as [body|e] eqn:Hurl; simpl;
      [|done].
    destruct (json_loads body) as [data|e] eqn:Hjson; simpl; [|done].
    destruct data as [| | | | |l|d]; simpl; try done.
    fold (manifest_version d) (manifest_changelog d).
    destruct (manifest_version d) as [| | | |v| |] eqn:Hv; simpl; try done.
    destruct (compare_versions v VERSION) as [c|e] eqn:Hc; simpl; [|done].
    intros Hrun. exists body, d, v, c.
    split; [done|]. split; [done|]. split; [done|]. split; [done|]. intros Hlt.
    destruct (c >? 0) eqn:E; [|rewrite Z.gtb_ltb in E; apply Z.ltb_ge in E; lia].
    simpl in Hrun. unfold open_w, fs_do, update_info_file in Hrun. simpl fs in Hrun.
    rewrite fs_open_w_top in Hrun. fold update_info_file in Hrun.
    destruct (fs_isdir (fs w) update_info_file); [done|]. split; [done|].
    simpl in Hrun. unfold file_write, fs_do in Hrun. simpl in Hrun.
    destruct (signal_arg (manifest_changelog d)) as [cs|e]; [by exists cs|done].
  - intros (body & d & v & c & Hurl & Hjson & Hv & Hc & Hnewer).
    destruct (Z_lt_le_dec 0 c) as [Hlt|Hle].
    + destruct (Hnewer Hlt) as (Hdir & cs & Hcs).
      eexists _, _. eapply check_body_newer; eauto.
    + eexists _, _. eapply check_body_not_newer; eauto.
Qed.

(** Whatever the network answers: an attempt that raises leaves the
    timestamp file alone, one that runs to its end has gone through
    [update_last_check]. *)
Lemma check_body_outcome force w :
  match check_body force w with
  | (Ok found, w') =>
      exists w1, w' = (if fs_isdir (fs w) last_check_file then w1 else stamped w1)
  | (Raise e, w') => fs w' !! last_check_file = fs w !! last_check_file
  end.
Proof.
  unfold check_body, bind, say, emit, lift. simpl.
  destruct (urlopen w (UPDATE_SERVER ++ VERSION_FILE)) as [body|e]; simpl; [|done].
  destruct (json_loads body) as [data|e]; simpl; [|done].
  destruct data as [| | | | |l|d]; simpl; try done.
  destruct (default (JStr "0.0.0") (assoc "version" d)) as [| | | |v| |]; simpl; try done.
  destruct (compare_versions v VERSION) as [c|e]; simpl; [|done].
  destruct (c >? 0).
  - simpl. unfold open_w, fs_do, update_info_file. simpl fs. rewrite fs_open_w_top.
    destruct (fs_isdir (fs w) ["update_info.json"]); simpl; [done|].
    unfold file_write, fs_do. simpl. rewrite fs_write_fresh.
    destruct (signal_arg _) as [cs|e]; simpl.
    + rewrite update_last_check_run. simpl. rewrite isdir_insert_ne by done.
      eexists. reflexivity.
    + by rewrite lookup_insert_ne.
  - destruct force; simpl; rewrite update_last_check_run; simpl; eexists; reflexivity.
Qed.

Lemma check_for_updates_fetch force w w0 :
  starts_fetch force w w0 ->
  check_for_updates force w =
    try_except (check_body force) check_failed (emitting [StatusChanged Searching] w0).
Proof.
  unfold starts_fetch, check_for_updates. destruct force.
  - by intros ->.
  - intros Hdue. by rewrite (bind_ok _ _ _ _ _ Hdue).
Qed.

Lemma check_for_updates_skip w w0 :
  should_check_update w = (Ok false, w0) ->
  check_for_updates false w = (Ok false, w0).
Proof.
  intros Hdue. unfold check_for_updates. by rewrite (bind_ok _ _ _ _ _ Hdue).
Qed.

Lemma starts_fetch_same force w w0 :
  starts_fetch force w w0 -> w0 = w \/ w0 = ticking w.
Proof.
  unfold starts_fetch. destruct force; [by left|].
  destruct (should_check_update_run w) as [due [H|H]]; rewrite H; intros [= _ <-]; auto.
Qed.

Lemma announced_app l1 l2 : announced (l1 ++ l2) = (announced l1 ++ announced l2)%list.
Proof.
  induction l1 as [|e l1 IH]; simpl; [done|]. destruct e; simpl; by rewrite ?IH.
Qed.

Lemma events_stamped_if (b : bool) w : events (if b then w else stamped w) = events w.
Proof. by destruct b. Qed.

(** The first segment [int] rejects is the one reported. *)
Lemma parts_raise (l : list string) :
  Exists (fun seg => Py.int seg = None) l ->
  exists seg, seg ∈ l /\ Py.int seg = None /\
              rmap_list int_of_str l = Raise (ValueError "int" seg).
Proof.
  induction 1 as [x l Hx|x l Hl IH]; simpl; unfold int_of_str at 1.
  - exists x. rewrite Hx. repeat split; try done. by left.
  - destruct (Py.int x) as [n|] eqn:Hx; simpl.
    + destruct IH as (y & Hy & Hby & Hr). exists y. rewrite Hr.
      repeat split; try done. by right.
    + exists x. repeat split; try done. by left.
Qed.

Lemma compare_versions_bad_segment v v2 :
  Exists (fun seg => Py.int seg = None) (Py.split "." v) ->
  exists seg, seg ∈ Py.split "." v /\ Py.int seg = None /\
              compare_versions v v2 = Raise (ValueError "int" seg).
Proof.
  intros (seg & Hin & Hbad & Hr)%parts_raise. exists seg.
  unfold compare_versions. by rewrite Hr.
Qed.

Lemma check_body_bad_version force w body data v e :
  urlopen w (UPDATE_SERVER ++ VERSION_FILE) = Ok body ->
  json_loads body = Ok data ->
  py_get data "version" (JStr "0.0.0") = Ok (JStr v) ->
  compare_versions v VERSION = Raise e ->
  check_body force w =
    (Raise e, emitting [StatusChanged Connecting; StatusChanged (RemoteVersion (JStr v))] w).
Proof.
  intros Hurl Hjson Hv Hc. unfold check_body, bind, say, emit, lift. simpl.
  rewrite Hurl, Hjson. simpl. rewrite Hv. simpl.
  destruct data; try discriminate. simpl. rewrite Hc. same_world.
Qed.

(** No error of the check reaches the caller. *)
Lemma check_for_updates_returns force w :
  exists found w', check_for_updates force w = (Ok found, w').
Proof.
  assert (forall w0, exists found w',
            bind (say Searching) (fun _ => try_except (check_body force) check_failed) w0
              = (Ok found, w')) as Hfetch.
  { intros w0. rewrite (bind_ok _ _ _ _ _ (say_run _ _)). unfold try_except.
    destruct (check_body force _) as [[found|e] w']; [eauto|].
    unfold check_failed. destruct (is_URLError e); eauto. }
  unfold check_for_updates. destruct force.
  - rewrite (bind_ok _ _ w true w eq_refl). apply Hfetch.
  - destruct (should_check_update_run w) as [[|] [Hdue|Hdue]];
      rewrite (bind_ok _ _ _ _ _ Hdue); cbn [negb]; eauto.
Qed.

(** C3, as the code has it. When the manifest's version compares
    strictly greater than [VERSION], the check first writes the record of
    the update (the version, the changelog, the download URL and the file
    list as the manifest gives them, and the time) to update_info.json and
    then emits [update_available]. So: when update_info.json cannot be
    written (it is a directory) nothing is announced and the check answers
    [False]; otherwise the record is on disk at the end, and when the
    changelog is what a [str] signal carries, the check answers [True]
    having emitted exactly one [update_available] with that version and
    changelog; when it is not, the check answers [False] and has announced
    nothing. When the version compares equal or lesser, no
    [update_available] is emitted. *)
Theorem update_available_iff_newer force w w0 body d v c :
  starts_fetch force w w0 ->
  urlopen w0 (UPDATE_SERVER ++ VERSION_FILE) = Ok body ->
  json_loads body = Ok (JDict d) ->
  manifest_version d = JStr v ->
  compare_versions v VERSION = Ok c ->
  let record :=
    JDict [("remote_version", JStr v);
           ("changelog", manifest_changelog d);
           ("download_url", manifest_download_url d);
           ("files", manifest_files d);
           ("timestamp", JStr (isoformat (clock w0 (ticks w0))))] in
  exists found w',
    check_for_updates force w = (Ok found, w') /\
    (0 < c ->
     if fs_isdir (fs w) update_info_file then
       found = false /\ announced (events w') = announced (events w) /\ fs w' = fs w
     else
       fs w' !! update_info_file =
         Some (NFile (File (json_dumps record) (new_meta w))) /\
       match signal_arg (manifest_changelog d) with
       | Ok cs =>
           found = true /\
           announced (events w') = (announced (events w) ++ [(v, cs)])%list
       | Raise _ =>
           found = false /\ announced (events w') = announced (events w)
       end) /\
    (c <= 0 -> found = false /\ announced (events w') = announced (events w)).
Proof.
  intros Hstart Hurl Hjson Hv Hc record.
  assert (events w0 = events w /\ new_meta w0 = new_meta w /\ fs w0 = fs w)
    as (Hev & Hmeta & Hfs).
  { by destruct (starts_fetch_same _ _ _ Hstart) as [->| ->]. }
  assert (forall (b : bool) x, fs (if b then x else stamped x) !! update_info_file
            = fs x !! update_info_file) as Hkeep.
  { intros [] x; [done|]. simpl. by rewrite lookup_insert_ne. }
  rewrite (check_for_updates_fetch _ _ _ Hstart).
  set (w1 := emitting [StatusChanged Searching] w0).
  destruct (Z_lt_le_dec 0 c) as [Hlt|Hle].
  - destruct (fs_isdir (fs w) update_info_file) eqn:Hdir.
    + erewrite try_raise; last first.
      { eapply check_body_unwritable; eauto. subst w1. simpl. by rewrite Hfs. }
      eexists _, _. split; [reflexivity|]. split; [|lia]. intros _.
      simpl. rewrite Hev, Hfs, <- !app_assoc, announced_app. simpl.
      by rewrite app_nil_r.
    + destruct (signal_arg (manifest_changelog d)) as [cs|e] eqn:Hcs.
      * eexists _, _. split.
        { apply try_ok. eapply check_body_newer; eauto. subst w1. simpl. by rewrite Hfs. }
        split; [|lia]. intros _. cbv zeta. rewrite Hkeep. split.
        { simpl. by rewrite lookup_insert_eq, Hmeta. }
        split; [done|]. rewrite events_stamped_if. simpl.
        by rewrite Hev, <- !app_assoc, announced_app.
      * erewrite try_raise; last first.
        { eapply check_body_unannounced; eauto. subst w1. simpl. by rewrite Hfs. }
        unfold check_failed.
        destruct (is_URLError e); (eexists _, _; split; [reflexivity|]);
          (split; [|lia]); intros _; (split;
            [simpl; by rewrite lookup_insert_eq, Hmeta|]);
          (split; [done|]); simpl;
          rewrite Hev, <- !app_assoc, announced_app; simpl; by rewrite app_nil_r.
  - eexists _, _. split.
    { apply try_ok. eapply check_body_not_newer; eauto. }
    split; [lia|]. intros _. split; [done|].
    cbv zeta. rewrite events_stamped_if. simpl.
    rewrite Hev, <- !app_assoc, announced_app. destruct force; simpl; by rewrite app_nil_r.
Qed.

(** C4, as the code has it. A segment of the manifest's version that
    is no literal of [int] (white space around and one sign in front set
    aside, it is not made of digits with single underscores between them,
    or it has more than 4300 digits) makes [compare_versions] raise
    [ValueError], and the check takes the version as not newer:
    [check_for_updates] returns [False] (it does not raise), emits no
    [update_available] and writes nothing. A version all of whose segments
    are such literals is compared without error. *)
Theorem bad_version_is_not_newer force w body data v :
  urlopen w (UPDATE_SERVER ++ VERSION_FILE) = Ok body ->
  json_loads body = Ok data ->
  py_get data "version" (JStr "0.0.0") = Ok (JStr v) ->
  (Exists (fun seg => int_literal seg = false) (Py.split "." v) ->
   (exists seg, seg ∈ Py.split "." v /\ int_literal seg = false /\
                compare_versions v VERSION = Raise (ValueError "int" seg)) /\
   exists w',
     check_for_updates force w = (Ok false, w') /\
     announced (events w') = announced (events w) /\
     fs w' = fs w) /\
  (Forall (fun seg => int_literal seg = true) (Py.split "." v) ->
   exists c, compare_versions v VERSION = Ok c).
Proof.
  intros Hurl Hjson Hv. split.
  - intros Hbad.
    assert (Exists (fun seg => Py.int seg = None) (Py.split "." v)) as Hnone.
    { eapply Exists_impl; [exact Hbad|]. intros seg Hseg. by apply int_literal_spec. }
    destruct (compare_versions_bad_segment v VERSION Hnone) as (seg & Hin & Hseg & Hc).
    split; [exists seg; by rewrite <- int_literal_spec|].
    assert (forall w0, starts_fetch force w w0 ->
      exists w', check_for_updates force w = (Ok false, w') /\
                 announced (events w') = announced (events w) /\ fs w' = fs w) as Hfetch.
    { intros w0 Hstart.
      assert (events w0 = events w /\ fs w0 = fs w /\ urlopen w0 = urlopen w)
        as (Hev & Hfs & Hnet).
      { by destruct (starts_fetch_same _ _ _ Hstart) as [->| ->]. }
      rewrite (check_for_updates_fetch _ _ _ Hstart).
      erewrite try_raise; last first.
      { eapply check_body_bad_version; eauto. simpl. by rewrite Hnet. }
      eexists. split; [reflexivity|]. simpl.
      by rewrite Hev, <- !app_assoc, announced_app, app_nil_r. }
    destruct force; [by apply (Hfetch w)|].
    destruct (should_check_update_run w) as [[|] Hdue].
    + destruct Hdue as [Hdue|Hdue]; by eapply (Hfetch _ Hdue).
    + destruct Hdue as [Hdue|Hdue]; rewrite (check_for_updates_skip _ _ Hdue);
        eexists; eauto.
  - intros Hgood. apply compare_versions_literals; [|by apply Forall_forall].
    change (Py.split "." VERSION) with ["0"; "0"; "7"]. intros seg.
    rewrite !elem_of_cons, elem_of_nil. intros [->|[->|[->|[]]]]; by eexists.
Qed.

(** C6, as the code has it. The [try:] block of a check that fetches
    runs to its end exactly when the server answers with a JSON object
    whose version is text that [compare_versions] can compare and, if that
    version is newer, the record can be written and the changelog goes
    through the signal. Such a check writes the timestamp last, with the
    reading of the clock taken then (last_check.txt must not be a
    directory). When anything in the block raises, the check returns
    [False] and leaves the timestamp file as it was. *)
Theorem last_check_written_unless_failed force w w0 :
  starts_fetch force w w0 ->
  ((exists found w1,
      check_body force (emitting [StatusChanged Searching] w0) = (Ok found, w1)) <->
   exists body d v c,
     urlopen w0 (UPDATE_SERVER ++ VERSION_FILE) = Ok body /\
     json_loads body = Ok (JDict d) /\
     manifest_version d = JStr v /\
     compare_versions v VERSION = Ok c /\
     (0 < c -> fs_isdir (fs w0) update_info_file = false /\
               exists cs, signal_arg (manifest_changelog d) = Ok cs)) /\
  match check_body force (emitting [StatusChanged Searching] w0) with
  | (Ok found, w') =>
      check_for_updates force w = (Ok found, w') /\
      (fs_isdir (fs w) last_check_file = false ->
       (0 < ticks w')%nat /\
       fs w' !! last_check_file =
         Some (NFile (File (str_of_float (timestamp (clock w' (pred (ticks w')))))
                           (new_meta w'))))
  | (Raise e, w') =>
      exists w'', check_for_updates force w = (Ok false, w'') /\
                  fs w'' !! last_check_file = fs w !! last_check_file
  end.
Proof.
  intros Hstart.
  split; [exact (check_body_completes force (emitting [StatusChanged Searching] w0))|].
  assert (fs w0 = fs w) as Hfs.
  { by destruct (starts_fetch_same _ _ _ Hstart) as [->| ->]. }
  rewrite (check_for_updates_fetch _ _ _ Hstart).
  pose proof (check_body_outcome force (emitting [StatusChanged Searching] w0)) as Hout.
  destruct (check_body force (emitting [StatusChanged Searching] w0))
    as [[found|e] w'] eqn:Hbody.
  - split; [by apply try_ok|]. intros Hdir. destruct Hout as [w1 ->].
    simpl. rewrite Hfs, Hdir. simpl. split; [lia|]. by rewrite lookup_insert_eq.
  - rewrite (try_raise _ _ _ _ _ Hbody). unfold check_failed.
    destruct (is_URLError e); eexists; (split; [reflexivity|]); simpl;
      by rewrite Hout, <- Hfs.
Qed.

(** C7, as the code has it. For a manifest that is a JSON object nothing
    fails because a field is missing: without "version" the check runs
    with "0.0.0" and finds nothing new; the record of a newer version
    holds, for a missing "changelog", "download_url" and "files", the text
    "Sin información de cambios", the empty string and the empty list. *)
Theorem manifest_defaults force w w0 body d :
  starts_fetch force w w0 ->
  urlopen w0 (UPDATE_SERVER ++ VERSION_FILE) = Ok body ->
  json_loads body = Ok (JDict d) ->
  (assoc "version" d = None ->
   exists w',
     check_for_updates force w = (Ok false, w') /\
     events w' = (events w ++
       [StatusChanged Searching; StatusChanged Connecting;
        StatusChanged (RemoteVersion (JStr "0.0.0")); StatusChanged UpToDate] ++
       (if force then [UpdateFinished true "Ya tienes la última versión"] else []))%list) /\
  (forall v c cs,
     manifest_version d = JStr v ->
     compare_versions v VERSION = Ok c ->
     0 < c ->
     default (JStr "Sin información de cambios") (assoc "changelog" d) = JStr cs ->
     fs_isdir (fs w0) update_info_file = false ->
     exists w',
       check_for_updates force w = (Ok true, w') /\
       announced (events w') = (announced (events w) ++ [(v, cs)])%list /\
       fs w' !! update_info_file =
         Some (NFile (File
           (json_dumps (update_info_of (JStr v)
              (default (JStr "Sin información de cambios") (assoc "changelog" d))
              (default (JStr "") (assoc "download_url" d))
              (default (JList []) (assoc "files" d))
              (clock w0 (ticks w0))))
           (new_meta w)))).
Proof.
  intros Hstart Hurl Hjson.
  assert (events w0 = events w /\ new_meta w0 = new_meta w) as [Hev Hmeta].
  { by destruct (starts_fetch_same _ _ _ Hstart) as [->| ->]. }
  rewrite (check_for_updates_fetch _ _ _ Hstart). split.
  - intros Hnone. eexists. split.
    + apply try_ok. eapply (check_body_not_newer _ _ _ _ "0.0.0" (-1)); eauto.
      * unfold manifest_version. by rewrite Hnone.
      * lia.
    + simpl. rewrite events_stamped_if. simpl. rewrite Hev, <- !app_assoc. done.
  - intros v c cs Hv Hc Hlt Hcs Hdir. eexists. split; [|split].
    + apply try_ok. eapply check_body_newer; eauto.
      unfold manifest_changelog. by rewrite Hcs.
    + simpl. rewrite events_stamped_if. simpl.
      rewrite Hev, <- !app_assoc, announced_app. done.
    + simpl. assert (forall (b : bool) x, fs (if b then x else stamped x) !! update_info_file
                       = fs x !! update_info_file) as Hkeep.
      { intros [] x; [done|]. simpl. by rewrite lookup_insert_ne. }
      rewrite Hkeep. simpl. by rewrite lookup_insert_eq, Hmeta.
Qed.

End Check.

(** * The last-check timestamp *)

Section Timestamp.
Context {RT : Runtime}.

Lemma should_check_update_read w s meta t :
  fs w !! last_check_file = Some (NFile (File s meta)) ->
  float_of_str (Py.strip s) = Some t ->
  should_check_update w =
    (Ok (float_gt (float_sub (timestamp (clock w (ticks w))) t) CHECK_INTERVAL),
     ticking w).
Proof.
  intros Hfile Hparse.
  unfold should_check_update, bind, try_except, path_exists, read_file, float_of,
    fs_exists, fs_read.
  cbn -[Py.strip]. rewrite !Hfile. cbn -[Py.strip]. rewrite ?Hfile.
  cbn -[Py.strip]. rewrite Hparse. reflexivity.
Qed.

(** C5. [should_check_update] answers [True] when last_check.txt does not
    exist. After [update_last_check] recorded the reading [t0] of the
    clock, in any later world [w2] that still has that file, it answers
    whether the time elapsed since [t0] exceeds [CHECK_INTERVAL] (3600
    seconds): [False] as long as it does not, [True] once it does. When the
    file cannot be read or its text is not a number, it answers [True]. *)
Theorem should_check_update_spec (w : world) :
  (fs_exists (fs w) last_check_file = false ->
   should_check_update w = (Ok true, w)) /\
  (forall w2 t0,
     fs_isdir (fs w) last_check_file = false ->
     t0 = timestamp (clock w (ticks w)) ->
     float_of_str (Py.strip (str_of_float t0)) = Some t0 ->
     fs w2 !! last_check_file = fs (snd (update_last_check w)) !! last_check_file ->
     let elapsed := float_sub (timestamp (clock w2 (ticks w2))) t0 in
     0 < CHECK_INTERVAL /\
     fst (should_check_update w2) = Ok (float_gt elapsed CHECK_INTERVAL)) /\
  ((forall f, fs_read (fs w) last_check_file = Ok f ->
              float_of_str (Py.strip (fdata f)) = None) ->
   fst (should_check_update w) = Ok true).
Proof.
  split; [|split].
  - intros Hnone. unfold should_check_update, bind, path_exists. simpl.
    by rewrite Hnone.
  - intros w2 t0 Hdir -> Hround Hsame elapsed. split; [done|].
    rewrite update_last_check_run, Hdir in Hsame. simpl in Hsame.
    rewrite lookup_insert_eq in Hsame.
    by rewrite (should_check_update_read _ _ _ _ Hsame Hround).
  - intros Hfail.
    unfold should_check_update, bind, try_except, path_exists, read_file, float_of.
    simpl. destruct (fs_exists (fs w) last_check_file); simpl; [|done].
    destruct (fs_read (fs w) last_check_file) as [f|e] eqn:Hread; simpl; [|done].
    by rewrite (Hfail f eq_refl).
Qed.

End Timestamp.

(** * Rollback and the application of an update *)

Section Apply.
Context {RT : Runtime}.

Lemma set_fs_set_fs m1 m2 w : set_fs m1 (set_fs m2 w) = set_fs m1 w.
Proof. reflexivity. Qed.

Lemma only_fs_ret {A} (a : A) : only_fs (ret a).
Proof. intros w. simpl. by destruct w. Qed.

Lemma only_fs_raise {A} e : only_fs (@raise RT A e).
Proof. intros w. simpl. by destruct w. Qed.

Lemma only_fs_bind {A B} (m : M A) (k : A -> M B) :
  only_fs m -> (forall a, only_fs (k a)) -> only_fs (bind m k).
Proof.
  intros Hm Hk w. unfold bind. specialize (Hm w).
  destruct (m w) as [[a|e] w1]; simpl in *; [|done].
  rewrite (Hk a w1), Hm. reflexivity.
Qed.

Lemma only_fs_try {A} (m : M A) h :
  only_fs m -> (forall e, only_fs (h e)) -> only_fs (try_except m h).
Proof.
  intros Hm Hh w. unfold try_except. specialize (Hm w).
  destruct (m w) as [[a|e] w1]; simpl in *; [done|].
  rewrite (Hh e w1), Hm. reflexivity.
Qed.

Lemma only_fs_when b m : only_fs m -> only_fs (when b m).
Proof. destruct b; [done|]. intros _. apply only_fs_ret. Qed.

Lemma only_fs_for_each {A} (l : list A) body :
  (forall x, only_fs (body x)) -> only_fs (for_each l body).
Proof.
  intros Hbody. induction l as [|x l IH]; simpl.
  - apply only_fs_ret.
  - apply only_fs_bind; auto.
Qed.

Lemma only_fs_fs_do f : only_fs (fs_do f).
Proof. intros w. unfold fs_do. destruct (f (fs w)); simpl; by destruct w. Qed.

Lemma only_fs_path_exists p : only_fs (path_exists p).
Proof. intros w. simpl. by destruct w. Qed.

Lemma only_fs_path_isdir p : only_fs (path_isdir p).
Proof. intros w. simpl. by destruct w. Qed.

Lemma only_fs_makedirs_at k p : only_fs (makedirs_at k p).
Proof.
  revert p. induction k as [|k IH]; intros p; simpl.
  - apply only_fs_ret.
  - apply only_fs_bind; [|intros _].
    + apply only_fs_bind; [apply only_fs_path_exists|intros b].
      apply only_fs_when, only_fs_try; [apply IH|].
      intros e; destruct e; first [apply only_fs_ret | apply only_fs_raise].
    + apply only_fs_try; [apply only_fs_fs_do|intros e].
      apply only_fs_bind; [apply only_fs_path_isdir|intros []].
      * apply only_fs_ret.
      * apply only_fs_raise.
Qed.

Lemma only_fs_restore_file p : only_fs (restore_file p).
Proof.
  apply only_fs_bind; [apply only_fs_makedirs_at|intros _; apply only_fs_fs_do].
Qed.

(** [restore_backup] never raises, and its last status tells how it went. *)
Lemma restore_backup_run w :
  exists restored m s,
    restore_backup w =
      (Ok restored,
       emitting [StatusChanged Restoring; StatusChanged s] (set_fs m w)) /\
    ((restored = true /\ s = Restored) \/
     (restored = false /\ (s = NoBackup \/ exists e, s = RestoreFailed (exn_str e)))).
Proof.
  unfold restore_backup, try_except, bind, say, emit, path_exists, walk_files. simpl.
  destruct (fs_exists (fs w) backup_dir); simpl.
  - set (w1 := World _ _ _ _ _ _).
    pose proof (only_fs_for_each (fs_walk_files (fs w) backup_dir) restore_file
                  only_fs_restore_file w1) as Honly.
    destruct (for_each _ restore_file w1) as [[[]|e] w2]; simpl in *.
    + exists true, (fs w2), Restored. split; [|by left].
      rewrite Honly. f_equal. same_world.
    + exists false, (fs w2), (RestoreFailed (exn_str e)). split; [|right; eauto].
      rewrite Honly. f_equal. same_world.
  - exists false, (fs w), NoBackup. split; [|right; eauto].
    f_equal. destruct w. same_world.
Qed.

(** What the [except] clause of [apply_update] does with [e]. *)
Lemma rollback_lemma update_file w e w1 :
  apply_body update_file w = (Raise e, w1) ->
  exists restored w2 s,
    restore_backup (emitting [StatusChanged (ApplyFailed (exn_str e))] w1)
      = (Ok restored, w2) /\
    apply_update update_file w = (Ok (false, JStr (exn_str e)), w2) /\
    events w2 = (events w1 ++
      [StatusChanged (ApplyFailed (exn_str e)); StatusChanged Restoring;
       StatusChanged s])%list /\
    ((restored = true /\ s = Restored) \/
     (restored = false /\ (s = NoBackup \/ exists e', s = RestoreFailed (exn_str e')))).
Proof.
  intros Hbody.
  destruct (restore_backup_run (emitting [StatusChanged (ApplyFailed (exn_str e))] w1))
    as (restored & m & s & Hrun & Hs).
  eexists restored, _, s. split; [exact Hrun|]. split; [|split; [|exact Hs]].
  - unfold apply_update. rewrite (try_raise _ _ _ _ _ Hbody).
    unfold apply_failed, bind. rewrite say_run, Hrun. reflexivity.
  - simpl. by rewrite <- app_assoc.
Qed.

Lemma lookup_rmtree_outside (m : fsmap) (p q : path) :
  ~ p `prefix_of` q ->
  filter (fun kv : path * node => ¬ (p `prefix_of` kv.1)) m !! q = m !! q.
Proof.
  intros Hout. apply option_eq. intros n.
  rewrite map_lookup_filter_Some. split; [by intros [? _]|]. by intros ?.
Qed.

Lemma lookup_rmtree_inside (m : fsmap) (p q : path) :
  p `prefix_of` q ->
  filter (fun kv : path * node => ¬ (p `prefix_of` kv.1)) m !! q = None.
Proof.
  intros Hin. apply map_lookup_filter_None. right. intros n _ Hn. by apply Hn.
Qed.

(** Unless something is in its way, [cleanup_temp_files] leaves neither
    the download directory nor the pending-update record. *)
Lemma cleanup_temp_files_run w :
  fs_isfile (fs w) temp_dir = false ->
  fs_isdir (fs w) update_info_file = false ->
  exists m,
    cleanup_temp_files w =
      (Ok tt, emitting [StatusChanged Cleaned] (set_fs m w)) /\
    fs_exists m temp_dir = false /\
    fs_exists m update_info_file = false.
Proof.
  intros Htemp Hinfo.
  assert (~ temp_dir `prefix_of` update_info_file) as Hout.
  { intros [k Hk]. discriminate. }
  assert (update_info_file <> temp_dir) as Hne by done.
  unfold fs_isfile in Htemp. unfold fs_isdir in Hinfo.
  change (fs_node (fs w) temp_dir) with (fs w !! temp_dir) in Htemp.
  change (fs_node (fs w) update_info_file) with (fs w !! update_info_file) in Hinfo.
  unfold cleanup_temp_files.
  assert (forall m : fsmap, fs_node m temp_dir = m !! temp_dir) as Hn1 by done.
  assert (forall m : fsmap, fs_node m update_info_file = m !! update_info_file)
    as Hn2 by done.
  destruct (fs w !! temp_dir) as [[f|]|] eqn:Ht; try done;
    destruct (fs w !! update_info_file) as [[f|]|] eqn:Hi; try done;
    repeat (mrun; unfold fs_rmtree, fs_remove, fs_exists;
            rewrite ?Hn1, ?Hn2, ?Ht, ?Hi, ?lookup_rmtree_outside by done).
  - eexists. split; [reflexivity|]. rewrite Hn1, Hn2.
    rewrite lookup_delete_eq, lookup_delete_ne by done.
    by rewrite lookup_rmtree_inside.
  - eexists. split; [reflexivity|]. rewrite Hn1, Hn2.
    rewrite lookup_rmtree_inside by done.
    by rewrite lookup_rmtree_outside, Hi by done.
  - eexists. split; [reflexivity|]. rewrite Hn1, Hn2.
    by rewrite lookup_delete_eq, lookup_delete_ne, Ht by done.
  - exists (fs w). split; [by destruct w|]. by rewrite Hn1, Hn2, Ht, Hi.
Qed.

(** C1, what the code does instead. When the backup and the extraction
    went through, and nothing is in the way of the cleanup,
    [apply_update] deletes update_info.json and then opens it: the
    answer is a failure carrying the [FileNotFoundError], after the status
    announced success, and the files are restored from the backup. *)
Theorem apply_update_reads_deleted_record update_file w w2 :
  unpack update_file w = (Ok tt, w2) ->
  fs_isfile (fs w2) temp_dir = false ->
  fs_isdir (fs w2) update_info_file = false ->
  let msg := exn_str (FileNotFoundError update_info_file) in
  exists m restored w' s,
    fs_exists m temp_dir = false /\
    fs_exists m update_info_file = false /\
    apply_body update_file w =
      (Raise (FileNotFoundError update_info_file),
       emitting [StatusChanged Cleaned; StatusChanged Applied] (set_fs m w2)) /\
    restore_backup (emitting [StatusChanged Cleaned; StatusChanged Applied;
                              StatusChanged (ApplyFailed msg)] (set_fs m w2))
      = (Ok restored, w') /\
    apply_update update_file w = (Ok (false, JStr msg), w') /\
    events w' = (events w2 ++
      [StatusChanged Cleaned; StatusChanged Applied; StatusChanged (ApplyFailed msg);
       StatusChanged Restoring; StatusChanged s])%list.
Proof.
  intros Hunpack Htemp Hinfo msg.
  destruct (cleanup_temp_files_run w2 Htemp Hinfo) as (m & Hclean & Hm1 & Hm2).
  assert (apply_body update_file w =
            (Raise (FileNotFoundError update_info_file),
             emitting [StatusChanged Cleaned; StatusChanged Applied] (set_fs m w2)))
    as Hbody.
  { unfold apply_body. rewrite (bind_ok _ _ _ _ _ Hunpack), (bind_ok _ _ _ _ _ Hclean).
    unfold bind, say, emit, read_file, fs_read. simpl.
    unfold fs_exists, fs_node, update_info_file in Hm2.
    unfold fs_node, update_info_file.
    destruct (m !! ["update_info.json"]); [done|]. simpl. f_equal. same_world. }
  destruct (rollback_lemma _ _ _ _ Hbody) as (restored & w' & s & Hrun & Happly & Hev & _).
  exists m, restored, w', s. repeat split; try done.
  - rewrite <- Hrun. f_equal. same_world.
  - rewrite Hev. simpl. by rewrite <- !app_assoc.
Qed.

(** An answer of success is only ever given with update_info.json still
    in place. *)
Lemma apply_update_success_keeps_record update_file w v w' :
  apply_update update_file w = (Ok (true, v), w') ->
  fs_isfile (fs w') update_info_file = true.
Proof.
  unfold apply_update, try_except.
  destruct (apply_body update_file w) as [[r|e] w1] eqn:Hbody.
  - intros [= -> ->]. unfold apply_body in Hbody.
    apply bind_inv_ok in Hbody as (? & ? & _ & Hbody).
    apply bind_inv_ok in Hbody as (? & ? & _ & Hbody).
    apply bind_inv_ok in Hbody as (? & ? & _ & Hbody).
    apply bind_inv_ok in Hbody as (text & wr & Hread & Hbody).
    apply bind_inv_ok in Hbody as (? & ? & Hl1 & Hbody).
    apply bind_inv_ok in Hbody as (? & ? & Hl2 & Hbody).
    unfold lift, ret in *. injection Hl1 as _ ->. injection Hl2 as _ ->.
    injection Hbody as _ ->.
    unfold read_file, fs_read, fs_isfile in *.
    injection Hread as Hread ->.
    change (fs_node (fs w') update_info_file) with (fs w' !! update_info_file).
    by destruct (fs w' !! update_info_file) as [[]|].
  - unfold apply_failed. rewrite (bind_ok _ _ _ _ _ (say_run _ _)).
    destruct (restore_backup_run (emitting [StatusChanged (ApplyFailed (exn_str e))] w1))
      as (restored & m & s & Hrun & _).
    rewrite (bind_ok _ _ _ _ _ Hrun). discriminate.
Qed.

End Apply.

(** * The backup *)

Section Backup.
Context {RT : Runtime}.
Local Open Scope list_scope.

Lemma fs_node_lookup (m : fsmap) (p : path) : p <> [] -> fs_node m p = m !! p.
Proof. by destruct p. Qed.

Lemma path_exists_run p w : path_exists p w = (Ok (fs_exists (fs w) p), w).
Proof. reflexivity. Qed.

Lemma makedirs_parent_there p w :
  p <> [] ->
  fs_isdir (fs w) (dirname p) = true ->
  fs_isfile (fs w) p = false ->
  makedirs p w = (Ok tt, set_fs (ensure_dir p (fs w)) w).
Proof.
  intros Hp Hparent Hfile. unfold makedirs.
  destruct p as [|c p']; [done|].
  change (length (c :: p')) with (S (length p')).
  set (p := c :: p') in *. cbn [makedirs_at]. mrun.
  assert (fs_exists (fs w) (dirname p) = true) as ->.
  { unfold fs_exists, fs_isdir in *. by destruct (fs_node (fs w) (dirname p)) as [[]|]. }
  mrun. unfold fs_mkdir, ensure_dir, fs_exists, fs_isfile, fs_isdir in *.
  destruct (fs_node (fs w) p) as [[f|]|] eqn:Hn; try done.
  - mrun. unfold fs_isdir. rewrite Hn. by destruct w.
  - destruct (fs_node (fs w) (dirname p)) as [[]|]; try done.
Qed.

Lemma fs_copy2_file (m : fsmap) (src dst : path) (f : file) :
  fs_node m src = Some (NFile f) ->
  src <> dst ->
  fs_isdir m dst = false ->
  fs_isdir m (dirname dst) = true ->
  fs_copy2 m src dst = Ok (<[dst := NFile f]> m).
Proof.
  intros Hsrc Hne Hdst Hparent. unfold fs_copy2. rewrite Hdst.
  rewrite bool_decide_eq_false_2 by done. cbn [andb].
  unfold fs_read. rewrite Hsrc. cbn [rbind]. unfold fs_open_w, fs_isdir in *.
  destruct (fs_node m dst) as [[g|]|] eqn:Hn; try done; cbn [rbind].
  - by rewrite insert_insert_eq.
  - destruct (fs_node m (dirname dst)) as [[]|]; try done. cbn [rbind].
    by rewrite insert_insert_eq.
Qed.

Lemma tree_shaped_below (m : fsmap) (p q : path) :
  tree_shaped m -> p <> [] -> m !! p = None -> p `prefix_of` q -> m !! q = None.
Proof.
  intros Htree Hp Hnone [s ->]. induction s as [|c s IH] using rev_ind.
  - by rewrite app_nil_r.
  - destruct (m !! (p ++ s ++ [c])) as [n|] eqn:Hq; [|done].
    destruct (Htree _ _ Hq) as [_ Hdir].
    unfold dirname in Hdir. rewrite app_assoc, removelast_last in Hdir.
    unfold fs_isdir in Hdir. rewrite fs_node_lookup, IH in Hdir; [done|].
    by destruct p.
Qed.

Lemma for_each_inv {A} (I : list A -> world -> Prop) (body : A -> M unit) (l : list A) :
  (forall seen x w, x ∈ l -> I seen w ->
     exists w', body x w = (Ok tt, w') /\ I (seen ++ [x]) w') ->
  forall seen w, I seen w ->
    exists w', for_each l body w = (Ok tt, w') /\ I (seen ++ l) w'.
Proof.
  induction l as [|x l IH]; intros Hstep seen w HI; simpl.
  - exists w. by rewrite app_nil_r.
  - destruct (Hstep seen x w) as (w1 & Hx & HI1); [by left|done|].
    destruct (IH (fun seen y w Hy => Hstep seen y w (list_elem_of_further _ _ _ Hy))
                _ _ HI1) as (w' & Hl & HI').
    exists w'. rewrite (bind_ok _ _ _ _ _ Hx). split; [done|].
    by rewrite <- app_assoc in HI'.
Qed.

Lemma lookup_ensure_dir (d q : path) (m : fsmap) :
  d <> [] ->
  ensure_dir d m !! q =
    if decide (d = q) then Some (default NDir (m !! d)) else m !! q.
Proof.
  intros Hd. unfold ensure_dir, fs_exists. rewrite fs_node_lookup by done.
  destruct (m !! d) as [n|] eqn:Hn.
  - case_decide; [by subst|done].
  - by rewrite lookup_insert.
Qed.

(** The shape of the tracked paths. *)
Lemma tracked_shape p :
  p ∈ files_to_backup ->
  p <> [] /\ p <> ["assets"] /\ ~ backup_dir `prefix_of` p /\
  (dirname p = [] \/ dirname p = ["assets"]).
Proof.
  unfold files_to_backup. rewrite !elem_of_cons, elem_of_nil.
  intros [->|[->|[->|[->|[]]]]]; (repeat split; [done|done| |auto]);
    by intros [k [=]].
Qed.

Lemma app_not_self (l p : path) : l <> [] -> l ++ p <> p.
Proof.
  intros Hl E. apply (f_equal length) in E. rewrite length_app in E.
  destruct l; simpl in *; [done|lia].
Qed.

Lemma backup_not_self (p : path) : p <> [] -> backup_dir ++ p <> backup_dir.
Proof.
  intros Hp E. apply (f_equal length) in E. rewrite length_app in E.
  destruct p; simpl in *; [done|lia].
Qed.

(** One round of the loop of [create_backup]. *)
Lemma backup_file_step m0 p w seen :
  (forall p, p ∈ files_to_backup -> fs_isdir m0 p = false) ->
  p ∈ files_to_backup ->
  (forall p', p' ∈ seen -> p' ∈ files_to_backup) ->
  backup_inv m0 (fs w) seen ->
  exists m', backup_file p w = (Ok tt, set_fs m' w) /\
             backup_inv m0 m' (seen ++ [p]).
Proof.
  intros Hnodir Hp Hseen (Hb & Hout & Hcopied & Hdirs & Honly).
  destruct (tracked_shape p Hp) as (Hne & Hna & Hnp & Hdn).
  assert (fs w !! p = m0 !! p) as Hsame by (by apply Hout).
  assert (forall n, fs w !! (backup_dir ++ p) = Some n ->
                    p ∈ seen /\ m0 !! p = Some n) as Hdst.
  { intros n Hn.
    destruct (Honly (backup_dir ++ p) n) as [Hq|[[Hq _]|(p' & Hp' & Hq)]];
      [by exists p|done|..].
    - by apply backup_not_self in Hq.
    - by apply app_inv_head in Hq.
    - apply app_inv_head in Hq. subst p'. split; [done|]. by rewrite <- (Hcopied _ Hp'). }
  unfold backup_file.
  rewrite (bind_ok _ _ _ _ _ (path_exists_run p w)).
  unfold fs_exists. rewrite fs_node_lookup, Hsame by done.
  destruct (m0 !! p) as [[f|]|] eqn:Hm0; cbn [when].
  - set (d := backup_dir ++ dirname p).
    assert (d <> []) as Hd1 by done.
    assert (d <> p) as Hdp.
    { intros E. apply Hnp. exists (dirname p). exact (eq_sym E). }
    assert (d <> backup_dir ++ p) as Hdbp.
    { intros E%app_inv_head. destruct Hdn as [E'|E']; rewrite E' in E; by subst p. }
    assert (fs_isdir (fs w) (dirname d) = true) as Hdd.
    { unfold d. destruct Hdn as [E|E]; rewrite E; [done|].
      change (dirname (backup_dir ++ ["assets"])) with backup_dir.
      unfold fs_isdir. rewrite fs_node_lookup by done. by rewrite Hb. }
    assert (forall n, fs w !! d = Some n -> n = NDir) as Hdf.
    { intros n Hn. unfold d in Hn. destruct Hdn as [E|E]; rewrite E in Hn.
      - rewrite app_nil_r, Hb in Hn. by injection Hn.
      - destruct (Honly _ n (ltac:(by exists ["assets"])) Hn)
          as [Hq|[[_ Hq]|(p' & Hp' & Hq)]]; [done|done|].
        apply app_inv_head in Hq. subst p'.
        by destruct (tracked_shape _ (Hseen _ Hp')) as (_ & ? & _). }
    assert (fs w !! d = Some NDir \/ fs w !! d = None) as Hdcase.
    { destruct (fs w !! d) as [n|] eqn:Hn; [left|by right]. by rewrite (Hdf n). }
    assert (fs_isfile (fs w) d = false) as Hdfile.
    { unfold fs_isfile. rewrite fs_node_lookup by done. by destruct Hdcase as [-> | ->]. }
    rewrite (bind_ok _ _ _ _ _ (makedirs_parent_there d w Hd1 Hdd Hdfile)).
    unfold copy2, fs_do. cbn [fs set_fs].
    rewrite (fs_copy2_file _ _ _ f).
    + eexists. split; [reflexivity|].
      assert (default NDir (fs w !! d) = NDir) as Hdef.
      { by destruct Hdcase as [-> | ->]. }
      split; [|split; [|split; [|split]]].
      * rewrite lookup_insert_ne by (by apply backup_not_self).
        rewrite lookup_ensure_dir by done. case_decide as E; [|done].
        by rewrite Hdef.
      * intros q Hq. rewrite lookup_insert_ne; last first.
        { intros <-. apply Hq. by exists p. }
        rewrite lookup_ensure_dir by done. case_decide as E; [|by apply Hout].
        subst q. exfalso. apply Hq. by exists (dirname p).
      * intros p' [Hp'| ->%list_elem_of_singleton]%elem_of_app.
        -- destruct (decide (p' = p)) as [->|Hpp].
           { by rewrite lookup_insert_eq. }
           rewrite lookup_insert_ne by (by intros E%app_inv_head).
           rewrite lookup_ensure_dir by done. case_decide as E; [|by apply Hcopied].
           apply app_inv_head in E.
           destruct (tracked_shape _ (Hseen _ Hp')) as (? & ? & _).
           destruct Hdn as [E'|E']; rewrite E' in E; by subst p'.
        -- by rewrite lookup_insert_eq.
      * intros p' Hp' Hsome.
        assert (dirname p' = [] \/ dirname p' = ["assets"]) as Hdn'.
        { apply elem_of_app in Hp' as [Hp'| ->%list_elem_of_singleton].
          - by destruct (tracked_shape _ (Hseen _ Hp')) as (_ & _ & _ & ?).
          - done. }
        rewrite lookup_insert_ne; last first.
        { intros E%app_inv_head. destruct Hdn' as [E'|E']; rewrite E' in E; by subst p. }
        rewrite lookup_ensure_dir by done. case_decide as E; [by rewrite Hdef|].
        apply elem_of_app in Hp' as [Hp'| ->%list_elem_of_singleton]; [by apply Hdirs|].
        done.
      * intros q n Hq Hn.
        destruct (decide (backup_dir ++ p = q)) as [<-|Hqp].
        { right; right. exists p. split; [|done]. apply elem_of_app. right. by left. }
        rewrite lookup_insert_ne in Hn by done.
        rewrite lookup_ensure_dir in Hn by done. case_decide as E.
        -- subst q. rewrite Hdef in Hn. injection Hn as <-. unfold d.
           destruct Hdn as [E'|E']; rewrite E'; [left; by rewrite app_nil_r|].
           right; left. done.
        -- destruct (Honly q n Hq Hn) as [?|[?|(p' & Hp' & ?)]]; [by left|by right; left|].
           right; right. exists p'. split; [|done]. apply elem_of_app. by left.
    + rewrite fs_node_lookup, lookup_ensure_dir by done.
      case_decide; [done|]. by rewrite Hsame.
    + symmetry. by apply app_not_self.
    + unfold fs_isdir. rewrite fs_node_lookup by done.
      rewrite lookup_ensure_dir by done. case_decide; [done|].
      destruct (fs w !! (backup_dir ++ p)) as [n|] eqn:Hn; [|done].
      destruct (Hdst n eq_refl) as [_ Hn']. by injection Hn' as <-.
    + unfold dirname at 1. rewrite removelast_app by done. fold (dirname p). fold d.
      unfold fs_isdir. rewrite fs_node_lookup, lookup_ensure_dir by done.
      case_decide; [|done]. by destruct Hdcase as [-> | ->].
  - specialize (Hnodir p Hp). unfold fs_isdir in Hnodir.
    rewrite fs_node_lookup, Hm0 in Hnodir by done. done.
  - exists (fs w). split; [by rewrite set_fs_same|].
    split; [done|]. split; [done|]. split; [|split].
    + intros p' [Hp'| ->%list_elem_of_singleton]%elem_of_app; [by apply Hcopied|].
      destruct (fs w !! (backup_dir ++ p)) as [n|] eqn:Hn; [|done].
      by destruct (Hdst n eq_refl) as [_ Hn'].
    + intros p' [Hp'| ->%list_elem_of_singleton]%elem_of_app; [by apply Hdirs|].
      intros [n Hn]. congruence.
    + intros q n Hq Hn.
      destruct (Honly q n Hq Hn) as [?|[?|(p' & Hp' & ?)]]; [by left|by right; left|].
      right; right. exists p'. split; [|done]. apply elem_of_app. by left.
Qed.

Lemma ret_run {A} (a : A) w : ret a w = (Ok a, w).
Proof. reflexivity. Qed.

(** The start of [create_backup]: an empty backup directory. *)
Lemma backup_start w :
  tree_shaped (fs w) ->
  fs_isfile (fs w) backup_dir = false ->
  exists mb m1,
    when (fs_exists (fs w) backup_dir) (rmtree backup_dir) w = (Ok tt, set_fs mb w) /\
    makedirs backup_dir (set_fs mb w) = (Ok tt, set_fs m1 w) /\
    backup_inv (fs w) m1 [].
Proof.
  intros Htree Hfile. unfold fs_isfile in Hfile. unfold fs_exists.
  rewrite fs_node_lookup in * by done.
  destruct (fs w !! backup_dir) as [[f|]|] eqn:Hb; [done|..]; cbn [when].
  - eexists _, _. split; [|split].
    + unfold rmtree, fs_do, fs_rmtree. rewrite fs_node_lookup, Hb by done. reflexivity.
    + rewrite makedirs_parent_there; [reflexivity|done|done|].
      cbn [fs set_fs]. unfold fs_isfile.
      by rewrite fs_node_lookup, lookup_rmtree_inside by done.
    + cbn [fs set_fs]. unfold ensure_dir, fs_exists.
      rewrite fs_node_lookup, lookup_rmtree_inside by done.
      split; [by rewrite lookup_insert_eq|]. split; [|split; [|split]].
      * intros q Hq. rewrite lookup_insert_ne by (by intros <-).
        by apply lookup_rmtree_outside.
      * by intros p Hp%elem_of_nil.
      * by intros p Hp%elem_of_nil.
      * intros q n Hq Hn. destruct (decide (backup_dir = q)) as [<-|Hne]; [by left|].
        by rewrite lookup_insert_ne, lookup_rmtree_inside in Hn.
  - exists (fs w), (<[backup_dir := NDir]> (fs w)). split; [|split].
    + by rewrite set_fs_same.
    + rewrite set_fs_same, makedirs_parent_there; [|done|done|].
      * unfold ensure_dir, fs_exists. by rewrite fs_node_lookup, Hb.
      * unfold fs_isfile. by rewrite fs_node_lookup, Hb.
    + split; [by rewrite lookup_insert_eq|]. split; [|split; [|split]].
      * intros q Hq. by rewrite lookup_insert_ne by (by intros <-).
      * by intros p Hp%elem_of_nil.
      * by intros p Hp%elem_of_nil.
      * intros q n Hq Hn. destruct (decide (backup_dir = q)) as [<-|Hne]; [by left|].
        rewrite lookup_insert_ne in Hn by done.
        by rewrite (tree_shaped_below _ backup_dir q) in Hn.
Qed.

(** C8. [create_backup], in an installation where nothing is in its way
    (backup is not a regular file, no tracked path is a directory):
    whatever was below the backup directory is gone and the directory is
    there again; every tracked path that exists is in the backup at the
    same relative path, with the same data and metadata, inside a
    directory made for it; a tracked path that does not exist is left out
    and the backup still succeeds; nothing else is in the backup and
    nothing outside it changed. *)
Theorem create_backup_snapshot (w : world) :
  tree_shaped (fs w) ->
  fs_isfile (fs w) backup_dir = false ->
  (forall p, p ∈ files_to_backup -> fs_isdir (fs w) p = false) ->
  exists m,
    create_backup w =
      (Ok true,
       emitting [StatusChanged BackingUp; StatusChanged BackupDone] (set_fs m w)) /\
    m !! backup_dir = Some NDir /\
    (forall q, ~ backup_dir `prefix_of` q -> m !! q = fs w !! q) /\
    (forall p, p ∈ files_to_backup -> m !! (backup_dir ++ p) = fs w !! p) /\
    (forall p, p ∈ files_to_backup -> is_Some (fs w !! p) ->
               m !! (backup_dir ++ dirname p) = Some NDir) /\
    (forall q n, backup_dir `prefix_of` q -> m !! q = Some n ->
       q = backup_dir \/
       (q = backup_dir ++ ["assets"] /\ n = NDir) \/
       exists p, p ∈ files_to_backup /\ q = backup_dir ++ p).
Proof.
  intros Htree Hfile Hnodir.
  unfold create_backup. rewrite (bind_ok _ _ _ _ _ (say_run _ _)).
  set (w1 := emitting [StatusChanged BackingUp] w).
  destruct (backup_start w1 Htree Hfile) as (mb & m1 & Hrm & Hmk & Hinv).
  destruct (for_each_inv
    (fun seen w' => w' = set_fs (fs w') w1 /\ backup_inv (fs w) (fs w') seen /\
                    forall p', p' ∈ seen -> p' ∈ files_to_backup)
    backup_file files_to_backup) with (seen := @nil path) (w := set_fs m1 w1)
    as (w2 & Hloop & Hw2 & Hinv2 & _).
  - intros seen p w' Hp (Hw' & Hinv' & Hseen).
    destruct (backup_file_step (fs w) p w' seen Hnodir Hp Hseen Hinv') as (m' & Hrun & Hinv'').
    exists (set_fs m' w'). split; [done|]. split; [by rewrite Hw'|]. split; [done|].
    intros p' [Hp'| ->%list_elem_of_singleton]%elem_of_app; auto.
  - split; [done|]. split; [done|]. by intros p' Hp'%elem_of_nil.
  - exists (fs w2). split; [|exact Hinv2].
    apply try_ok.
    rewrite (bind_ok _ _ _ _ _ (path_exists_run _ _)), (bind_ok _ _ _ _ _ Hrm),
      (bind_ok _ _ _ _ _ Hmk), (bind_ok _ _ _ _ _ Hloop),
      (bind_ok _ _ _ _ _ (say_run _ _)).
    rewrite Hw2. same_world.
Qed.

End Backup.

(** * The comparison of versions on all strings *)

Section AnyVersions.

Lemma part_at_beyond (l : list Z) (i : nat) : (length l <= i)%nat -> part_at l i = 0.
Proof. intros Hi. unfold part_at. by rewrite lookup_ge_None_2. Qed.

Lemma lookup_repeat {A} (x : A) (n i : nat) : (i < n)%nat -> repeat x n !! i = Some x.
Proof.
  revert i. induction n as [|n IH]; intros [|i] Hi; simpl; try lia; [done|].
  apply IH. lia.
Qed.

Lemma lookup_spec_pad (n : nat) (l : list Z) (i : nat) :
  (i < Nat.max n (length l))%nat -> spec_pad n l !! i = Some (part_at l i).
Proof.
  intros Hi. unfold spec_pad, part_at.
  destruct (decide (i < length l)%nat) as [Hl|Hl].
  - rewrite lookup_app_l by done.
    destruct (lookup_lt_is_Some_2 l i Hl) as [x ->]. done.
  - assert (length l <= i)%nat as Hge by lia.
    rewrite lookup_app_r by done. rewrite (lookup_ge_None_2 l i) by done. simpl.
    apply lookup_repeat. lia.
Qed.

Lemma first_difference_cmp_seq (xs ys : list Z) (r : Z) :
  let n := Nat.max (length xs) (length ys) in
  first_difference (spec_pad n xs) (spec_pad n ys) r ->
  cmp_seq (part_at xs) (part_at ys) r.
Proof.
  intros n [[Heq ->]|(i & x & y & Ht & Hx & Hy & Hr)].
  - left. split; [|done]. intros i.
    destruct (decide (i < n)%nat) as [Hi|Hi].
    + pose proof (lookup_spec_pad n xs i ltac:(lia)) as Hx.
      pose proof (lookup_spec_pad n ys i ltac:(lia)) as Hy.
      rewrite Heq in Hx. congruence.
    + rewrite !part_at_beyond by lia. done.
  - right. exists i.
    assert (i < n)%nat as Hi.
    { apply lookup_lt_Some in Hx. rewrite spec_pad_length in Hx. lia. }
    rewrite lookup_spec_pad in Hx, Hy by lia.
    injection Hx as <-. injection Hy as <-. split; [|done].
    intros j Hj.
    assert (take i (spec_pad n xs) !! j = take i (spec_pad n ys) !! j) as E
      by (by rewrite Ht).
    rewrite !lookup_take_lt in E by done.
    rewrite !lookup_spec_pad in E by lia. congruence.
Qed.

Lemma compare_parts_padded (xs ys : list Z) :
  compare_parts (pad_while xs (length ys))
                (pad_while ys (length (pad_while xs (length ys)))) =
    Ok (spec_lex (spec_pad (Nat.max (length xs) (length ys)) xs)
                 (spec_pad (Nat.max (length xs) (length ys)) ys)).
Proof.
  rewrite !pad_while_spec, spec_pad_length.
  rewrite compare_parts_lex.
  - f_equal. f_equal.
    + rewrite <- (spec_pad_max (length ys) xs). f_equal. lia.
    + rewrite <- (spec_pad_max _ ys). f_equal. lia.
  - rewrite !spec_pad_length. lia.
Qed.

(** Every list of segments parses, or has a first segment [int] rejects. *)
Lemma parts_total (l : list string) :
  (exists xs, Forall2 (fun seg x => Py.int seg = Some x) l xs /\
              rmap_list int_of_str l = Ok xs) \/
  (exists seg, seg ∈ l /\ Py.int seg = None /\
               rmap_list int_of_str l = Raise (ValueError "int" seg)).
Proof.
  induction l as [|s l IH]; simpl.
  - left. exists []. by split.
  - unfold int_of_str at 1 3. destruct (Py.int s) as [x|] eqn:Hs; simpl.
    + destruct IH as [(xs & Hxs & ->)|(seg & Hin & Hbad & ->)]; simpl.
      * left. exists (x :: xs). split; [by constructor|done].
      * right. exists seg. split; [by right|done].
    + right. exists s. split; [by left|done].
Qed.

Lemma parses_run (l : list string) (xs : list Z) :
  Forall2 (fun seg x => Py.int seg = Some x) l xs -> rmap_list int_of_str l = Ok xs.
Proof.
  induction 1 as [|s x l xs Hs _ IH]; simpl; [done|].
  unfold int_of_str at 1. by rewrite Hs, IH.
Qed.

Lemma run_parses (l : list string) (xs : list Z) :
  rmap_list int_of_str l = Ok xs -> Forall2 (fun seg x => Py.int seg = Some x) l xs.
Proof.
  destruct (parts_total l) as [(xs' & Hxs & ->)|(seg & _ & _ & ->)]; [|done].
  by intros [= <-].
Qed.

Lemma padded_cmp_seq (xs ys : list Z) :
  cmp_seq (part_at xs) (part_at ys)
    (spec_lex (spec_pad (Nat.max (length xs) (length ys)) xs)
              (spec_pad (Nat.max (length xs) (length ys)) ys)).
Proof.
  apply first_difference_cmp_seq, spec_lex_first_difference.
  rewrite !spec_pad_length. lia.
Qed.

(** What [compare_versions] answers when both strings parse. *)
Lemma compare_versions_parsed (v1 v2 : string) (xs ys : list Z) :
  parses v1 xs -> parses v2 ys ->
  exists r, compare_versions v1 v2 = Ok r /\ cmp_seq (part_at xs) (part_at ys) r.
Proof.
  intros H1 H2. unfold compare_versions.
  rewrite (parses_run _ _ H1), (parses_run _ _ H2). cbn [rbind].
  rewrite compare_parts_padded. eexists. split; [reflexivity|].
  apply padded_cmp_seq.
Qed.

Lemma compare_versions_inv (v1 v2 : string) (r : Z) :
  compare_versions v1 v2 = Ok r -> exists xs ys, parses v1 xs /\ parses v2 ys.
Proof.
  unfold compare_versions, parses.
  destruct (rmap_list int_of_str (Py.split "." v1)) as [xs|e] eqn:H1; [|done].
  destruct (rmap_list int_of_str (Py.split "." v2)) as [ys|e] eqn:H2; [|done].
  intros _. exists xs, ys. split; by apply run_parses.
Qed.

(** The answer of the position-wise comparison is unique. *)
Lemma cmp_seq_fun (f g : nat -> Z) (r r' : Z) :
  cmp_seq f g r -> cmp_seq f g r' -> r = r'.
Proof.
  intros [[He ->]|(i & Hi & Hr)] [[He' ->]|(j & Hj & Hr')]; [done|..].
  - specialize (He j). lia.
  - specialize (He' i). lia.
  - destruct (lt_eq_lt_dec i j) as [[Hlt| ->]|Hlt].
    + specialize (Hj i Hlt). lia.
    + lia.
    + specialize (Hi j Hlt). lia.
Qed.

Lemma cmp_seq_ext (f f' g g' : nat -> Z) (r : Z) :
  (forall i, f i = f' i) -> (forall i, g i = g' i) -> cmp_seq f g r -> cmp_seq f' g' r.
Proof.
  intros Hf Hg [[He ->]|(i & Hi & Hr)].
  - left. split; [|done]. intros i. by rewrite <- Hf, <- Hg.
  - right. exists i. rewrite <- Hf, <- Hg. split; [|done].
    intros j Hj. rewrite <- Hf, <- Hg. auto.
Qed.

(** Less-or-equal composes, and the composite is an equality only when
    both steps are. *)
Lemma cmp_seq_trans (f g h : nat -> Z) (r1 r2 r3 : Z) :
  cmp_seq f g r1 -> cmp_seq g h r2 -> cmp_seq f h r3 ->
  r1 <= 0 -> r2 <= 0 -> r3 <= 0 /\ (r3 = 0 -> r1 = 0 /\ r2 = 0).
Proof.
  intros H1 H2 H3 Hr1 Hr2.
  assert (forall i j : nat, {i < j} + {i = j} + {j < i})%nat as cmp
    by (intros; apply lt_eq_lt_dec).
  destruct H1 as [[E1 ->]|(i & Hi & Hri)]; destruct H2 as [[E2 ->]|(j & Hj & Hrj)];
    destruct H3 as [[E3 ->]|(k & Hk & Hrk)].
  - lia.
  - specialize (E1 k). specialize (E2 k). lia.
  - specialize (E1 j). specialize (E3 j). lia.
  - pose proof (E1 k). pose proof (E1 j).
    destruct (cmp j k) as [[Hlt| ->]|Hlt].
    + specialize (Hk j Hlt). lia.
    + lia.
    + specialize (Hj k Hlt). lia.
  - specialize (E2 i). specialize (E3 i). lia.
  - pose proof (E2 k). pose proof (E2 i).
    destruct (cmp i k) as [[Hlt| ->]|Hlt].
    + specialize (Hk i Hlt). lia.
    + lia.
    + specialize (Hi k Hlt). lia.
  - pose proof (E3 i). pose proof (E3 j).
    destruct (cmp i j) as [[Hlt| ->]|Hlt].
    + specialize (Hj i Hlt). lia.
    + lia.
    + specialize (Hi j Hlt). lia.
  - destruct (cmp i j) as [[Hij| ->]|Hij].
    + pose proof (Hj i Hij).
      destruct (cmp i k) as [[Hlt| ->]|Hlt].
      * specialize (Hk i Hlt). lia.
      * lia.
      * pose proof (Hi k Hlt). pose proof (Hj k ltac:(lia)). lia.
    + destruct (cmp j k) as [[Hlt| ->]|Hlt].
      * specialize (Hk j Hlt). lia.
      * lia.
      * specialize (Hi k Hlt). specialize (Hj k Hlt). lia.
    + pose proof (Hi j Hij).
      destruct (cmp j k) as [[Hlt| ->]|Hlt].
      * specialize (Hk j Hlt). lia.
      * lia.
      * pose proof (Hj k Hlt). pose proof (Hi k ltac:(lia)). lia.
Qed.

Lemma parses_fun (v : string) (xs ys : list Z) : parses v xs -> parses v ys -> xs = ys.
Proof.
  intros Hx%parses_run Hy%parses_run. congruence.
Qed.

Lemma split_not_nil (sep : ascii) (s : string) : Py.split sep s <> [].
Proof.
  destruct s as [|c s]; cbn [Py.split]; [done|].
  destruct (Ascii.eqb c sep); [done|]. by destruct (Py.split sep s).
Qed.

Lemma split_app_sep (sep : ascii) (s t : string) :
  Py.split sep (s ++ String sep t) = (Py.split sep s ++ Py.split sep t)%list.
Proof.
  induction s as [|c s IH].
  - change (EmptyString ++ String sep t) with (String sep t).
    cbn [Py.split app]. by rewrite Ascii.eqb_refl.
  - change (String c s ++ String sep t) with (String c (s ++ String sep t)).
    cbn [Py.split app]. destruct (Ascii.eqb c sep); [by rewrite IH|].
    rewrite IH. pose proof (split_not_nil sep s). by destruct (Py.split sep s).
Qed.

Lemma rmap_list_app {A B} (f : A -> result B) (l1 l2 : list A) :
  rmap_list f (l1 ++ l2) =
    rbind (rmap_list f l1) (fun ys1 =>
    rbind (rmap_list f l2) (fun ys2 => Ok (ys1 ++ ys2)%list)).
Proof.
  induction l1 as [|x l1 IH]; simpl.
  - by destruct (rmap_list f l2).
  - destruct (f x) as [y|e]; simpl; [|done]. rewrite IH.
    destruct (rmap_list f l1) as [ys1|e]; simpl; [|done].
    by destruct (rmap_list f l2).
Qed.

Lemma part_at_snoc_zero (xs : list Z) (i : nat) : part_at (xs ++ [0]) i = part_at xs i.
Proof.
  unfold part_at. destruct (decide (i < length xs)%nat) as [Hi|Hi].
  - by rewrite lookup_app_l.
  - assert (length xs <= i)%nat as Hge by lia.
    rewrite lookup_app_r, (lookup_ge_None_2 xs i) by done.
    by destruct (i - length xs)%nat as [|[|k]].
Qed.

(** The segments of [v ++ ".0"] are those of [v] and one more, 0. *)
Lemma parts_with_zero (v : string) :
  rmap_list int_of_str (Py.split "." (v ++ ".0")) =
    rbind (rmap_list int_of_str (Py.split "." v)) (fun xs => Ok (xs ++ [0])%list).
Proof.
  change (v ++ ".0") with (v ++ String "." "0").
  rewrite split_app_sep, rmap_list_app.
  by destruct (rmap_list int_of_str (Py.split "." v)).
Qed.

(** X1. On any two strings, version strings or not, [compare_versions]
    raises the [ValueError] of a segment that is no literal of [int], or
    answers: then every segment of both strings reads as an integer and
    the answer is 0 when the two sequences agree once the shorter is
    extended with zeros, and otherwise 1 or -1 as the first position where
    they differ decides. In particular the index into [v2_parts] is never
    out of range. *)
Theorem compare_versions_on_any_strings (v1 v2 : string) :
  (exists seg, seg ∈ (Py.split "." v1 ++ Py.split "." v2)%list /\
     int_literal seg = false /\ Py.int seg = None /\
     compare_versions v1 v2 = Raise (ValueError "int" seg)) \/
  (exists xs ys r, parses v1 xs /\ parses v2 ys /\
     compare_versions v1 v2 = Ok r /\ cmp_seq (part_at xs) (part_at ys) r).
Proof.
  destruct (parts_total (Py.split "." v1)) as [(xs & Hxs & H1)|(seg & Hin & Hbad & H1)].
  - destruct (parts_total (Py.split "." v2)) as [(ys & Hys & H2)|(seg & Hin & Hbad & H2)].
    + right. destruct (compare_versions_parsed v1 v2 xs ys Hxs Hys) as (r & Hr & Hc).
      by exists xs, ys, r.
    + left. exists seg. split; [apply elem_of_app; by right|].
      split; [by apply int_literal_spec|]. split; [done|].
      unfold compare_versions. by rewrite H1, H2.
  - left. exists seg. split; [apply elem_of_app; by left|].
    split; [by apply int_literal_spec|]. split; [done|].
    unfold compare_versions. by rewrite H1.
Qed.

(** X2. The comparison is transitive wherever it answers: when [a] is
    not newer than [b] and [b] is not newer than [c], [a] is not newer
    than [c], and [a] equals [c] only when both steps are equalities. *)
Theorem compare_versions_transitive (a b c : string) (r1 r2 : Z) :
  compare_versions a b = Ok r1 ->
  compare_versions b c = Ok r2 ->
  r1 <= 0 ->
  r2 <= 0 ->
  exists r3, compare_versions a c = Ok r3 /\ r3 <= 0 /\ (r3 = 0 -> r1 = 0 /\ r2 = 0).
Proof.
  intros Hab Hbc Hr1 Hr2.
  destruct (compare_versions_inv _ _ _ Hab) as (xs & ys & Hxs & Hys).
  destruct (compare_versions_inv _ _ _ Hbc) as (ys' & zs & Hys' & Hzs).
  pose proof (parses_fun _ _ _ Hys Hys'). subst ys'.
  destruct (compare_versions_parsed a b xs ys Hxs Hys) as (r1' & Hab' & Hc1).
  destruct (compare_versions_parsed b c ys zs Hys Hzs) as (r2' & Hbc' & Hc2).
  destruct (compare_versions_parsed a c xs zs Hxs Hzs) as (r3 & Hac & Hc3).
  assert (r1' = r1) as -> by congruence. assert (r2' = r2) as -> by congruence.
  exists r3. split; [done|]. by apply (cmp_seq_trans _ _ _ _ _ _ Hc1 Hc2 Hc3).
Qed.

(** X3. A trailing ".0" changes nothing: on any strings, [v ++ ".0"]
    compares with [u] as [v] does, on either side, errors included. *)
Theorem compare_versions_trailing_zero (v u : string) :
  compare_versions (v ++ ".0") u = compare_versions v u /\
  compare_versions u (v ++ ".0") = compare_versions u v.
Proof.
  assert (forall xs ys : list Z,
            spec_lex (spec_pad (Nat.max (length (xs ++ [0])) (length ys)) (xs ++ [0]))
                     (spec_pad (Nat.max (length (xs ++ [0])) (length ys)) ys) =
            spec_lex (spec_pad (Nat.max (length xs) (length ys)) xs)
                     (spec_pad (Nat.max (length xs) (length ys)) ys)) as Hleft.
  { intros xs ys. apply (cmp_seq_fun (part_at xs) (part_at ys)); [|apply padded_cmp_seq].
    eapply cmp_seq_ext; [| |apply padded_cmp_seq]; [apply part_at_snoc_zero|done]. }
  assert (forall xs ys : list Z,
            spec_lex (spec_pad (Nat.max (length ys) (length (xs ++ [0]))) ys)
                     (spec_pad (Nat.max (length ys) (length (xs ++ [0]))) (xs ++ [0])) =
            spec_lex (spec_pad (Nat.max (length ys) (length xs)) ys)
                     (spec_pad (Nat.max (length ys) (length xs)) xs)) as Hright.
  { intros xs ys. apply (cmp_seq_fun (part_at ys) (part_at xs)); [|apply padded_cmp_seq].
    eapply cmp_seq_ext; [| |apply padded_cmp_seq]; [done|apply part_at_snoc_zero]. }
  unfold compare_versions. rewrite parts_with_zero.
  destruct (rmap_list int_of_str (Py.split "." v)) as [xs|e]; cbn [rbind].
  - destruct (rmap_list int_of_str (Py.split "." u)) as [ys|e]; cbn [rbind]; [|done].
    rewrite !compare_parts_padded. by rewrite Hleft, Hright.
  - split; [done|]. by destruct (rmap_list int_of_str (Py.split "." u)).
Qed.

End AnyVersions.

(** * The check, whatever the server answers *)

Section CheckOutcome.
Context {RT : Runtime}.

(** What a run of the [try:] block of [check_for_updates] can have done. *)
Lemma check_body_full force w :
  match check_body force w with
  | (r, w') =>
      exists l,
        events w' = (events w ++ l)%list /\
        (forall q, q <> update_info_file -> q <> last_check_file ->
                   fs w' !! q = fs w !! q) /\
        match r with
        | Ok true =>
            exists v cs c record,
              announced l = [(v, cs)] /\
              compare_versions v VERSION = Ok c /\ 0 < c /\
              fs w' !! update_info_file =
                Some (NFile (File (json_dumps record) (new_meta w))) /\
              py_get record "remote_version" JNull = Ok (JStr v)
        | _ => announced l = []
        end
  end.
Proof.
  assert (forall (b : bool) x q, q <> last_check_file ->
            fs (if b then x else stamped x) !! q = fs x !! q) as Hkeep.
  { intros [] x q Hq; [done|]. simpl. by rewrite lookup_insert_ne. }
  unfold check_body, bind, say, emit, lift. simpl.
  destruct (urlopen w (UPDATE_SERVER ++ VERSION_FILE)) as [body|e]; simpl;
    [|by exists [StatusChanged Connecting]].
  destruct (json_loads body) as [data|e]; simpl;
    [|by exists [StatusChanged Connecting]].
  destruct data as [| | | | |l|d]; simpl; try (by exists [StatusChanged Connecting]).
  destruct (default (JStr "0.0.0") (assoc "version" d)) as [| | | |v| |] eqn:Hv; simpl;
    try (eexists; split; [rewrite <- ?app_assoc; reflexivity|by split]).
  destruct (compare_versions v VERSION) as [c|e] eqn:Hc; simpl;
    [|eexists; split; [rewrite <- ?app_assoc; reflexivity|by split]].
  destruct (c >? 0) eqn:Hpos.
  - simpl. unfold open_w, fs_do, update_info_file. simpl fs. rewrite fs_open_w_top.
    destruct (fs_isdir (fs w) ["update_info.json"]); simpl;
      [eexists; split; [rewrite <- ?app_assoc; reflexivity|by split]|].
    unfold file_write, fs_do. simpl. rewrite fs_write_fresh.
    destruct (signal_arg _) as [cs|e]; simpl.
    + rewrite update_last_check_run. simpl. rewrite isdir_insert_ne by done.
      eexists. split; [|split].
      * rewrite events_stamped_if. simpl. rewrite <- ?app_assoc. reflexivity.
      * intros q Hq1 Hq2. rewrite Hkeep by done. simpl. by rewrite lookup_insert_ne.
      * exists v, cs, c. eexists. split; [done|]. split; [done|].
        split; [by apply Z.gtb_lt in Hpos|].
        split; [rewrite Hkeep by done; simpl; by rewrite lookup_insert_eq|reflexivity].
    + eexists. split; [rewrite <- ?app_assoc; reflexivity|]. split; [|done].
      intros q Hq1 Hq2. by rewrite lookup_insert_ne.
  - destruct force; simpl; rewrite update_last_check_run; simpl;
      (eexists; split; [rewrite events_stamped_if; simpl; rewrite <- ?app_assoc; reflexivity|]);
      (split; [|done]); intros q Hq1 Hq2; by rewrite Hkeep.
Qed.

Lemma check_for_updates_full force w :
  exists found w' l,
    check_for_updates force w = (Ok found, w') /\
    events w' = (events w ++ l)%list /\
    (forall q, q <> update_info_file -> q <> last_check_file ->
               fs w' !! q = fs w !! q) /\
    if found then
      exists v cs c record,
        announced l = [(v, cs)] /\
        compare_versions v VERSION = Ok c /\ 0 < c /\
        fs w' !! update_info_file =
          Some (NFile (File (json_dumps record) (new_meta w))) /\
        py_get record "remote_version" JNull = Ok (JStr v)
    else announced l = [].
Proof.
  match goal with
  | |- ?G => assert (forall w0, starts_fetch force w w0 -> G) as Hfetch
  end.
  { intros w0 Hstart.
    assert (events w0 = events w /\ fs w0 = fs w /\ new_meta w0 = new_meta w)
      as (Hev & Hfs & Hmeta).
    { by destruct (starts_fetch_same _ _ _ Hstart) as [->| ->]. }
    rewrite (check_for_updates_fetch _ _ _ Hstart). unfold try_except.
    pose proof (check_body_full force (emitting [StatusChanged Searching] w0)) as Hfull.
    destruct (check_body force (emitting [StatusChanged Searching] w0)) as [[found|e] w'].
    - destruct Hfull as (l & Hl & Hframe & Hfound).
      exists found, w', (StatusChanged Searching :: l).
      split; [reflexivity|]. split; [|split].
      + rewrite Hl. simpl. by rewrite Hev, <- app_assoc.
      + intros q Hq1 Hq2. rewrite Hframe by done. simpl. by rewrite Hfs.
      + destruct found; [|done]. simpl in Hfound. by rewrite Hmeta in Hfound.
    - destruct Hfull as (l & Hl & Hframe & Hnone).
      assert (exists s, check_failed e w' = (Ok false, emitting [StatusChanged s] w'))
        as [s ->].
      { unfold check_failed. destruct (is_URLError e); eexists; reflexivity. }
      exists false, (emitting [StatusChanged s] w'),
        (StatusChanged Searching :: l ++ [StatusChanged s])%list.
      split; [reflexivity|]. split; [|split].
      + simpl. rewrite Hl. simpl. by rewrite Hev, <- !app_assoc.
      + intros q Hq1 Hq2. simpl. rewrite Hframe by done. simpl. by rewrite Hfs.
      + simpl. by rewrite announced_app, Hnone. }
  destruct force; [by apply (Hfetch w)|].
  destruct (should_check_update_run w) as [[|] Hdue].
  - destruct Hdue as [Hdue|Hdue]; by eapply (Hfetch _ Hdue).
  - destruct Hdue as [Hdue|Hdue]; rewrite (check_for_updates_skip _ _ Hdue);
      exists false; eexists; exists []; (split; [reflexivity|]);
      simpl; by rewrite app_nil_r.
Qed.

(** X4. [check_for_updates] never raises. Whatever the clock, the files
    and the server are, it returns a boolean, only adds to the signals
    emitted, and leaves every path other than update_info.json and
    last_check.txt as it was. *)
Theorem check_for_updates_touches_two_files force w :
  exists found w' l,
    check_for_updates force w = (Ok found, w') /\
    events w' = (events w ++ l)%list /\
    (forall q, q <> update_info_file -> q <> last_check_file ->
               fs w' !! q = fs w !! q).
Proof.
  destruct (check_for_updates_full force w) as (found & w' & l & H1 & H2 & H3 & _).
  by exists found, w', l.
Qed.

(** X5. The answer of [check_for_updates] and its signal go together: it
    returns [True] exactly when it emitted [update_available], which it
    does at most once per call; the version announced is then the one in
    the record just written to update_info.json, and it compares strictly
    greater than [VERSION]. *)
Theorem check_for_updates_answer_matches_signal force w :
  exists found w' l,
    check_for_updates force w = (Ok found, w') /\
    events w' = (events w ++ l)%list /\
    (found = false -> announced l = []) /\
    (found = true ->
     exists v cs c record,
       announced l = [(v, cs)] /\
       compare_versions v VERSION = Ok c /\ 0 < c /\
       fs w' !! update_info_file =
         Some (NFile (File (json_dumps record) (new_meta w))) /\
       py_get record "remote_version" JNull = Ok (JStr v)).
Proof.
  destruct (check_for_updates_full force w) as (found & w' & l & H1 & H2 & _ & H3).
  exists found, w', l. split; [done|]. split; [done|].
  destruct found; split; try done.
Qed.


End CheckOutcome.

(** * The pending-update record read back *)

Section PendingRecordFacts.
Context {RT : Runtime}.

Lemma get_update_info_read w text meta :
  fs w !! update_info_file = Some (NFile (File text meta)) ->
  get_update_info w =
    (Ok (match json_loads text with Ok v => v | Raise _ => JNull end), w).
Proof.
  intros Hfile.
  unfold get_update_info, try_except, bind, path_exists, read_file, lift, ret,
    fs_exists, fs_read.
  change (fs_node (fs w) update_info_file) with (fs w !! update_info_file).
  rewrite Hfile. cbv beta iota.
  change (fs_node (fs w) update_info_file) with (fs w !! update_info_file).
  rewrite Hfile. cbn [fdata]. by destruct (json_loads text).
Qed.

(** X7. What [check_for_updates] wrote, [get_update_info] reads: after a
    check that found a newer version, and provided the JSON decoder gives
    back the record the encoder was given, [get_update_info] returns that
    record (remote version, changelog, download URL, files and the time
    of the check) and changes nothing. *)
Theorem get_update_info_after_check force w w0 body d v c cs :
  starts_fetch force w w0 ->
  urlopen w0 (UPDATE_SERVER ++ VERSION_FILE) = Ok body ->
  json_loads body = Ok (JDict d) ->
  manifest_version d = JStr v ->
  compare_versions v VERSION = Ok c ->
  0 < c ->
  signal_arg (manifest_changelog d) = Ok cs ->
  fs_isdir (fs w0) update_info_file = false ->
  let record := update_info_of (JStr v) (manifest_changelog d) (manifest_download_url d)
                  (manifest_files d) (clock w0 (ticks w0)) in
  json_loads (json_dumps record) = Ok record ->
  exists w',
    check_for_updates force w = (Ok true, w') /\
    get_update_info w' = (Ok record, w').
Proof.
  intros Hstart Hurl Hjson Hv Hc Hlt Hcs Hdir record Hcodec.
  rewrite (check_for_updates_fetch _ _ _ Hstart).
  eexists. split.
  - apply try_ok. eapply check_body_newer; eauto.
  - erewrite get_update_info_read.
    + fold record. rewrite Hcodec. reflexivity.
    + assert (forall (b : bool) x, fs (if b then x else stamped x) !! update_info_file
                = fs x !! update_info_file) as Hkeep.
      { intros [] x; [done|]. simpl. by rewrite lookup_insert_ne. }
      rewrite Hkeep. simpl. by rewrite lookup_insert_eq.
Qed.

(** X8. [get_update_info] never raises and changes nothing; its answer
    is [None] whenever update_info.json is not a regular file, and also
    when the file does not hold JSON. *)
Theorem get_update_info_never_raises w :
  exists v,
    get_update_info w = (Ok v, w) /\
    (fs_isfile (fs w) update_info_file = false -> v = JNull) /\
    (forall f e, fs_read (fs w) update_info_file = Ok f ->
                 json_loads (fdata f) = Raise e -> v = JNull).
Proof.
  unfold get_update_info, try_except, bind, path_exists, read_file, lift, ret,
    fs_exists, fs_read, fs_isfile.
  change (fs_node (fs w) update_info_file) with (fs w !! update_info_file).
  destruct (fs w !! update_info_file) as [[f|]|] eqn:Hfile; cbv beta iota;
    change (fs_node (fs w) update_info_file) with (fs w !! update_info_file);
    rewrite ?Hfile; cbn [fdata].
  - destruct (json_loads (fdata f)) as [v|e] eqn:Hl.
    + exists v. split; [done|]. split; [done|]. intros f' e' [= <-]. congruence.
    + by exists JNull.
  - by exists JNull.
  - by exists JNull.
Qed.

(** X9. The two methods that keep the time of the last check never
    raise. [should_check_update] always answers, writes no file and emits
    no signal. [update_last_check] changes no path but last_check.txt and
    emits no signal; when last_check.txt is a directory it does nothing at
    all, and says nothing of it. *)
Theorem timestamp_methods_never_raise w :
  (exists due w',
     should_check_update w = (Ok due, w') /\ fs w' = fs w /\ events w' = events w) /\
  (exists w',
     update_last_check w = (Ok tt, w') /\
     events w' = events w /\
     (forall q, q <> last_check_file -> fs w' !! q = fs w !! q) /\
     (fs_isdir (fs w) last_check_file = true -> w' = w)).
Proof.
  split.
  - destruct (should_check_update_run w) as [due [H|H]]; rewrite H; eauto.
  - rewrite update_last_check_run. eexists. split; [reflexivity|].
    destruct (fs_isdir (fs w) last_check_file); [done|].
    split; [done|]. split; [|done]. intros q Hq. cbn [fs stamped ticking set_fs].
    by rewrite lookup_insert_ne.
Qed.

End PendingRecordFacts.

(** * Directories made on the way *)

Section Directories.
Context {RT : Runtime}.
Local Open Scope list_scope.

Lemma grown_refl p m : grown_towards p m m.
Proof. intros q. by left. Qed.

Lemma grown_trans p m1 m2 m3 :
  grown_towards p m1 m2 -> grown_towards p m2 m3 -> grown_towards p m1 m3.
Proof.
  intros H12 H23 q. destruct (H12 q) as [E12|(N1 & D2 & Hn & Hp)];
    destruct (H23 q) as [E23|(N2 & D3 & Hn' & Hp')].
  - left. congruence.
  - right. repeat split; [congruence|done|done|done].
  - right. repeat split; [done|congruence|done|done].
  - congruence.
Qed.

Lemma grown_weaken p p' m m' :
  p `prefix_of` p' -> grown_towards p m m' -> grown_towards p' m m'.
Proof.
  intros Hpp H q. destruct (H q) as [E|(N & D & Hn & Hq)]; [by left|right].
  repeat split; [done|done|done|]. by etrans.
Qed.

Lemma dirname_prefix (p : path) : dirname p `prefix_of` p.
Proof.
  unfold dirname. destruct (decide (p = [])) as [->|Hne]; [done|].
  exists [List.last p ""]. by apply app_removelast_last.
Qed.

Lemma mkdir_grows p w :
  grown_towards p (fs w) (fs (snd (mkdir p w))).
Proof.
  unfold mkdir, fs_do, fs_mkdir.
  destruct (decide (p = [])) as [->|Hp]; [apply grown_refl|].
  rewrite (fs_node_lookup _ p) by done.
  destruct (fs w !! p) as [n|] eqn:Hn; [apply grown_refl|].
  destruct (fs_node (fs w) (dirname p)) as [[]|]; try apply grown_refl.
  cbn [snd set_fs fs]. intros q. destruct (decide (p = q)) as [<-|Hne].
  - right. by rewrite lookup_insert_eq.
  - left. by rewrite lookup_insert_ne.
Qed.

(** [os.makedirs] removes nothing and replaces nothing: what it adds are
    directories on the way to [p]. *)
Lemma makedirs_at_grows k p w :
  grown_towards p (fs w) (fs (snd (makedirs_at k p w))).
Proof.
  revert p w. induction k as [|k IH]; intros p w; cbn [makedirs_at].
  - apply grown_refl.
  - assert (grown_towards p (fs w)
              (fs (snd (bind (path_exists (dirname p)) (fun head_exists =>
                 when (negb head_exists)
                   (try_except (makedirs_at k (dirname p))
                      (fun e => match e with
                                | FileExistsError _ => ret tt
                                | _ => raise e
                                end))) w)))) as Hhead.
    { unfold bind at 1. rewrite path_exists_run.
      destruct (fs_exists (fs w) (dirname p)); cbn [negb when]; [apply grown_refl|].
      apply (grown_weaken (dirname p)); [apply dirname_prefix|].
      specialize (IH (dirname p) w). unfold try_except.
      destruct (makedirs_at k (dirname p) w) as [[[]|e] w1]; [done|].
      by destruct e. }
    unfold bind at 1.
    destruct (bind (path_exists (dirname p)) _ w) as [[[]|e] w1]; [|done].
    cbn [snd] in Hhead. eapply grown_trans; [exact Hhead|].
    pose proof (mkdir_grows p w1) as Hmk. unfold try_except.
    destruct (mkdir p w1) as [[[]|e] w2]; [done|]. cbn [snd] in Hmk.
    unfold bind, path_isdir. by destruct (fs_isdir (fs w2) p).
Qed.

(** When [os.makedirs(p, exist_ok=True)] returns, [p] is a directory. *)
Lemma makedirs_at_there k p w w' :
  makedirs_at (S k) p w = (Ok tt, w') -> fs_isdir (fs w') p = true.
Proof.
  cbn [makedirs_at]. intros (u & w1 & _ & Hmk)%bind_inv_ok.
  unfold try_except in Hmk.
  destruct (mkdir p w1) as [[[]|e] w2] eqn:Hrun.
  - injection Hmk as <-. unfold mkdir, fs_do, fs_mkdir in Hrun.
    destruct (fs_node (fs w1) p); [done|].
    destruct (fs_node (fs w1) (dirname p)) as [[]|]; try done.
    injection Hrun as <-. cbn [fs set_fs]. unfold fs_isdir, fs_node.
    destruct p; [done|]. by rewrite lookup_insert_eq.
  - unfold bind, path_isdir in Hmk.
    destruct (fs_isdir (fs w2) p) eqn:Hd; [|done]. by injection Hmk as <-.
Qed.

Lemma makedirs_there p w w' :
  makedirs p w = (Ok tt, w') -> fs_isdir (fs w') p = true.
Proof.
  unfold makedirs. destruct p as [|c p]; [done|]. apply makedirs_at_there.
Qed.

(** A regular file where a top-level directory is wanted. *)
Lemma makedirs_top_file (c : string) w :
  fs_isfile (fs w) [c] = true ->
  makedirs [c] w = (Raise (FileExistsError [c]), w).
Proof.
  intros Hfile. unfold makedirs. cbn [length makedirs_at]. mrun.
  unfold fs_exists, fs_mkdir, fs_isfile, fs_isdir in *. cbn [dirname removelast fs_node] in *.
  destruct (fs w !! [c]) as [[f|]|] eqn:Hn; try done.
  cbv beta iota. unfold fs_isdir. cbn [fs_node]. by rewrite Hn.
Qed.

Lemma makedirs_top (c : string) w :
  fs_isfile (fs w) [c] = false ->
  makedirs [c] w = (Ok tt, set_fs (ensure_dir [c] (fs w)) w).
Proof. intros Hfile. by apply makedirs_parent_there. Qed.

Lemma isfile_ensure_dir (d q : path) (m : fsmap) :
  d <> [] -> fs_isfile (ensure_dir d m) q = fs_isfile m q.
Proof.
  intros Hd. unfold fs_isfile, fs_node. destruct q as [|c q]; [done|].
  rewrite lookup_ensure_dir by done. case_decide as E; [|done].
  rewrite <- E. by destruct (m !! d) as [[]|].
Qed.

Lemma isdir_ensure_dir (d : path) (m : fsmap) :
  d <> [] -> fs_isfile m d = false -> fs_isdir (ensure_dir d m) d = true.
Proof.
  intros Hd Hf. unfold fs_isdir, fs_isfile in *. rewrite fs_node_lookup in * by done.
  rewrite lookup_ensure_dir by done. rewrite decide_True by done.
  by destruct (m !! d) as [[]|].
Qed.

Lemma ensure_dir_there (d : path) (m : fsmap) :
  fs_exists m d = true -> ensure_dir d m = m.
Proof. unfold ensure_dir. by intros ->. Qed.

(** X10. [__init__] makes the download and the backup directory: when
    neither name is taken by a regular file it succeeds, both are
    directories afterwards and every other path is as before; calling it
    again changes nothing. A regular file in the place of temp_updates
    makes it raise [FileExistsError] before anything is done. *)
Theorem init_makes_the_two_directories w :
  (fs_isfile (fs w) temp_dir = false ->
   fs_isfile (fs w) backup_dir = false ->
   exists w',
     init w = (Ok tt, w') /\
     fs_isdir (fs w') temp_dir = true /\
     fs_isdir (fs w') backup_dir = true /\
     (forall q, q <> temp_dir -> q <> backup_dir -> fs w' !! q = fs w !! q) /\
     init w' = (Ok tt, w')) /\
  (fs_isfile (fs w) temp_dir = true ->
   init w = (Raise (FileExistsError temp_dir), w)).
Proof.
  split.
  - intros Ht Hb.
    exists (set_fs (ensure_dir backup_dir (ensure_dir temp_dir (fs w))) w).
    assert (forall w0, fs_isfile (fs w0) temp_dir = false ->
              fs_isfile (fs w0) backup_dir = false ->
              init w0 = (Ok tt, set_fs (ensure_dir backup_dir (ensure_dir temp_dir (fs w0))) w0))
      as Hinit.
    { intros w0 Ht0 Hb0. unfold init, temp_dir, backup_dir.
      rewrite (bind_ok _ _ _ _ _ (makedirs_top _ _ Ht0)).
      rewrite makedirs_top; [done|]. cbn [fs set_fs]. by rewrite isfile_ensure_dir. }
    assert (fs_isdir (ensure_dir backup_dir (ensure_dir temp_dir (fs w))) temp_dir = true)
      as Hdt.
    { unfold fs_isdir. rewrite fs_node_lookup, lookup_ensure_dir by done.
      rewrite decide_False by done.
      pose proof (isdir_ensure_dir temp_dir (fs w) ltac:(done) Ht) as Hd.
      unfold fs_isdir in Hd. by rewrite fs_node_lookup in Hd by done. }
    assert (fs_isdir (ensure_dir backup_dir (ensure_dir temp_dir (fs w))) backup_dir = true)
      as Hdb.
    { apply isdir_ensure_dir; [done|]. by rewrite isfile_ensure_dir. }
    split; [by apply Hinit|]. split; [done|]. split; [done|]. split.
    + intros q Hq1 Hq2. cbn [fs set_fs].
      rewrite !lookup_ensure_dir by done. by rewrite !decide_False by done.
    + rewrite Hinit; cbn [fs set_fs].
      * rewrite (ensure_dir_there temp_dir), (ensure_dir_there backup_dir); [done|..].
        -- unfold fs_exists, fs_isdir in *.
           by destruct (fs_node (ensure_dir backup_dir (ensure_dir temp_dir (fs w))) backup_dir).
        -- unfold fs_exists, fs_isdir in *.
           by destruct (fs_node (ensure_dir backup_dir (ensure_dir temp_dir (fs w))) temp_dir).
      * by rewrite !isfile_ensure_dir.
      * by rewrite !isfile_ensure_dir.
  - intros Ht. unfold init. by rewrite (bind_raise _ _ _ _ _ (makedirs_top_file _ _ Ht)).
Qed.

End Directories.

(** * What a call leaves alone *)

Section FrameFacts.
Context {RT : Runtime}.
Local Open Scope list_scope.

Lemma keeps_ret {A} P (a : A) : keeps P (ret a).
Proof. by intros w q _. Qed.

Lemma keeps_raise {A} P e : keeps P (@raise RT A e).
Proof. by intros w q _. Qed.

Lemma keeps_lift {A} P (r : result A) : keeps P (lift r).
Proof. by intros w q _. Qed.

Lemma keeps_bind {A B} P (m : M A) (k : A -> M B) :
  keeps P m -> (forall a, keeps P (k a)) -> keeps P (bind m k).
Proof.
  intros Hm Hk w q Hq. unfold bind. specialize (Hm w q Hq).
  destruct (m w) as [[a|e] w1]; cbn [snd] in *; [|done].
  by rewrite (Hk a w1 q Hq).
Qed.

Lemma keeps_try {A} P (m : M A) h :
  keeps P m -> (forall e, keeps P (h e)) -> keeps P (try_except m h).
Proof.
  intros Hm Hh w q Hq. unfold try_except. specialize (Hm w q Hq).
  destruct (m w) as [[a|e] w1]; cbn [snd] in *; [done|].
  by rewrite (Hh e w1 q Hq).
Qed.

Lemma keeps_when P b m : keeps P m -> keeps P (when b m).
Proof. destruct b; [done|]. intros _. apply keeps_ret. Qed.

Lemma keeps_for_each {A} P (l : list A) body :
  (forall x, keeps P (body x)) -> keeps P (for_each l body).
Proof.
  intros Hbody. induction l as [|x l IH]; cbn [for_each].
  - apply keeps_ret.
  - apply keeps_bind; auto.
Qed.

Lemma keeps_emit P e : keeps P (emit e).
Proof. by intros w q _. Qed.

Lemma keeps_say P s : keeps P (say s).
Proof. by intros w q _. Qed.

Lemma keeps_path_exists P p : keeps P (path_exists p).
Proof. by intros w q _. Qed.

Lemma keeps_path_isdir P p : keeps P (path_isdir p).
Proof. by intros w q _. Qed.

Lemma keeps_read_file P p : keeps P (read_file p).
Proof. by intros w q _. Qed.

Lemma keeps_walk_files P p : keeps P (walk_files p).
Proof. by intros w q _. Qed.

Lemma keeps_fs_do P f :
  (forall m m' q, f m = Ok m' -> P q -> m' !! q = m !! q) -> keeps P (fs_do f).
Proof.
  intros Hf w q Hq. unfold fs_do. destruct (f (fs w)) as [m'|e] eqn:E; [|done].
  cbn [snd fs set_fs]. by apply (Hf (fs w)).
Qed.

Lemma keeps_rmtree (P : path -> Prop) p :
  (forall q, P q -> ~ p `prefix_of` q) -> keeps P (rmtree p).
Proof.
  intros HP. apply keeps_fs_do. intros m m' q Hrun Hq. unfold fs_rmtree in Hrun.
  destruct (fs_node m p) as [[]|]; try done. injection Hrun as <-.
  apply lookup_rmtree_outside. by apply HP.
Qed.

Lemma keeps_remove (P : path -> Prop) p :
  (forall q, P q -> q <> p) -> keeps P (remove p).
Proof.
  intros HP. apply keeps_fs_do. intros m m' q Hrun Hq. unfold fs_remove in Hrun.
  destruct (fs_node m p) as [[]|]; try done. injection Hrun as <-.
  apply lookup_delete_ne. intros ->. by apply (HP q).
Qed.

Lemma keeps_mkdir (P : path -> Prop) p :
  (forall q, P q -> q <> p) -> keeps P (mkdir p).
Proof.
  intros HP. apply keeps_fs_do. intros m m' q Hrun Hq. unfold fs_mkdir in Hrun.
  destruct (fs_node m p); [done|].
  destruct (fs_node m (dirname p)) as [[]|]; try done. injection Hrun as <-.
  apply lookup_insert_ne. intros ->. by apply (HP q).
Qed.

Lemma fs_open_w_other (meta : Z) (m m' : fsmap) (p q : path) :
  fs_open_w meta m p = Ok m' -> q <> p -> m' !! q = m !! q.
Proof.
  intros Hrun Hq. unfold fs_open_w in Hrun.
  destruct (fs_node m p) as [[]|]; try done.
  - injection Hrun as <-. by apply lookup_insert_ne.
  - destruct (fs_node m (dirname p)) as [[]|]; try done. injection Hrun as <-.
    by apply lookup_insert_ne.
Qed.

Lemma keeps_open_w (P : path -> Prop) p :
  (forall q, P q -> q <> p) -> keeps P (open_w p).
Proof.
  intros HP w q Hq. unfold open_w, fs_do.
  destruct (fs_open_w (new_meta w) (fs w) p) as [m'|e] eqn:E; [|done].
  cbn [snd fs set_fs]. apply (fs_open_w_other _ _ _ _ _ E). by apply HP.
Qed.

Lemma keeps_file_write (P : path -> Prop) p s :
  (forall q, P q -> q <> p) -> keeps P (file_write p s).
Proof.
  intros HP. apply keeps_fs_do. intros m m' q [= <-] Hq. unfold fs_write.
  apply lookup_alter_ne. intros ->. by apply (HP q).
Qed.

Lemma keeps_copy2 (P : path -> Prop) src dst :
  (forall q, P q -> q <> dst /\ q <> dst ++ [default "" (last src)]) ->
  keeps P (copy2 src dst).
Proof.
  intros HP. apply keeps_fs_do. intros m m' q Hrun Hq. unfold fs_copy2 in Hrun.
  set (dst' := if fs_isdir m dst then dst ++ [default "" (last src)] else dst) in *.
  assert (q <> dst') as Hne.
  { destruct (HP q Hq). unfold dst'. by destruct (fs_isdir m dst). }
  destruct (bool_decide (src = dst') && fs_exists m src); [done|].
  destruct (fs_read m src) as [f|]; [|done]. cbn [rbind] in Hrun.
  destruct (fs_open_w (fmeta f) m dst') as [m1|] eqn:E; [|done]. cbn [rbind] in Hrun.
  injection Hrun as <-. rewrite lookup_insert_ne by done.
  by apply (fs_open_w_other _ _ _ _ _ E).
Qed.

Lemma keeps_makedirs_at (P : path -> Prop) k p :
  (forall q, P q -> q <> [] -> ~ q `prefix_of` p) -> keeps P (makedirs_at k p).
Proof.
  intros HP w q Hq. destruct (makedirs_at_grows k p w q) as [E|(_ & _ & Hne & Hpre)];
    [done|]. by destruct (HP q Hq Hne).
Qed.

Lemma keeps_makedirs (P : path -> Prop) p :
  (forall q, P q -> q <> [] -> ~ q `prefix_of` p) -> keeps P (makedirs p).
Proof. apply keeps_makedirs_at. Qed.

Lemma keeps_weaken {A} (P Q : path -> Prop) (m : M A) :
  (forall q, Q q -> P q) -> keeps P m -> keeps Q m.
Proof. intros HQP Hm w q Hq. apply Hm. by apply HQP. Qed.

(** A non-empty prefix of a path starts with its first component. *)
Lemma nonempty_prefix_head (c : string) (q rest : path) :
  q <> [] -> q `prefix_of` (c :: rest) -> [c] `prefix_of` q.
Proof.
  intros Hq [k Hk]. destruct q as [|c' q']; [done|].
  injection Hk as -> _. by exists q'.
Qed.

(** ** Signals *)

Lemma emits_only_fs {A} P (m : M A) : only_fs m -> emits_only P m.
Proof.
  intros Hm w. exists []. rewrite (Hm w). cbn [events set_fs].
  by rewrite app_nil_r.
Qed.

Lemma emits_only_ret {A} P (a : A) : emits_only P (ret a).
Proof. intros w. exists []. by rewrite app_nil_r. Qed.

Lemma emits_only_raise {A} P e : emits_only P (@raise RT A e).
Proof. intros w. exists []. by rewrite app_nil_r. Qed.

Lemma emits_only_lift {A} P (r : result A) : emits_only P (lift r).
Proof. intros w. exists []. by rewrite app_nil_r. Qed.

Lemma emits_only_bind {A B} P (m : M A) (k : A -> M B) :
  emits_only P m -> (forall a, emits_only P (k a)) -> emits_only P (bind m k).
Proof.
  intros Hm Hk w. unfold bind. destruct (Hm w) as (l1 & H1 & HP1).
  destruct (m w) as [[a|e] w1]; cbn [snd] in *; [|by exists l1].
  destruct (Hk a w1) as (l2 & H2 & HP2). exists (l1 ++ l2).
  split; [by rewrite H2, H1, app_assoc|]. by apply Forall_app.
Qed.

Lemma emits_only_try {A} P (m : M A) h :
  emits_only P m -> (forall e, emits_only P (h e)) -> emits_only P (try_except m h).
Proof.
  intros Hm Hh w. unfold try_except. destruct (Hm w) as (l1 & H1 & HP1).
  destruct (m w) as [[a|e] w1]; cbn [snd] in *; [by exists l1|].
  destruct (Hh e w1) as (l2 & H2 & HP2). exists (l1 ++ l2).
  split; [by rewrite H2, H1, app_assoc|]. by apply Forall_app.
Qed.

Lemma emits_only_when P b m : emits_only P m -> emits_only P (when b m).
Proof. destruct b; [done|]. intros _. apply emits_only_ret. Qed.

Lemma emits_only_for_each {A} P (l : list A) body :
  (forall x, emits_only P (body x)) -> emits_only P (for_each l body).
Proof.
  intros Hbody. induction l as [|x l IH]; cbn [for_each].
  - apply emits_only_ret.
  - apply emits_only_bind; auto.
Qed.

Lemma emits_only_emit (P : event -> Prop) e : P e -> emits_only P (emit e).
Proof. intros He w. exists [e]. split; [done|]. by constructor. Qed.

Lemma emits_only_say (P : event -> Prop) s : P (StatusChanged s) -> emits_only P (say s).
Proof. apply emits_only_emit. Qed.

Lemma emits_only_read_file P p : emits_only P (read_file p).
Proof. intros w. exists []. by rewrite app_nil_r. Qed.

Lemma emits_only_path_exists P p : emits_only P (path_exists p).
Proof. intros w. exists []. by rewrite app_nil_r. Qed.

Lemma emits_only_walk_files P p : emits_only P (walk_files p).
Proof. intros w. exists []. by rewrite app_nil_r. Qed.

End FrameFacts.

(** * The backup and the restore, in any installation *)

Section BackupRestore.
Context {RT : Runtime}.
Local Open Scope list_scope.

(** A step that touches only the tree either hands on a new tree or
    stops with one. *)
Lemma bind_only_fs {A B} (m : M A) (k : A -> M B) w :
  only_fs m ->
  (exists a m', bind m k w = k a (set_fs m' w)) \/
  (exists e m', bind m k w = (Raise e, set_fs m' w)).
Proof.
  intros Hm. specialize (Hm w). unfold bind.
  destruct (m w) as [[a|e] w1]; cbn [snd] in Hm; rewrite Hm.
  - left. by exists a, (fs w1).
  - right. by exists e, (fs w1).
Qed.

Lemma only_fs_backup_file p : only_fs (backup_file p).
Proof.
  apply only_fs_bind; [apply only_fs_path_exists|intros b].
  apply only_fs_when, only_fs_bind; [apply only_fs_makedirs_at|intros _].
  apply only_fs_fs_do.
Qed.

Lemma under_backup_not_nil (q : path) : backup_dir `prefix_of` q -> q <> [].
Proof. by intros [k ->]. Qed.

Lemma keeps_backup_file p :
  keeps (fun q => ~ backup_dir `prefix_of` q) (backup_file p).
Proof.
  apply keeps_bind; [apply keeps_path_exists|intros b].
  apply keeps_when, keeps_bind; [|intros _].
  - apply keeps_makedirs. intros q Hq Hne Hpre. apply Hq.
    by apply (nonempty_prefix_head _ _ (dirname p)).
  - apply keeps_copy2. intros q Hq. split; intros ->; apply Hq.
    + by exists p.
    + exists (p ++ [default "" (last p)]). by rewrite <- app_assoc.
Qed.

(** The backup leaves everything outside the backup directory alone. *)
Lemma keeps_create_backup :
  keeps (fun q => ~ backup_dir `prefix_of` q) create_backup.
Proof.
  apply keeps_bind; [apply keeps_say|intros _].
  apply keeps_try.
  - apply keeps_bind; [apply keeps_path_exists|intros there].
    apply keeps_bind; [apply keeps_when, keeps_rmtree; by intros q Hq|intros _].
    apply keeps_bind; [|intros _].
    { apply keeps_makedirs. intros q Hq Hne Hpre. apply Hq.
      by apply (nonempty_prefix_head _ _ []). }
    apply keeps_bind; [apply keeps_for_each, keeps_backup_file|intros _].
    apply keeps_bind; [apply keeps_say|intros _]. apply keeps_ret.
  - intros e. apply keeps_bind; [apply keeps_say|intros _]. apply keeps_ret.
Qed.

(** [create_backup] never raises, and its last status tells how it went. *)
Lemma create_backup_run w :
  exists ok m s,
    create_backup w =
      (Ok ok, emitting [StatusChanged BackingUp; StatusChanged s] (set_fs m w)) /\
    ((ok = true /\ s = BackupDone) \/ (ok = false /\ exists e, s = BackupFailed (exn_str e))).
Proof.
  unfold create_backup. rewrite (bind_ok _ _ _ _ _ (say_run _ _)).
  set (w1 := emitting [StatusChanged BackingUp] w). unfold try_except.
  rewrite (bind_ok _ _ _ _ _ (path_exists_run _ _)).
  assert (forall e m', exists ok m s,
            (let (r, w') := (@Raise bool e, set_fs m' w1) in
             match r with
             | Ok a => (Ok a, w')
             | Raise e => bind (say (BackupFailed (exn_str e))) (fun _ => ret false) w'
             end) =
            (Ok ok, emitting [StatusChanged BackingUp; StatusChanged s] (set_fs m w)) /\
            ((ok = true /\ s = BackupDone) \/
             (ok = false /\ exists e, s = BackupFailed (exn_str e)))) as Hfail.
  { intros e m'. exists false, m', (BackupFailed (exn_str e)).
    split; [|right; eauto]. cbv beta iota. rewrite (bind_ok _ _ _ _ _ (say_run _ _)).
    subst w1. same_world. }
  destruct (bind_only_fs (when (fs_exists (fs w1) backup_dir) (rmtree backup_dir))
              (fun _ => bind (makedirs backup_dir) (fun _ =>
                 bind (for_each files_to_backup backup_file) (fun _ =>
                 bind (say BackupDone) (fun _ => ret true)))) w1)
    as [([] & m1 & ->)|(e & m1 & ->)];
    [apply only_fs_when, only_fs_fs_do| |apply Hfail].
  destruct (bind_only_fs (makedirs backup_dir)
              (fun _ => bind (for_each files_to_backup backup_file) (fun _ =>
                 bind (say BackupDone) (fun _ => ret true))) (set_fs m1 w1))
    as [([] & m2 & ->)|(e & m2 & ->)];
    [apply only_fs_makedirs_at| |apply Hfail].
  rewrite set_fs_set_fs.
  destruct (bind_only_fs (for_each files_to_backup backup_file)
              (fun _ => bind (say BackupDone) (fun _ => ret true)) (set_fs m2 w1))
    as [([] & m3 & ->)|(e & m3 & ->)];
    [apply only_fs_for_each, only_fs_backup_file| |rewrite set_fs_set_fs; apply Hfail].
  rewrite set_fs_set_fs, (bind_ok _ _ _ _ _ (say_run _ _)).
  exists true, m3, BackupDone. split; [|by left]. subst w1. same_world.
Qed.

(** X11. [create_backup] never raises: in any installation it returns a
    boolean after two status messages, the second saying how it went, and
    whether it succeeds or fails it leaves every path outside the backup
    directory as it was. With a regular file in the place of the backup
    directory it fails at once, having changed nothing. *)
Theorem create_backup_never_raises w :
  (exists ok m s,
     create_backup w =
       (Ok ok, emitting [StatusChanged BackingUp; StatusChanged s] (set_fs m w)) /\
     ((ok = true /\ s = BackupDone) \/
      (ok = false /\ exists e, s = BackupFailed (exn_str e))) /\
     (forall q, ~ backup_dir `prefix_of` q -> m !! q = fs w !! q)) /\
  (fs_isfile (fs w) backup_dir = true ->
   create_backup w =
     (Ok false,
      emitting [StatusChanged BackingUp;
                StatusChanged (BackupFailed (exn_str (NotADirectoryError backup_dir)))] w)).
Proof.
  split.
  - destruct (create_backup_run w) as (ok & m & s & Hrun & Hs).
    exists ok, m, s. split; [done|]. split; [done|]. intros q Hq.
    pose proof (keeps_create_backup w q Hq) as Hkeep. by rewrite Hrun in Hkeep.
  - intros Hfile. unfold fs_isfile in Hfile. rewrite fs_node_lookup in Hfile by done.
    destruct (fs w !! backup_dir) as [[f|]|] eqn:Hb; try done.
    unfold create_backup. mrun. unfold fs_exists, fs_rmtree.
    rewrite !fs_node_lookup, Hb by done. mrun.
    rewrite fs_node_lookup, Hb by done. destruct w. same_world.
Qed.

(** The files a walk of [top] visits. *)
Lemma elem_of_walk_files (m : fsmap) (top src : path) :
  src ∈ fs_walk_files m top <->
  fs_isdir m top = true /\ top `prefix_of` src /\ exists f, m !! src = Some (NFile f).
Proof.
  unfold fs_walk_files. destruct (fs_isdir m top); last first.
  { split; [by intros ?%elem_of_nil|by intros [? _]]. }
  rewrite list_elem_of_fmap. split.
  - intros ([q n] & -> & Hin). apply elem_of_map_to_list in Hin.
    apply map_lookup_filter_Some in Hin as [Hq [Hpre Hfile]]. cbn [fst snd] in *.
    split; [done|]. split; [done|]. destruct n as [f|]; [by exists f|done].
  - intros (_ & Hpre & f & Hq). exists (src, NFile f). split; [done|].
    apply elem_of_map_to_list, map_lookup_filter_Some. by repeat split.
Qed.

Lemma lookup_ensure_dir_ne (d q : path) (m : fsmap) :
  q <> d -> ensure_dir d m !! q = m !! q.
Proof.
  intros Hq. unfold ensure_dir. destruct (fs_exists m d); [done|].
  by rewrite lookup_insert_ne.
Qed.

Lemma makedirs_tracked_parent p w :
  p ∈ files_to_backup ->
  fs_isfile (fs w) ["assets"] = false ->
  makedirs (dirname p) w = (Ok tt, set_fs (ensure_dir (dirname p) (fs w)) w) /\
  fs_isdir (ensure_dir (dirname p) (fs w)) (dirname p) = true.
Proof.
  intros Hp Hassets. destruct (tracked_shape p Hp) as (_ & _ & _ & [-> | ->]).
  - split; [|done]. unfold ensure_dir. cbn. by destruct w.
  - split; [by apply makedirs_top|]. by apply isdir_ensure_dir.
Qed.

(** What holds of the tree [m] while [restore_backup] copies the files
    of the backup found in [m2] back, [seen] being those handled. *)
Lemma restore_file_step (m2 : fsmap) src w seen :
  (forall q n, backup_dir `prefix_of` q -> m2 !! q = Some n ->
     q = backup_dir \/ (q = backup_dir ++ ["assets"] /\ n = NDir) \/
     exists p, p ∈ files_to_backup /\ q = backup_dir ++ p /\ is_file_node n = true) ->
  (forall p, p ∈ files_to_backup -> fs_isdir m2 p = false) ->
  src ∈ fs_walk_files m2 backup_dir ->
  (forall s, s ∈ seen -> s ∈ fs_walk_files m2 backup_dir) ->
  ((forall q, backup_dir `prefix_of` q -> fs w !! q = m2 !! q) /\
   (forall p, p ∈ files_to_backup -> backup_dir ++ p ∈ seen ->
              fs w !! p = m2 !! (backup_dir ++ p)) /\
   (forall p, p ∈ files_to_backup -> backup_dir ++ p ∉ seen -> fs w !! p = m2 !! p) /\
   fs_isfile (fs w) ["assets"] = false /\
   (forall q, q ∉ files_to_backup -> q <> ["assets"] -> fs w !! q = m2 !! q)) ->
  exists m',
    restore_file src w = (Ok tt, set_fs m' w) /\
    ((forall q, backup_dir `prefix_of` q -> m' !! q = m2 !! q) /\
     (forall p, p ∈ files_to_backup -> backup_dir ++ p ∈ seen ++ [src] ->
                m' !! p = m2 !! (backup_dir ++ p)) /\
     (forall p, p ∈ files_to_backup -> backup_dir ++ p ∉ seen ++ [src] ->
                m' !! p = m2 !! p) /\
     fs_isfile m' ["assets"] = false /\
     (forall q, q ∉ files_to_backup -> q <> ["assets"] -> m' !! q = m2 !! q)).
Proof.
  intros Hshape Hnodir Hsrc Hseen (Hbk & Hdone & Htodo & Hassets & Hrest).
  apply elem_of_walk_files in Hsrc as (Hdir & Hpre & f & Hf).
  destruct (Hshape src _ Hpre Hf) as [->|[[_ [=]]|(p & Hp & -> & _)]].
  { unfold fs_isdir in Hdir. by rewrite fs_node_lookup, Hf in Hdir by done. }
  destruct (tracked_shape p Hp) as (Hne & Hna & Hnp & Hdn).
  set (d := dirname p).
  assert (p <> d) as Hpd.
  { unfold d. destruct Hdn as [-> | ->]; done. }
  assert (~ backup_dir `prefix_of` d) as Hdout.
  { unfold d. destruct Hdn as [-> | ->]; by intros [k [=]]. }
  assert (backup_dir ++ p <> d) as Hsd.
  { intros E. apply Hdout. exists p. by rewrite <- E. }
  destruct (makedirs_tracked_parent p w Hp Hassets) as [Hmk Hdd]. fold d in Hmk, Hdd.
  assert (fs_isdir (fs w) p = false) as Hpnd.
  { unfold fs_isdir. rewrite fs_node_lookup by done.
    destruct (decide (backup_dir ++ p ∈ seen)) as [Hin|Hout].
    - rewrite (Hdone p Hp Hin), Hf. done.
    - rewrite (Htodo p Hp Hout). specialize (Hnodir p Hp). unfold fs_isdir in Hnodir.
      by rewrite fs_node_lookup in Hnodir by done. }
  unfold restore_file. rewrite drop_app_length. fold d.
  rewrite (bind_ok _ _ _ _ _ Hmk). unfold copy2, fs_do. cbn [fs set_fs].
  rewrite (fs_copy2_file _ _ _ f); last done; first last.
  - unfold fs_isdir. rewrite fs_node_lookup, lookup_ensure_dir_ne by done.
    unfold fs_isdir in Hpnd. by rewrite fs_node_lookup in Hpnd by done.
  - by apply app_not_self.
  - rewrite fs_node_lookup by (by apply under_backup_not_nil).
    rewrite lookup_ensure_dir_ne by done. by rewrite Hbk.
  - eexists. split; [reflexivity|]. split; [|split; [|split; [|split]]].
    + intros q Hq. rewrite lookup_insert_ne by (by intros <-).
      rewrite lookup_ensure_dir_ne by (by intros ->). by apply Hbk.
    + intros p' Hp' Hin. destruct (decide (p' = p)) as [->|Hpp].
      { by rewrite lookup_insert_eq. }
      rewrite lookup_insert_ne by done.
      destruct (tracked_shape p' Hp') as (Hne' & Hna' & _).
      rewrite lookup_ensure_dir_ne.
      * apply Hdone; [done|].
        apply elem_of_app in Hin as [Hin|Hin%list_elem_of_singleton]; [done|].
        by apply app_inv_head in Hin.
      * unfold d. destruct Hdn as [-> | ->]; done.
    + intros p' Hp' Hout. assert (p' <> p) as Hpp.
      { intros ->. apply Hout, elem_of_app. right. by left. }
      rewrite lookup_insert_ne by done.
      destruct (tracked_shape p' Hp') as (Hne' & Hna' & _).
      rewrite lookup_ensure_dir_ne.
      * apply Htodo; [done|]. intros Hin. apply Hout, elem_of_app. by left.
      * unfold d. destruct Hdn as [-> | ->]; done.
    + unfold fs_isfile in *. rewrite fs_node_lookup in * by done.
      rewrite lookup_insert_ne by done. unfold ensure_dir.
      destruct (fs_exists (fs w) d) eqn:Hex; [done|].
      destruct (decide (d = ["assets"])) as [->|Hda].
      * by rewrite lookup_insert_eq.
      * by rewrite lookup_insert_ne.
    + intros q Hq1 Hq2. rewrite lookup_insert_ne by (by intros <-).
      destruct (decide (q = d)) as [->|Hqd].
      * unfold d in *. destruct Hdn as [E|E]; rewrite E in *; [|done].
        unfold ensure_dir. cbn. by apply Hrest.
      * rewrite lookup_ensure_dir_ne by done. by apply Hrest.
Qed.

(** The restore of a backup that holds a snapshot of the tracked files. *)
Lemma restore_backup_snapshot w :
  fs w !! backup_dir = Some NDir ->
  (forall q n, backup_dir `prefix_of` q -> fs w !! q = Some n ->
     q = backup_dir \/ (q = backup_dir ++ ["assets"] /\ n = NDir) \/
     exists p, p ∈ files_to_backup /\ q = backup_dir ++ p /\ is_file_node n = true) ->
  (forall p, p ∈ files_to_backup -> fs_isdir (fs w) p = false) ->
  fs_isfile (fs w) ["assets"] = false ->
  exists m,
    restore_backup w =
      (Ok true, emitting [StatusChanged Restoring; StatusChanged Restored] (set_fs m w)) /\
    (forall p n, p ∈ files_to_backup -> fs w !! (backup_dir ++ p) = Some n ->
                 m !! p = Some n) /\
    (forall p, p ∈ files_to_backup -> fs w !! (backup_dir ++ p) = None ->
               m !! p = fs w !! p) /\
    (forall q, q ∉ files_to_backup -> q <> ["assets"] -> m !! q = fs w !! q).
Proof.
  intros Hb Hshape Hnodir Hassets.
  unfold restore_backup.
  set (w1 := emitting [StatusChanged Restoring] w).
  destruct (for_each_inv
    (fun seen w' =>
       w' = set_fs (fs w') w1 /\
       (forall s, s ∈ seen -> s ∈ fs_walk_files (fs w) backup_dir) /\
       ((forall q, backup_dir `prefix_of` q -> fs w' !! q = fs w !! q) /\
        (forall p, p ∈ files_to_backup -> backup_dir ++ p ∈ seen ->
                   fs w' !! p = fs w !! (backup_dir ++ p)) /\
        (forall p, p ∈ files_to_backup -> backup_dir ++ p ∉ seen ->
                   fs w' !! p = fs w !! p) /\
        fs_isfile (fs w') ["assets"] = false /\
        (forall q, q ∉ files_to_backup -> q <> ["assets"] -> fs w' !! q = fs w !! q)))
    restore_file (fs_walk_files (fs w) backup_dir)) with (seen := @nil path) (w := w1)
    as (w2 & Hloop & Hw2 & _ & (Hbk & Hdone & Htodo & _ & Hrest)).
  - intros seen src w' Hsrc (Hw' & Hseen & Hinv).
    destruct (restore_file_step (fs w) src w' seen Hshape Hnodir Hsrc Hseen Hinv)
      as (m' & Hrun & Hinv').
    exists (set_fs m' w'). split; [done|]. split; [by rewrite Hw'|]. split; [|done].
    intros s [Hs| ->%list_elem_of_singleton]%elem_of_app; auto.
  - split; [done|]. split; [by intros s Hs%elem_of_nil|].
    split; [done|]. split; [by intros p _ Hin%elem_of_nil|]. by repeat split.
  - exists (fs w2). split; [|split; [|split]].
    + apply try_ok. rewrite (bind_ok _ _ _ _ _ (say_run _ _)).
      rewrite (bind_ok _ _ _ _ _ (path_exists_run _ _)).
      assert (fs_exists (fs (emitting [StatusChanged Restoring] w)) backup_dir = true) as ->.
      { unfold fs_exists. rewrite fs_node_lookup by done. cbn [fs emitting]. by rewrite Hb. }
      unfold walk_files. unfold bind at 1. fold w1. cbn [fs emitting] in *.
      change (fs w1) with (fs w). rewrite (bind_ok _ _ _ _ _ Hloop).
      rewrite (bind_ok _ _ _ _ _ (say_run _ _)). rewrite Hw2. subst w1. same_world.
    + intros p n Hp Hn. rewrite <- Hn. apply Hdone; [done|].
      apply elem_of_walk_files. split.
      { unfold fs_isdir. by rewrite fs_node_lookup, Hb by done. }
      split; [by exists p|].
      destruct (Hshape _ _ (ltac:(by exists p)) Hn) as [E|[[E _]|(p' & _ & _ & Hfile)]].
      * destruct (tracked_shape p Hp) as (Hne & _). by apply backup_not_self in E.
      * apply app_inv_head in E. by destruct (tracked_shape p Hp) as (_ & ? & _).
      * destruct n as [f|]; [by exists f|done].
    + intros p Hp Hnone. apply Htodo; [done|].
      intros (_ & _ & f & Hf)%elem_of_walk_files. congruence.
    + done.
Qed.

(** Without a backup directory [restore_backup] says so and touches
    nothing. *)
Lemma restore_backup_none w :
  fs_exists (fs w) backup_dir = false ->
  restore_backup w =
    (Ok false, emitting [StatusChanged Restoring; StatusChanged NoBackup] w).
Proof.
  intros Hnone. unfold restore_backup. apply try_ok.
  rewrite (bind_ok _ _ _ _ _ (say_run _ _)).
  rewrite (bind_ok _ _ _ _ _ (path_exists_run _ _)). cbn [fs emitting]. rewrite Hnone.
  rewrite (bind_ok _ _ _ _ _ (say_run _ _)). same_world.
Qed.

(** C9. When the [try:] block of [apply_update] raises [e], the
    [except] clause reports [str(e)] through the status, runs
    [restore_backup], and the answer is failure with the message [str(e)].
    The restore never raises into [apply_update]: when it fails, its last
    status says so (no backup, or its own error) and the answer still
    carries [str(e)]. The restore is a rollback: with a snapshot in the
    backup directory it goes through, and every tracked file of the
    snapshot is back in the installation with the data and metadata of its
    copy, whatever the failed update had put there; what is not tracked is
    left as the update left it. Without a backup directory nothing is
    restored. *)
Theorem rollback_reports_original_error update_file w e w1 :
  apply_body update_file w = (Raise e, w1) ->
  exists restored w2 s,
    restore_backup (emitting [StatusChanged (ApplyFailed (exn_str e))] w1)
      = (Ok restored, w2) /\
    apply_update update_file w = (Ok (false, JStr (exn_str e)), w2) /\
    events w2 = events w1 ++
      [StatusChanged (ApplyFailed (exn_str e)); StatusChanged Restoring;
       StatusChanged s] /\
    ((restored = true /\ s = Restored) \/
     (restored = false /\ (s = NoBackup \/ exists e', s = RestoreFailed (exn_str e')))) /\
    (snapshot_in_place (fs w1) ->
     restored = true /\ s = Restored /\
     (forall p n, p ∈ files_to_backup -> fs w1 !! (backup_dir ++ p) = Some n ->
                  fs w2 !! p = Some n) /\
     (forall p, p ∈ files_to_backup -> fs w1 !! (backup_dir ++ p) = None ->
                fs w2 !! p = fs w1 !! p) /\
     (forall q, q ∉ files_to_backup -> q <> ["assets"] -> fs w2 !! q = fs w1 !! q)) /\
    (fs_exists (fs w1) backup_dir = false ->
     restored = false /\ s = NoBackup /\ fs w2 = fs w1).
Proof.
  intros Hbody.
  destruct (rollback_lemma _ _ _ _ Hbody) as (restored & w2 & s & Hres & Hrun & Hev & Hs).
  exists restored, w2, s. split; [done|]. split; [done|]. split; [done|].
  split; [done|]. split.
  - intros (Hb & Hshape & Hnodir & Hassets).
    destruct (restore_backup_snapshot
                (emitting [StatusChanged (ApplyFailed (exn_str e))] w1))
      as (m & Hsnap & Hback & Hkeep & Hrest); try done.
    rewrite Hsnap in Hres. injection Hres as <- <-.
    assert (s = Restored) as ->.
    { cbn [events emitting set_fs] in Hev. rewrite <- !app_assoc in Hev.
      apply app_inv_head in Hev. by injection Hev as <-. }
    by repeat split.
  - intros Hnone.
    rewrite restore_backup_none in Hres by done. injection Hres as <- <-.
    assert (s = NoBackup) as ->.
    { cbn [events emitting] in Hev. rewrite <- !app_assoc in Hev.
      apply app_inv_head in Hev. by injection Hev as <-. }
    by repeat split.
Qed.

(** [create_backup] where nothing is in its way, with the invariant of
    its loop at the end. *)
Lemma create_backup_inv_run (w : world) :
  tree_shaped (fs w) ->
  fs_isfile (fs w) backup_dir = false ->
  (forall p, p ∈ files_to_backup -> fs_isdir (fs w) p = false) ->
  exists m,
    create_backup w =
      (Ok true,
       emitting [StatusChanged BackingUp; StatusChanged BackupDone] (set_fs m w)) /\
    backup_inv (fs w) m files_to_backup.
Proof.
  intros Htree Hfile Hnodir.
  unfold create_backup. rewrite (bind_ok _ _ _ _ _ (say_run _ _)).
  set (w1 := emitting [StatusChanged BackingUp] w).
  destruct (backup_start w1 Htree Hfile) as (mb & m1 & Hrm & Hmk & Hinv).
  destruct (for_each_inv
    (fun seen w' => w' = set_fs (fs w') w1 /\ backup_inv (fs w) (fs w') seen /\
                    forall p', p' ∈ seen -> p' ∈ files_to_backup)
    backup_file files_to_backup) with (seen := @nil path) (w := set_fs m1 w1)
    as (w2 & Hloop & Hw2 & Hinv2 & _).
  - intros seen p w' Hp (Hw' & Hinv' & Hseen).
    destruct (backup_file_step (fs w) p w' seen Hnodir Hp Hseen Hinv') as (m' & Hrun & Hinv'').
    exists (set_fs m' w'). split; [done|]. split; [by rewrite Hw'|]. split; [done|].
    intros p' [Hp'| ->%list_elem_of_singleton]%elem_of_app; auto.
  - split; [done|]. split; [done|]. by intros p' Hp'%elem_of_nil.
  - exists (fs w2). split; [|exact Hinv2].
    apply try_ok.
    rewrite (bind_ok _ _ _ _ _ (path_exists_run _ _)), (bind_ok _ _ _ _ _ Hrm),
      (bind_ok _ _ _ _ _ Hmk), (bind_ok _ _ _ _ _ Hloop),
      (bind_ok _ _ _ _ _ (say_run _ _)).
    rewrite Hw2. same_world.
Qed.

(** X12. Backup, then restore: after [create_backup] succeeded in [w0],
    take any later installation [w2] whose backup directory is as
    [create_backup] left it, whatever happened to the tracked files in
    between (changed, deleted), as long as none of them is a directory
    and assets is not a regular file. [restore_backup] then succeeds and
    every tracked file that existed at the time of the backup is back with
    the data and metadata it had; a tracked path that did not exist then
    is left as it is now, and so is every path that is not tracked, the
    directory assets apart (it is made when it is missing). *)
Theorem restore_after_backup_gives_files_back (w0 w2 : world) :
  tree_shaped (fs w0) ->
  fs_isfile (fs w0) backup_dir = false ->
  (forall p, p ∈ files_to_backup -> fs_isdir (fs w0) p = false) ->
  (forall q, backup_dir `prefix_of` q -> fs w2 !! q = fs (snd (create_backup w0)) !! q) ->
  (forall p, p ∈ files_to_backup -> fs_isdir (fs w2) p = false) ->
  fs_isfile (fs w2) ["assets"] = false ->
  fst (create_backup w0) = Ok true /\
  exists m,
    restore_backup w2 =
      (Ok true, emitting [StatusChanged Restoring; StatusChanged Restored] (set_fs m w2)) /\
    (forall p, p ∈ files_to_backup -> is_Some (fs w0 !! p) -> m !! p = fs w0 !! p) /\
    (forall p, p ∈ files_to_backup -> fs w0 !! p = None -> m !! p = fs w2 !! p) /\
    (forall q, q ∉ files_to_backup -> q <> ["assets"] -> m !! q = fs w2 !! q).
Proof.
  intros Htree Hfile Hnodir0 Hsame Hnodir2 Hassets.
  destruct (create_backup_inv_run w0 Htree Hfile Hnodir0)
    as (mb & Hrun & Hb & Hout & Hcopied & Hdirs & Honly).
  rewrite Hrun in *. cbn [fst snd fs emitting set_fs] in Hsame. split; [done|].
  assert (forall p, p ∈ files_to_backup -> fs w2 !! (backup_dir ++ p) = fs w0 !! p) as Hcopy.
  { intros p Hp. rewrite Hsame by (by exists p). by apply Hcopied. }
  destruct (restore_backup_snapshot w2) as (m & Hres & Hback & Hkeep & Hrest); try done.
  - by rewrite Hsame, Hb.
  - intros q n Hq Hn. rewrite Hsame in Hn by done.
    destruct (Honly q n Hq Hn) as [?|[?|(p & Hp & ->)]]; [by left|by right; left|].
    right; right. exists p. split; [done|]. split; [done|].
    rewrite (Hcopied p Hp) in Hn. specialize (Hnodir0 p Hp). unfold fs_isdir in Hnodir0.
    destruct (tracked_shape p Hp) as (Hne & _).
    rewrite fs_node_lookup, Hn in Hnodir0 by done. by destruct n.
  - exists m. split; [done|]. split; [|split; [|done]].
    + intros p Hp [n Hn]. rewrite Hn. apply Hback; [done|]. by rewrite Hcopy.
    + intros p Hp Hnone. apply Hkeep; [done|]. by rewrite Hcopy.
Qed.

End BackupRestore.

(** * The application of an update, in any installation *)

Section ApplyFacts.
Context {RT : Runtime}.
Local Open Scope list_scope.

Lemma only_fs_open_w p : only_fs (open_w p).
Proof.
  intros w. unfold open_w, fs_do.
  destruct (fs_open_w (new_meta w) (fs w) p); simpl; by destruct w.
Qed.

Lemma only_fs_extract members name : only_fs (extract members name).
Proof.
  unfold extract. destruct (getinfo members name) as [mem|]; [|apply only_fs_raise].
  apply only_fs_bind; [apply only_fs_path_exists|intros b].
  apply only_fs_bind; [apply only_fs_when, only_fs_makedirs_at|intros _].
  destruct (zbody mem).
  - apply only_fs_bind; [apply only_fs_path_isdir|intros d].
    apply only_fs_when, only_fs_fs_do.
  - apply only_fs_bind; [apply only_fs_open_w|intros _]. apply only_fs_fs_do.
  - apply only_fs_raise.
  - apply only_fs_bind; [apply only_fs_open_w|intros _].
    apply only_fs_bind; [apply only_fs_fs_do|intros _]. apply only_fs_raise.
Qed.

(** The signals of the extraction loop: one progress value per entry
    extracted, emitted once the entry is there. A loop that fails stops
    in the entry that raised, before the value of that entry. *)
Lemma extract_all_events members total (i : nat) names w :
  exists k : nat,
    (k <= length names)%nat /\
    events (snd (extract_all members total (Z.of_nat i) names w)) =
      events w ++ map (fun j => progress_after total (i + j)) (seq 0 k) /\
    (fst (extract_all members total (Z.of_nat i) names w) = Ok tt -> k = length names) /\
    (forall e, fst (extract_all members total (Z.of_nat i) names w) = Raise e ->
       exists name w_k,
         names !! k = Some name /\
         extract_all members total (Z.of_nat i) (take k names) w = (Ok tt, w_k) /\
         extract members name w_k =
           (Raise e, snd (extract_all members total (Z.of_nat i) names w))).
Proof.
  revert i w. induction names as [|name rest IH]; intros i w; cbn [extract_all].
  - exists 0%nat. cbn. rewrite app_nil_r. repeat split; done.
  - destruct (extract members name w) as [[[]|e0] w1] eqn:Hone.
    + rewrite (bind_ok _ _ _ _ _ Hone), (bind_ok _ _ _ _ _ (emit_run _ _)).
      replace (Z.of_nat i + 1) with (Z.of_nat (S i)) by lia.
      set (w2 := emitting [UpdateProgress (Z.of_nat (S i) * 100 / total)] w1).
      destruct (IH (S i) w2) as (k & Hk & Hev & Hok & Hfail).
      exists (S k). split; [cbn [length]; lia|]. split; [|split].
      * rewrite Hev. subst w2. cbn [events emitting seq map]. rewrite <- app_assoc.
        assert (events w1 = events w) as ->.
        { pose proof (only_fs_extract members name w) as H. rewrite Hone in H.
          cbn [snd] in H. by rewrite H. }
        f_equal. cbn [app]. f_equal.
        { unfold progress_after. do 2 f_equal. lia. }
        rewrite <- seq_shift, map_map. apply map_ext. intros j.
        unfold progress_after. do 3 f_equal. lia.
      * intros H. cbn [length]. f_equal. by apply Hok.
      * intros e He. destruct (Hfail e He) as (name' & w_k & Hname & Hpre & Hlast).
        exists name', w_k. split; [done|]. split; [|done].
        cbn [take extract_all].
        rewrite (bind_ok _ _ _ _ _ Hone), (bind_ok _ _ _ _ _ (emit_run _ _)).
        replace (Z.of_nat i + 1) with (Z.of_nat (S i)) by lia. exact Hpre.
    + rewrite (bind_raise _ _ _ _ _ Hone).
      exists 0%nat. split; [cbn [length]; lia|]. split; [|split].
      * cbn. rewrite app_nil_r.
        pose proof (only_fs_extract members name w) as H. rewrite Hone in H.
        cbn [snd] in H. by rewrite H.
      * done.
      * intros e [= <-]. exists name, w. split; [done|]. split; [done|]. exact Hone.
Qed.

Lemma progress_after_percentage (total : nat) (j : nat) :
  (j < total)%nat -> is_percentage (progress_after (Z.of_nat total) j).
Proof.
  intros Hj. eexists. split; [reflexivity|]. split.
  - apply Z.div_pos; lia.
  - apply Z.div_le_upper_bound; lia.
Qed.

Lemma progress_after_last (total : nat) :
  (0 < total)%nat ->
  progress_after (Z.of_nat total) (total - 1) = UpdateProgress 100.
Proof.
  intros Hpos. unfold progress_after. f_equal.
  replace (Z.of_nat (total - 1) + 1) with (Z.of_nat total) by lia.
  rewrite Z.mul_comm. apply Z.div_mul. lia.
Qed.

(** X13. The progress of an extraction, as [apply_update] runs it over
    the names of an archive: one value is emitted after each entry
    extracted, and nothing else; every value lies between 0 and 100; when
    the loop runs to its end there are as many values as entries and the
    last one is 100. An extraction that fails stops in the entry [k] whose
    extraction raised: the entries before it were extracted and reported,
    the error is the one of entry [k], and no value was emitted for it. *)
Theorem extraction_progress members names w :
  let total := Z.of_nat (length names) in
  let run := extract_all members total 0 names w in
  exists k : nat,
    (k <= length names)%nat /\
    events (snd run) = events w ++ map (progress_after total) (seq 0 k) /\
    Forall is_percentage (map (progress_after total) (seq 0 k)) /\
    (fst run = Ok tt ->
     k = length names /\
     (names <> [] ->
      last (map (progress_after total) (seq 0 k)) = Some (UpdateProgress 100))) /\
    (forall e, fst run = Raise e ->
     exists name w_k,
       names !! k = Some name /\
       extract_all members total 0 (take k names) w = (Ok tt, w_k) /\
       events w_k = events w ++ map (progress_after total) (seq 0 k) /\
       extract members name w_k = (Raise e, snd run)).
Proof.
  intros total run.
  destruct (extract_all_events members total 0 names w) as (k & Hk & Hev & Hok & Hfail).
  exists k. split; [done|]. split; [exact Hev|]. split; [|split].
  - apply Forall_forall. intros e (j & -> & Hj)%list_elem_of_fmap.
    apply elem_of_seq in Hj. apply progress_after_percentage. lia.
  - intros Hrun. specialize (Hok Hrun). split; [done|]. intros Hne.
    assert (0 < length names)%nat as Hpos by (destruct names; [done|cbn; lia]).
    subst k. destruct (length names) as [|n] eqn:Hn; [lia|].
    rewrite seq_S, map_app. cbn [map Nat.add]. rewrite last_snoc. f_equal.
    subst total. rewrite <- (progress_after_last (S n)) by lia.
    f_equal. lia.
  - intros e He. destruct (Hfail e He) as (name & w_k & Hname & Hpre & Hlast).
    exists name, w_k. split; [done|]. split; [done|]. split; [|done].
    pose proof (only_fs_extract members name w_k) as H. rewrite Hlast in H.
    cbn [snd] in H. fold run in H. rewrite H in Hev. exact Hev.
Qed.

(** One entry extracted: a file entry leaves its data at its path, a
    directory entry a directory; any other path is as before, or is a
    directory that was made on the way. *)
Lemma extract_effect members name mem w w' :
  getinfo members name = Some mem ->
  extract members name w = (Ok tt, w') ->
  w' = set_fs (fs w') w /\
  match zbody mem with
  | ZData d => fs w' !! zpath mem = Some (NFile (File d (new_meta w)))
  | ZDir => fs_isdir (fs w') (zpath mem) = true
  | _ => False
  end /\
  (forall q, q <> zpath mem ->
     fs w' !! q = fs w !! q \/ (fs w !! q = None /\ fs w' !! q = Some NDir)).
Proof.
  intros Hinfo Hrun.
  split. { pose proof (only_fs_extract members name w) as H. by rewrite Hrun in H. }
  unfold extract in Hrun. rewrite Hinfo in Hrun.
  apply bind_inv_ok in Hrun as (there & w0 & Hex & Hrun).
  injection Hex as _ <-.
  apply bind_inv_ok in Hrun as ([] & w1 & Hmk & Hrun).
  assert (w1 = set_fs (fs w1) w /\
          forall q, fs w1 !! q = fs w !! q \/ (fs w !! q = None /\ fs w1 !! q = Some NDir))
    as [Hw1 Hgrow].
  { destruct (negb there); cbn [when] in Hmk.
    - split.
      + pose proof (only_fs_makedirs_at (length (dirname (zpath mem))) (dirname (zpath mem)) w)
          as H. unfold makedirs in Hmk. by rewrite Hmk in H.
      + intros q. pose proof (makedirs_at_grows (length (dirname (zpath mem)))
                                (dirname (zpath mem)) w q) as H.
        unfold makedirs in Hmk. rewrite Hmk in H. cbn [snd] in H.
        destruct H as [H|(H1 & H2 & _)]; auto.
    - injection Hmk as <-. split; [by rewrite set_fs_same|]. intros q. by left. }
  destruct (zbody mem) as [|d|e|written e].
  - apply bind_inv_ok in Hrun as (isdir & w2 & Hd & Hrun). injection Hd as <- <-.
    destruct (fs_isdir (fs w1) (zpath mem)) eqn:Hdir; cbn [negb when] in Hrun.
    + injection Hrun as <-. split; [done|]. intros q _. apply Hgrow.
    + unfold mkdir, fs_do, fs_mkdir in Hrun.
      destruct (fs_node (fs w1) (zpath mem)) eqn:Hn; [done|].
      destruct (fs_node (fs w1) (dirname (zpath mem))) as [[]|]; try done.
      injection Hrun as <-. cbn [fs set_fs]. split.
      * unfold fs_isdir, fs_node. destruct (zpath mem); [done|].
        by rewrite lookup_insert_eq.
      * intros q Hq. rewrite lookup_insert_ne by done. apply Hgrow.
  - apply bind_inv_ok in Hrun as ([] & w2 & Hopen & Hwrite).
    unfold open_w, fs_do in Hopen.
    destruct (fs_open_w (new_meta w1) (fs w1) (zpath mem)) as [m2|] eqn:Ho; [|done].
    injection Hopen as <-. unfold file_write, fs_do in Hwrite. cbn [fs set_fs] in Hwrite.
    injection Hwrite as <-. cbn [fs set_fs].
    assert (m2 = <[zpath mem := NFile (File "" (new_meta w1))]> (fs w1)) as ->.
    { unfold fs_open_w in Ho. destruct (fs_node (fs w1) (zpath mem)) as [[]|]; try done.
      - by injection Ho as <-.
      - destruct (fs_node (fs w1) (dirname (zpath mem))) as [[]|]; try done.
        by injection Ho as <-. }
    rewrite fs_write_fresh. split.
    + rewrite lookup_insert_eq. rewrite Hw1. done.
    + intros q Hq. rewrite lookup_insert_ne by done. apply Hgrow.
  - done.
  - apply bind_inv_ok in Hrun as ([] & w2 & _ & Hrun).
    apply bind_inv_ok in Hrun as ([] & w3 & _ & Hrun). done.
Qed.

(** The paths the entries named [names] are written to. *)
Lemma extract_all_effect members total i names w w' :
  extract_all members total i names w = (Ok tt, w') ->
  new_meta w' = new_meta w /\
  (forall name, name ∈ names -> is_Some (getinfo members name)) /\
  (forall q f, fs w !! q = Some (NFile f) ->
     (forall name mem, name ∈ names -> getinfo members name = Some mem -> zpath mem <> q) ->
     fs w' !! q = Some (NFile f)).
Proof.
  revert i w. induction names as [|name rest IH]; intros i w Hrun; cbn [extract_all] in Hrun.
  - injection Hrun as <-. split; [done|]. split; [by intros name Hin%elem_of_nil|done].
  - apply bind_inv_ok in Hrun as ([] & w1 & Hone & Hrun).
    apply bind_inv_ok in Hrun as ([] & w2 & Hemit & Hrun).
    injection Hemit as <-.
    destruct (IH _ _ Hrun) as (Hmeta & Hinfo & Hkeep).
    assert (is_Some (getinfo members name)) as [mem Hmem].
    { unfold extract in Hone. by destruct (getinfo members name). }
    destruct (extract_effect _ _ _ _ _ Hmem Hone) as (Hw1 & _ & Hother).
    split; [|split].
    + rewrite Hmeta. cbn [new_meta emitting]. by rewrite Hw1.
    + intros name' [->|Hin]%elem_of_cons; [by exists mem|by apply Hinfo].
    + intros q f Hq Hpaths. apply Hkeep.
      * cbn [fs emitting].
        assert (q <> zpath mem) as Hne.
        { intros ->. apply (Hpaths name mem); [by left|done|done]. }
        destruct (Hother q Hne) as [E|[Hnone _]]; [by rewrite E|congruence].
      * intros name' mem' Hin. apply Hpaths. by right.
Qed.

(** X14. What a completed extraction leaves in the installation: when
    the entries are written to distinct paths, every file entry's data is
    at its path, with the metadata of a newly written file; and a regular
    file that no entry is written to is as it was. *)
Theorem extraction_installs_every_entry members total i names w w' :
  extract_all members total i names w = (Ok tt, w') ->
  NoDup (omap (fun name => zpath <$> getinfo members name) names) ->
  (forall name mem d,
     name ∈ names -> getinfo members name = Some mem -> zbody mem = ZData d ->
     fs w' !! zpath mem = Some (NFile (File d (new_meta w)))) /\
  (forall q f,
     fs w !! q = Some (NFile f) ->
     (forall name mem, name ∈ names -> getinfo members name = Some mem -> zpath mem <> q) ->
     fs w' !! q = Some (NFile f)).
Proof.
  intros Hrun Hdup. split; [|by apply (extract_all_effect _ _ _ _ _ _ Hrun)].
  revert i w Hrun Hdup. induction names as [|name rest IH]; intros i w Hrun Hdup.
  { by intros name mem d Hin%elem_of_nil. }
  cbn [extract_all] in Hrun.
  apply bind_inv_ok in Hrun as ([] & w1 & Hone & Hrun).
  apply bind_inv_ok in Hrun as ([] & w2 & Hemit & Hrun).
  injection Hemit as <-.
  assert (is_Some (getinfo members name)) as [mem0 Hmem0].
  { unfold extract in Hone. by destruct (getinfo members name). }
  cbn [omap list_omap] in Hdup. rewrite Hmem0 in Hdup. cbn [fmap option_fmap option_map] in Hdup.
  apply NoDup_cons in Hdup as [Hfresh Hdup].
  destruct (extract_effect _ _ _ _ _ Hmem0 Hone) as (Hw1 & Hbody & _).
  assert (new_meta w1 = new_meta w) as Hmeta by (by rewrite Hw1).
  intros name' mem d [->|Hin]%elem_of_cons Hmem Hd.
  - assert (mem = mem0) as -> by congruence. rewrite Hd in Hbody.
    destruct (extract_all_effect _ _ _ _ _ _ Hrun) as (_ & _ & Hkeep).
    apply Hkeep; [done|].
    intros name' mem' Hin Hmem' E. apply Hfresh.
    apply list_elem_of_omap. exists name'. split; [done|].
    rewrite Hmem'. cbn [fmap option_fmap option_map]. by rewrite E.
  - rewrite <- Hmeta. by apply (IH _ _ Hrun Hdup name' mem d).
Qed.

(** ** The signals of [apply_update] *)

Lemma create_backup_reports : emits_only is_report create_backup.
Proof.
  apply emits_only_bind; [by apply emits_only_say|intros _].
  apply emits_only_try.
  - apply emits_only_bind; [apply emits_only_path_exists|intros there].
    apply emits_only_bind; [apply emits_only_fs, only_fs_when, only_fs_fs_do|intros _].
    apply emits_only_bind; [apply emits_only_fs, only_fs_makedirs_at|intros _].
    apply emits_only_bind;
      [apply emits_only_fs, only_fs_for_each, only_fs_backup_file|intros _].
    apply emits_only_bind; [by apply emits_only_say|intros _]. apply emits_only_ret.
  - intros e. apply emits_only_bind; [by apply emits_only_say|intros _].
    apply emits_only_ret.
Qed.

Lemma restore_backup_reports : emits_only is_report restore_backup.
Proof.
  apply emits_only_try.
  - apply emits_only_bind; [by apply emits_only_say|intros _].
    apply emits_only_bind; [apply emits_only_path_exists|intros []].
    + apply emits_only_bind; [apply emits_only_walk_files|intros found].
      apply emits_only_bind;
        [apply emits_only_fs, only_fs_for_each, only_fs_restore_file|intros _].
      apply emits_only_bind; [by apply emits_only_say|intros _]. apply emits_only_ret.
    + apply emits_only_bind; [by apply emits_only_say|intros _]. apply emits_only_ret.
  - intros e. apply emits_only_bind; [by apply emits_only_say|intros _].
    apply emits_only_ret.
Qed.

Lemma cleanup_reports :
  emits_only (fun e => e = StatusChanged Cleaned) cleanup_temp_files.
Proof.
  apply emits_only_try; [|intros e; apply emits_only_ret].
  apply emits_only_bind; [apply emits_only_path_exists|intros there].
  apply emits_only_bind; [apply emits_only_fs, only_fs_when, only_fs_fs_do|intros _].
  apply emits_only_bind; [apply emits_only_path_exists|intros there'].
  apply emits_only_bind; [apply emits_only_fs, only_fs_when, only_fs_fs_do|intros _].
  by apply emits_only_say.
Qed.

Lemma emits_only_weaken {A} (P Q : event -> Prop) (m : M A) :
  (forall e, P e -> Q e) -> emits_only P m -> emits_only Q m.
Proof.
  intros HPQ Hm w. destruct (Hm w) as (l & Hl & HP). exists l. split; [done|].
  by apply (Forall_impl P).
Qed.

Lemma extract_all_reports members total i names :
  emits_only is_report (extract_all members total i names).
Proof.
  revert i. induction names as [|name rest IH]; intros i; cbn [extract_all].
  - apply emits_only_ret.
  - apply emits_only_bind; [apply emits_only_fs, only_fs_extract|intros _].
    apply emits_only_bind; [by apply emits_only_emit|intros _]. apply IH.
Qed.

Lemma apply_update_reports update_file :
  emits_only is_report (apply_update update_file).
Proof.
  apply emits_only_try.
  - apply emits_only_bind; [|intros _].
    { apply emits_only_bind; [by apply emits_only_say|intros _].
      apply emits_only_bind; [apply create_backup_reports|intros b].
      apply emits_only_bind; [apply emits_only_when; by apply emits_only_say|intros _].
      apply emits_only_bind; [apply emits_only_read_file|intros bytes].
      apply emits_only_bind; [apply emits_only_lift|intros members].
      apply extract_all_reports. }
    apply emits_only_bind; [|intros _].
    { eapply emits_only_weaken; [|apply cleanup_reports]. by intros e ->. }
    apply emits_only_bind; [by apply emits_only_say|intros _].
    apply emits_only_bind; [apply emits_only_read_file|intros text].
    apply emits_only_bind; [apply emits_only_lift|intros info].
    apply emits_only_bind; [apply emits_only_lift|intros version].
    apply emits_only_ret.
  - intros e. apply emits_only_bind; [by apply emits_only_say|intros _].
    apply emits_only_bind; [apply restore_backup_reports|intros _].
    apply emits_only_ret.
Qed.

(** The [try:] block answers success or raises. *)
Lemma apply_body_answer update_file w ok v w' :
  apply_body update_file w = (Ok (ok, v), w') -> ok = true.
Proof.
  unfold apply_body. intros Hbody.
  apply bind_inv_ok in Hbody as (? & ? & _ & Hbody).
  apply bind_inv_ok in Hbody as (? & ? & _ & Hbody).
  apply bind_inv_ok in Hbody as (? & ? & _ & Hbody).
  apply bind_inv_ok in Hbody as (? & ? & _ & Hbody).
  apply bind_inv_ok in Hbody as (? & ? & _ & Hbody).
  apply bind_inv_ok in Hbody as (? & ? & _ & Hbody).
  by injection Hbody as <- _ _.
Qed.

Lemma apply_update_run update_file w :
  exists ok msg w',
    apply_update update_file w = (Ok (ok, msg), w') /\
    (ok = true -> fs_isfile (fs w') update_info_file = true) /\
    (ok = false -> exists e, msg = JStr (exn_str e)).
Proof.
  destruct (apply_body update_file w) as [[[ok v]|e] w1] eqn:Hbody.
  - pose proof (apply_body_answer _ _ _ _ _ Hbody) as ->.
    exists true, v, w1.
    assert (apply_update update_file w = (Ok (true, v), w1)) as Hrun.
    { unfold apply_update. by rewrite (try_ok _ _ _ _ _ Hbody). }
    split; [done|]. split; [|done]. intros _.
    by apply (apply_update_success_keeps_record _ _ _ _ Hrun).
  - destruct (rollback_lemma _ _ _ _ Hbody) as (restored & w2 & s & _ & Hrun & _).
    exists false, (JStr (exn_str e)), w2. split; [done|]. split; [done|]. eauto.
Qed.

(** X15. [apply_update] never raises: in any installation and for any
    downloaded file it returns a pair; the signals it emits on the way are
    status texts and progress values only. An answer of failure carries
    the text of an exception; an answer of success is only given with
    update_info.json still in place as a regular file. *)
Theorem apply_update_always_answers update_file w :
  exists ok msg w' l,
    apply_update update_file w = (Ok (ok, msg), w') /\
    events w' = events w ++ l /\
    Forall is_report l /\
    (ok = true -> fs_isfile (fs w') update_info_file = true) /\
    (ok = false -> exists e, msg = JStr (exn_str e)).
Proof.
  destruct (apply_update_run update_file w) as (ok & msg & w' & Hrun & Htrue & Hfalse).
  destruct (apply_update_reports update_file w) as (l & Hl & Hreports).
  rewrite Hrun in Hl. by exists ok, msg, w', l.
Qed.

(** ** The cleanup *)

Lemma keeps_cleanup :
  keeps (fun q => ~ temp_dir `prefix_of` q /\ q <> update_info_file) cleanup_temp_files.
Proof.
  apply keeps_try; [|intros e; apply keeps_ret].
  apply keeps_bind; [apply keeps_path_exists|intros there].
  apply keeps_bind; [apply keeps_when, keeps_rmtree; by intros q [? _]|intros _].
  apply keeps_bind; [apply keeps_path_exists|intros there'].
  apply keeps_bind; [apply keeps_when, keeps_remove; by intros q [_ ?]|intros _].
  apply keeps_say.
Qed.

(** X16. [cleanup_temp_files] never raises, in any installation; it
    leaves alone every path that is neither update_info.json nor inside
    the download directory, and the only signal it may emit is the status
    that the temporary files were cleaned. Unless something is in its way
    (temp_updates is a regular file, update_info.json a directory),
    neither the directory nor the record exists afterwards. *)
Theorem cleanup_temp_files_never_raises w :
  exists w' l,
    cleanup_temp_files w = (Ok tt, w') /\
    events w' = events w ++ l /\
    Forall (fun e => e = StatusChanged Cleaned) l /\
    (forall q, ~ temp_dir `prefix_of` q -> q <> update_info_file ->
               fs w' !! q = fs w !! q) /\
    (fs_isfile (fs w) temp_dir = false ->
     fs_isdir (fs w) update_info_file = false ->
     fs_exists (fs w') temp_dir = false /\
     fs_exists (fs w') update_info_file = false /\
     l = [StatusChanged Cleaned]).
Proof.
  assert (exists w', cleanup_temp_files w = (Ok tt, w')) as [w' Hrun].
  { unfold cleanup_temp_files, try_except. destruct (bind _ _ w) as [[[]|e] w1]; eauto. }
  destruct (cleanup_reports w) as (l & Hl & Hreports). rewrite Hrun in Hl. cbn [snd] in Hl.
  exists w', l. split; [done|]. split; [done|]. split; [done|]. split.
  - intros q Hq1 Hq2. pose proof (keeps_cleanup w q (conj Hq1 Hq2)) as H.
    by rewrite Hrun in H.
  - intros Htemp Hinfo.
    destruct (cleanup_temp_files_run w Htemp Hinfo) as (m & Hrun' & Hm1 & Hm2).
    rewrite Hrun in Hrun'. injection Hrun' as ->. cbn [fs emitting set_fs] in *.
    split; [done|]. split; [done|]. by apply app_inv_head in Hl.
Qed.

(** ** No success with the download directory in place *)

(** An extraction that succeeds leaves the directories that were there. *)
Lemma extract_keeps_dirs members name w w' q :
  q <> [] ->
  extract members name w = (Ok tt, w') ->
  fs w !! q = Some NDir -> fs w' !! q = Some NDir.
Proof.
  intros Hne Hrun Hq. unfold extract in Hrun.
  destruct (getinfo members name) as [mem|]; [|done].
  apply bind_inv_ok in Hrun as (there & w0 & Hex & Hrun). injection Hex as _ <-.
  apply bind_inv_ok in Hrun as ([] & w1 & Hmk & Hrun).
  assert (fs w1 !! q = Some NDir) as Hq1.
  { destruct (negb there); cbn [when] in Hmk; [|by injection Hmk as <-].
    pose proof (makedirs_at_grows (length (dirname (zpath mem))) (dirname (zpath mem)) w q)
      as H. unfold makedirs in Hmk. rewrite Hmk in H. cbn [snd] in H.
    destruct H as [->|(Hnone & _)]; [done|congruence]. }
  destruct (zbody mem) as [|d|e|written e].
  - apply bind_inv_ok in Hrun as (isdir & w2 & Hd & Hrun). injection Hd as <- <-.
    destruct (fs_isdir (fs w1) (zpath mem)); cbn [negb when] in Hrun;
      [by injection Hrun as <-|].
    unfold mkdir, fs_do, fs_mkdir in Hrun.
    destruct (fs_node (fs w1) (zpath mem)) eqn:Hn; [done|].
    destruct (fs_node (fs w1) (dirname (zpath mem))) as [[]|]; try done.
    injection Hrun as <-. cbn [fs set_fs]. rewrite lookup_insert_ne; [done|].
    intros E. rewrite E, fs_node_lookup in Hn by done. congruence.
  - apply bind_inv_ok in Hrun as ([] & w2 & Hopen & Hwrite).
    unfold open_w, fs_do in Hopen.
    destruct (fs_open_w (new_meta w1) (fs w1) (zpath mem)) as [m2|] eqn:Ho; [|done].
    injection Hopen as <-. unfold file_write, fs_do in Hwrite. cbn [fs set_fs] in Hwrite.
    injection Hwrite as <-. cbn [fs set_fs].
    assert (zpath mem <> q) as Hzq.
    { intros E. unfold fs_open_w in Ho. rewrite E, fs_node_lookup, Hq1 in Ho by done. done. }
    unfold fs_write. rewrite lookup_alter_ne by done.
    by rewrite (fs_open_w_other _ _ _ _ _ Ho).
  - done.
  - apply bind_inv_ok in Hrun as ([] & w2 & _ & Hrun).
    apply bind_inv_ok in Hrun as ([] & w3 & _ & Hrun). done.
Qed.

Lemma extract_all_keeps_dirs members total i names w w' q :
  q <> [] ->
  extract_all members total i names w = (Ok tt, w') ->
  fs w !! q = Some NDir -> fs w' !! q = Some NDir.
Proof.
  intros Hne. revert i w. induction names as [|name rest IH]; intros i w Hrun Hq;
    cbn [extract_all] in Hrun.
  - by injection Hrun as <-.
  - apply bind_inv_ok in Hrun as ([] & w1 & Hone & Hrun).
    apply bind_inv_ok in Hrun as ([] & w2 & Hemit & Hrun). injection Hemit as <-.
    apply (IH _ _ Hrun). cbn [fs]. by apply (extract_keeps_dirs _ _ _ _ _ Hne Hone).
Qed.

Lemma unpack_keeps_temp_dir update_file w w' :
  unpack update_file w = (Ok tt, w') ->
  fs w !! temp_dir = Some NDir -> fs w' !! temp_dir = Some NDir.
Proof.
  unfold unpack. intros Hrun Ht.
  apply bind_inv_ok in Hrun as ([] & w1 & Hsay & Hrun). injection Hsay as <-.
  apply bind_inv_ok in Hrun as (backed & w2 & Hbackup & Hrun).
  apply bind_inv_ok in Hrun as ([] & w3 & Hwhen & Hrun).
  apply bind_inv_ok in Hrun as (bytes & w4 & Hread & Hrun).
  apply bind_inv_ok in Hrun as (members & w5 & Hzip & Hrun).
  apply (extract_all_keeps_dirs _ _ _ _ _ _ temp_dir ltac:(done) Hrun).
  assert (fs w2 !! temp_dir = Some NDir) as H2.
  { pose proof (keeps_create_backup
                  (emitting [StatusChanged Applying] w) temp_dir) as Hkeep.
    change (World _ _ _ _ _ _) with (emitting [StatusChanged Applying] w) in Hbackup.
    rewrite Hbackup in Hkeep. cbn [snd] in Hkeep. rewrite Hkeep; [done|].
    by intros [k [=]]. }
  assert (fs w3 = fs w2) as H3.
  { destruct (negb backed); cbn [when] in Hwhen; by injection Hwhen as <-. }
  unfold read_file in Hread. injection Hread as _ <-.
  unfold lift in Hzip. injection Hzip as _ <-. by rewrite H3.
Qed.

(** The cleanup with the download directory in place: afterwards the
    record is not a regular file. *)
Lemma cleanup_leaves_no_record w w' :
  fs w !! temp_dir = Some NDir ->
  cleanup_temp_files w = (Ok tt, w') ->
  fs_isfile (fs w') update_info_file = false.
Proof.
  intros Ht Hrun.
  destruct (fs_isdir (fs w) update_info_file) eqn:Hinfo.
  - assert (fs w' !! update_info_file = Some NDir) as Hrec.
    { unfold fs_isdir in Hinfo.
      change (fs_node (fs w) update_info_file) with (fs w !! update_info_file) in Hinfo.
      destruct (fs w !! update_info_file) as [[]|] eqn:Hi; try done.
      revert Hrun. unfold cleanup_temp_files.
      assert (forall m : fsmap, fs_node m temp_dir = m !! temp_dir) as Hn1 by done.
      assert (forall m : fsmap, fs_node m update_info_file = m !! update_info_file)
        as Hn2 by done.
      repeat (mrun; unfold fs_rmtree, fs_remove, fs_exists;
              rewrite ?Hn1, ?Hn2, ?Ht, ?Hi, ?lookup_rmtree_outside
                by (by intros [k [=]])).
      intros [= <-]. cbn [fs]. by rewrite lookup_rmtree_outside by (by intros [k [=]]). }
    unfold fs_isfile.
    change (fs_node (fs w') update_info_file) with (fs w' !! update_info_file).
    by rewrite Hrec.
  - assert (fs_isfile (fs w) temp_dir = false) as Htemp.
    { unfold fs_isfile. change (fs_node (fs w) temp_dir) with (fs w !! temp_dir).
      by rewrite Ht. }
    destruct (cleanup_temp_files_run w Htemp Hinfo) as (m & Hrun' & _ & Hgone).
    rewrite Hrun in Hrun'. injection Hrun' as ->. cbn [fs emitting set_fs].
    unfold fs_exists, fs_isfile in *.
    by destruct (fs_node m update_info_file).
Qed.

Lemma apply_body_raises update_file w :
  fs w !! temp_dir = Some NDir ->
  exists e w1, apply_body update_file w = (Raise e, w1).
Proof.
  intros Ht. destruct (apply_body update_file w) as [[[ok v]|e] w1] eqn:Hbody; [|eauto].
  exfalso. unfold apply_body in Hbody.
  apply bind_inv_ok in Hbody as ([] & w2 & Hunpack & Hbody).
  apply bind_inv_ok in Hbody as ([] & w3 & Hclean & Hbody).
  apply bind_inv_ok in Hbody as ([] & w4 & Hsay & Hbody). injection Hsay as <-.
  apply bind_inv_ok in Hbody as (text & w5 & Hread & _).
  pose proof (unpack_keeps_temp_dir _ _ _ Hunpack Ht) as Ht2.
  pose proof (cleanup_leaves_no_record _ _ Ht2 Hclean) as Hrec.
  unfold read_file, fs_read in Hread. cbn [fs] in Hread.
  unfold fs_isfile in Hrec.
  by destruct (fs_node (fs w3) update_info_file) as [[]|].
Qed.

Lemma apply_update_fails update_file w :
  fs w !! temp_dir = Some NDir ->
  exists e w', apply_update update_file w = (Ok (false, JStr (exn_str e)), w').
Proof.
  intros Ht. destruct (apply_body_raises update_file w Ht) as (e & w1 & Hbody).
  destruct (rollback_lemma _ _ _ _ Hbody) as (restored & w2 & s & _ & Hrun & _).
  by exists e, w2.
Qed.

(** X17. With the download directory in place, [apply_update] never
    answers success: whatever the archive holds and whatever else is in
    the installation, its [try:] block raises, and the answer is a failure
    that carries the text of the exception raised. *)
Theorem apply_update_never_succeeds update_file w :
  fs w !! temp_dir = Some NDir ->
  exists e w',
    apply_update update_file w = (Ok (false, JStr (exn_str e)), w') /\
    exists w1, apply_body update_file w = (Raise e, w1).
Proof.
  intros Ht. destruct (apply_body_raises update_file w Ht) as (e & w1 & Hbody).
  destruct (rollback_lemma _ _ _ _ Hbody) as (restored & w2 & s & _ & Hrun & _).
  exists e, w2. split; [done|]. by exists w1.
Qed.

End ApplyFacts.

(** * The download and the whole update *)

Section DownloadFacts.
Context {RT : Runtime}.
Variable retrieve : string -> result transfer.
Variable float_truth : string -> bool.
Local Open Scope list_scope.

Lemma ubind_ok {A B} (m : U A) (k : A -> U B) s a s' :
  m s = (Ok a, s') -> ubind m k s = k a s'.
Proof. unfold ubind. by intros ->. Qed.

Lemma ubind_raise {A B} (m : U A) (k : A -> U B) s e s' :
  m s = (Raise e, s') -> ubind m k s = (Raise e, s').
Proof. unfold ubind. by intros ->. Qed.

Lemma ubind_inv_ok {A B} (m : U A) (k : A -> U B) s b s' :
  ubind m k s = (Ok b, s') -> exists a s1, m s = (Ok a, s1) /\ k a s1 = (Ok b, s').
Proof.
  unfold ubind. destruct (m s) as [[a|e] s1]; [eauto|discriminate].
Qed.

(** A computation of [M] run in a session: its new signals are logged. *)
Lemma core_run {A} (m : M A) s r w' l :
  m (base s) = (r, w') ->
  events w' = events (base s) ++ l ->
  core m s = (r, Session w' (log s ++ map Core l)).
Proof.
  intros Hrun Hev. unfold core. by rewrite Hrun, Hev, drop_app_length.
Qed.

Lemma core_quiet {A} (m : M A) s r w' :
  m (base s) = (r, w') ->
  events w' = events (base s) ->
  core m s = (r, Session w' (log s)).
Proof.
  intros Hrun Hev. rewrite (core_run m s r w' []); [by rewrite app_nil_r|done|].
  by rewrite app_nil_r.
Qed.

Lemma ukeeps_ret {A} P (a : A) : ukeeps P (uret a).
Proof. by intros s q _. Qed.

Lemma ukeeps_tell P t : ukeeps P (tell t).
Proof. by intros s q _. Qed.

Lemma ukeeps_bind {A B} P (m : U A) (k : A -> U B) :
  ukeeps P m -> (forall a, ukeeps P (k a)) -> ukeeps P (ubind m k).
Proof.
  intros Hm Hk s q Hq. unfold ubind. specialize (Hm s q Hq).
  destruct (m s) as [[a|e] s1]; cbn [snd] in *; [|done].
  by rewrite (Hk a s1 q Hq).
Qed.

Lemma ukeeps_try {A} P (m : U A) h :
  ukeeps P m -> (forall e, ukeeps P (h e)) -> ukeeps P (utry m h).
Proof.
  intros Hm Hh s q Hq. unfold utry. specialize (Hm s q Hq).
  destruct (m s) as [[a|e] s1]; cbn [snd] in *; [done|].
  by rewrite (Hh e s1 q Hq).
Qed.

Lemma ukeeps_core {A} P (m : M A) : keeps P m -> ukeeps P (core m).
Proof.
  intros Hm s q Hq. unfold core. specialize (Hm (base s) q Hq).
  by destruct (m (base s)) as [r w'].
Qed.

Lemma ulogs_ret {A} P (a : A) : ulogs P (uret a).
Proof. intros s. exists []. by rewrite app_nil_r. Qed.

Lemma ulogs_tell (P : signal -> Prop) t : P (DownloadStatus t) -> ulogs P (tell t).
Proof. intros Ht s. exists [DownloadStatus t]. split; [done|]. by constructor. Qed.

Lemma ulogs_bind {A B} P (m : U A) (k : A -> U B) :
  ulogs P m -> (forall a, ulogs P (k a)) -> ulogs P (ubind m k).
Proof.
  intros Hm Hk s. unfold ubind. destruct (Hm s) as (l1 & H1 & HP1).
  destruct (m s) as [[a|e] s1]; cbn [snd] in *; [|by exists l1].
  destruct (Hk a s1) as (l2 & H2 & HP2). exists (l1 ++ l2).
  split; [by rewrite H2, H1, app_assoc|]. by apply Forall_app.
Qed.

Lemma ulogs_try {A} P (m : U A) h :
  ulogs P m -> (forall e, ulogs P (h e)) -> ulogs P (utry m h).
Proof.
  intros Hm Hh s. unfold utry. destruct (Hm s) as (l1 & H1 & HP1).
  destruct (m s) as [[a|e] s1]; cbn [snd] in *; [by exists l1|].
  destruct (Hh e s1) as (l2 & H2 & HP2). exists (l1 ++ l2).
  split; [by rewrite H2, H1, app_assoc|]. by apply Forall_app.
Qed.

Lemma ulogs_core {A} (P : event -> Prop) (Q : signal -> Prop) (m : M A) :
  emits_only P m -> (forall e, P e -> Q (Core e)) -> ulogs Q (core m).
Proof.
  intros Hm HPQ s. unfold core. destruct (Hm (base s)) as (l & Hl & HP).
  destruct (m (base s)) as [r w']. cbn [snd log] in *.
  exists (map Core l). rewrite Hl, drop_app_length. split; [done|].
  apply Forall_forall. intros x (e & -> & He)%list_elem_of_fmap.
  apply HPQ. by apply (proj1 (Forall_forall _ _) HP).
Qed.

Lemma ulogs_quiet {A} (Q : signal -> Prop) (m : M A) :
  emits_only (fun _ => False) m -> ulogs Q (core m).
Proof. intros Hm. by apply (ulogs_core (fun _ => False)). Qed.

(** ** The pieces of [download_update] *)

Lemma emits_only_listdir P p : emits_only P (listdir p).
Proof. intros w. exists []. by rewrite app_nil_r. Qed.

Lemma keeps_listdir P p : keeps P (listdir p).
Proof. by intros w q _. Qed.

Lemma report_progress_percentage count size :
  0 <= count -> emits_only is_percentage (report_progress count 8192 size).
Proof.
  intros Hc. unfold report_progress. destruct (size >? 0) eqn:Hs; cbn [when].
  - apply emits_only_emit. eexists. split; [reflexivity|].
    apply Z.gtb_lt in Hs. split.
    + apply Z.min_glb; [|lia]. apply Z.div_pos; lia.
    + apply Z.le_min_r.
  - apply emits_only_ret.
Qed.

Lemma receive_percentages filename size blocknum bl :
  0 <= blocknum -> emits_only is_percentage (receive filename size blocknum bl).
Proof.
  revert blocknum. induction bl as [|b bl IH]; intros blocknum Hn; cbn [receive].
  - apply emits_only_ret.
  - apply emits_only_bind; [apply emits_only_fs, only_fs_fs_do|intros _].
    apply emits_only_bind; [apply report_progress_percentage; lia|intros _].
    apply IH. lia.
Qed.

Lemma urlretrieve_percentages url filename :
  emits_only is_percentage (urlretrieve retrieve url filename).
Proof.
  unfold urlretrieve. destruct url; try apply emits_only_raise.
  apply emits_only_bind; [apply emits_only_lift|intros t].
  apply emits_only_bind; [apply emits_only_fs, only_fs_open_w|intros _].
  apply emits_only_bind; [by apply report_progress_percentage|intros _].
  apply emits_only_bind; [by apply receive_percentages|intros _].
  destruct (read_error t); [apply emits_only_raise|].
  destruct (_ && _); [apply emits_only_raise|apply emits_only_ret].
Qed.

Lemma keeps_report_progress P count bs size : keeps P (report_progress count bs size).
Proof. unfold report_progress. apply keeps_when, keeps_emit. Qed.

Lemma keeps_receive (P : path -> Prop) filename size blocknum bl :
  (forall q, P q -> q <> filename) -> keeps P (receive filename size blocknum bl).
Proof.
  intros HP. revert blocknum. induction bl as [|b bl IH]; intros blocknum; cbn [receive].
  - apply keeps_ret.
  - apply keeps_bind; [by apply keeps_file_write|intros _].
    apply keeps_bind; [apply keeps_report_progress|intros _]. apply IH.
Qed.

Lemma keeps_urlretrieve (P : path -> Prop) url filename :
  (forall q, P q -> q <> filename) -> keeps P (urlretrieve retrieve url filename).
Proof.
  intros HP. unfold urlretrieve. destruct url; try apply keeps_raise.
  apply keeps_bind; [apply keeps_lift|intros t].
  apply keeps_bind; [by apply keeps_open_w|intros _].
  apply keeps_bind; [apply keeps_report_progress|intros _].
  apply keeps_bind; [by apply keeps_receive|intros _].
  destruct (read_error t); [apply keeps_raise|].
  destruct (_ && _); [apply keeps_raise|apply keeps_ret].
Qed.

Lemma download_update_keeps :
  ukeeps (fun q => ~ temp_dir `prefix_of` q) (download_update retrieve float_truth).
Proof.
  apply ukeeps_try.
  - apply ukeeps_bind; [apply ukeeps_core, keeps_read_file|intros text].
    apply ukeeps_bind; [apply ukeeps_core, keeps_lift|intros info].
    apply ukeeps_bind; [apply ukeeps_core, keeps_lift|intros url].
    destruct (negb _).
    + apply ukeeps_bind; [apply ukeeps_tell|intros _]. apply ukeeps_ret.
    + apply ukeeps_bind; [apply ukeeps_tell|intros _].
      apply ukeeps_bind; [apply ukeeps_core, keeps_listdir|intros names].
      apply ukeeps_bind; [|intros _].
      { apply ukeeps_core, keeps_for_each. intros file. apply keeps_remove.
        intros q Hq ->. apply Hq. by exists [file]. }
      apply ukeeps_bind; [|intros _].
      { apply ukeeps_core, keeps_urlretrieve. intros q Hq ->. apply Hq.
        by exists [UPDATE_FILE]. }
      apply ukeeps_bind; [apply ukeeps_tell|intros _]. apply ukeeps_ret.
  - intros e. apply ukeeps_bind; [apply ukeeps_tell|intros _]. apply ukeeps_ret.
Qed.

Lemma download_update_logs :
  ulogs is_download_report (download_update retrieve float_truth).
Proof.
  apply ulogs_try.
  - apply ulogs_bind; [apply ulogs_quiet, emits_only_read_file|intros text].
    apply ulogs_bind; [apply ulogs_quiet, emits_only_lift|intros info].
    apply ulogs_bind; [apply ulogs_quiet, emits_only_lift|intros url].
    destruct (negb _).
    + apply ulogs_bind; [by apply ulogs_tell|intros _]. apply ulogs_ret.
    + apply ulogs_bind; [by apply ulogs_tell|intros _].
      apply ulogs_bind; [apply ulogs_quiet, emits_only_listdir|intros names].
      apply ulogs_bind; [|intros _].
      { apply ulogs_quiet, emits_only_fs, only_fs_for_each. intros file.
        apply only_fs_fs_do. }
      apply ulogs_bind; [|intros _].
      { apply (ulogs_core is_percentage); [apply urlretrieve_percentages|done]. }
      apply ulogs_bind; [by apply ulogs_tell|intros _]. apply ulogs_ret.
  - intros e. apply ulogs_bind; [by apply ulogs_tell|intros _]. apply ulogs_ret.
Qed.

Lemma isfile_lookup (m m' : fsmap) (p : path) :
  m' !! p = m !! p -> fs_isfile m' p = fs_isfile m p.
Proof. intros E. unfold fs_isfile, fs_node. destruct p; [done|]. by rewrite E. Qed.

Lemma fs_open_w_file (meta : Z) (m m' : fsmap) (p : path) :
  fs_open_w meta m p = Ok m' -> m' = <[p := NFile (File "" meta)]> m /\ p <> [].
Proof.
  unfold fs_open_w. destruct p as [|c p]; [done|]. cbn [fs_node].
  destruct (m !! (c :: p)) as [[]|]; try done.
  - by intros [= <-].
  - destruct (fs_node m (dirname (c :: p))) as [[]|]; try done. by intros [= <-].
Qed.

Lemma isfile_write (m : fsmap) (p : path) (b : string) :
  fs_isfile (fs_write m p b) p = fs_isfile m p.
Proof.
  unfold fs_isfile, fs_node, fs_write. destruct p as [|c p]; [done|].
  rewrite lookup_alter_eq. by destruct (m !! (c :: p)) as [[]|].
Qed.

Lemma report_progress_fs count bs size w :
  fs (snd (report_progress count bs size w)) = fs w.
Proof. unfold report_progress. by destruct (size >? 0). Qed.

Lemma receive_keeps_file filename size blocknum bl w :
  fs_isfile (fs w) filename = true ->
  fs_isfile (fs (snd (receive filename size blocknum bl w))) filename = true.
Proof.
  revert blocknum w. induction bl as [|b bl IH]; intros blocknum w Hfile; cbn [receive].
  - done.
  - unfold bind at 1, file_write, fs_do. cbn [fs set_fs].
    unfold bind at 1.
    pose proof (report_progress_fs (blocknum + 1) 8192 size
                  (set_fs (fs_write (fs w) filename (block_bytes b)) w)) as Hfs.
    destruct (report_progress _ _ _ _) as [[[]|e] w1]; cbn [snd] in *.
    + apply IH. rewrite Hfs. cbn [fs set_fs]. by rewrite isfile_write.
    + rewrite Hfs. cbn [fs set_fs]. by rewrite isfile_write.
Qed.

Lemma urlretrieve_ok_file url filename w w' :
  urlretrieve retrieve url filename w = (Ok tt, w') ->
  fs_isfile (fs w') filename = true.
Proof.
  unfold urlretrieve. destruct url as [| | | |u| |]; try done.
  intros Hrun.
  apply bind_inv_ok in Hrun as (t & w0 & Hnet & Hrun). injection Hnet as _ <-.
  apply bind_inv_ok in Hrun as ([] & w1 & Hopen & Hrun).
  apply bind_inv_ok in Hrun as ([] & w2 & Hrep & Hrun).
  apply bind_inv_ok in Hrun as ([] & w3 & Hrec & Hrun).
  assert (fs w' = fs w3) as ->.
  { destruct (read_error t); [done|]. destruct (_ && _); [done|].
    by injection Hrun as <-. }
  unfold open_w, fs_do in Hopen.
  destruct (fs_open_w (new_meta w) (fs w) filename) as [m1|] eqn:Ho; [|done].
  injection Hopen as <-. apply fs_open_w_file in Ho as [-> Hne].
  pose proof (report_progress_fs 0 8192 (content_length t)
                (set_fs (<[filename:=NFile (File "" (new_meta w))]> (fs w)) w)) as Hfs.
  rewrite Hrep in Hfs. cbn [snd fs set_fs] in Hfs.
  pose proof (receive_keeps_file filename (content_length t) 0 (blocks t) w2) as Hkeep.
  rewrite Hrec in Hkeep. apply Hkeep. rewrite Hfs.
  unfold fs_isfile. rewrite fs_node_lookup by done. by rewrite lookup_insert_eq.
Qed.

Lemma core_inv {A} (m : M A) s r s' :
  core m s = (r, s') -> m (base s) = (r, base s').
Proof.
  unfold core. destruct (m (base s)) as [r0 w']. by intros [= <- <-].
Qed.

(** What [download_update] returns. *)
Lemma download_update_answer s :
  exists r s',
    download_update retrieve float_truth s = (Ok r, s') /\
    (r = None \/
     (r = Some (temp_dir ++ [UPDATE_FILE]) /\
      fs_isfile (fs (base s')) (temp_dir ++ [UPDATE_FILE]) = true)).
Proof.
  unfold download_update, utry.
  match goal with
  | |- context [ubind ?m ?k s] => destruct (ubind m k s) as [[r|e] s1] eqn:Hbody
  end; last first.
  { eexists None, _. split; [reflexivity|by left]. }
  exists r, s1. split; [done|].
  apply ubind_inv_ok in Hbody as (text & s2 & _ & Hbody).
  apply ubind_inv_ok in Hbody as (info & s3 & _ & Hbody).
  apply ubind_inv_ok in Hbody as (url & s4 & _ & Hbody).
  destruct (negb (truthy float_truth url)).
  - apply ubind_inv_ok in Hbody as ([] & s5 & _ & Hbody). injection Hbody as <- _.
    by left.
  - apply ubind_inv_ok in Hbody as ([] & s5 & _ & Hbody).
    apply ubind_inv_ok in Hbody as (names & s6 & _ & Hbody).
    apply ubind_inv_ok in Hbody as ([] & s7 & _ & Hbody).
    apply ubind_inv_ok in Hbody as ([] & s8 & Hget & Hbody).
    apply ubind_inv_ok in Hbody as ([] & s9 & Htell & Hbody).
    injection Htell as <-. injection Hbody as <- <-. right. split; [done|].
    cbn [base]. apply core_inv in Hget. by apply urlretrieve_ok_file in Hget.
Qed.

(** After a download that returned a path, the download directory is a
    directory. *)
Lemma download_update_temp_dir s f s' :
  download_update retrieve float_truth s = (Ok (Some f), s') ->
  fs (base s') !! temp_dir = Some NDir.
Proof.
  unfold download_update, utry.
  match goal with
  | |- context [ubind ?m ?k s] => destruct (ubind m k s) as [[r|e] s1] eqn:Hbody
  end; [|done].
  intros [= -> ->].
  apply ubind_inv_ok in Hbody as (text & s2 & _ & Hbody).
  apply ubind_inv_ok in Hbody as (info & s3 & _ & Hbody).
  apply ubind_inv_ok in Hbody as (url & s4 & _ & Hbody).
  destruct (negb (truthy float_truth url)).
  { apply ubind_inv_ok in Hbody as ([] & s5 & _ & Hbody). done. }
  apply ubind_inv_ok in Hbody as ([] & s5 & _ & Hbody).
  apply ubind_inv_ok in Hbody as (names & s6 & Hls & Hbody).
  apply ubind_inv_ok in Hbody as ([] & s7 & Hrm & Hbody).
  apply ubind_inv_ok in Hbody as ([] & s8 & Hget & Hbody).
  apply ubind_inv_ok in Hbody as ([] & s9 & Htell & Hbody).
  injection Htell as <-. injection Hbody as _ <-. cbn [base].
  apply core_inv in Hls, Hrm, Hget.
  assert (fs (base s6) !! temp_dir = Some NDir) as H6.
  { unfold listdir, fs_listdir in Hls. injection Hls as Hls <-.
    change (fs_node (fs (base s5)) temp_dir) with (fs (base s5) !! temp_dir) in Hls.
    by destruct (fs (base s5) !! temp_dir) as [[]|]. }
  assert (fs (base s7) !! temp_dir = Some NDir) as H7.
  { rewrite <- H6.
    assert (keeps (fun q => q = temp_dir)
              (for_each names (fun file => remove (temp_dir ++ [file])))) as Hkeep.
    { apply keeps_for_each. intros file. apply keeps_remove. by intros q ->. }
    specialize (Hkeep (base s6) temp_dir eq_refl). by rewrite Hrm in Hkeep. }
  rewrite <- H7.
  assert (keeps (fun q => q = temp_dir)
            (urlretrieve retrieve url (temp_dir ++ [UPDATE_FILE]))) as Hkeep.
  { apply keeps_urlretrieve. by intros q ->. }
  specialize (Hkeep (base s7) temp_dir eq_refl). by rewrite Hget in Hkeep.
Qed.

(** X18. [download_update] never raises, whatever the record, the
    download directory and the server are: it returns [False] or the path
    of the archive, temp_updates/launcher_update.zip, which is then a
    regular file. The signals it emits are its status texts and progress
    values between 0 and 100, and it leaves every path outside the
    download directory as it was. *)
Theorem download_update_never_raises s :
  exists r s' l,
    download_update retrieve float_truth s = (Ok r, s') /\
    (r = None \/
     (r = Some (temp_dir ++ [UPDATE_FILE]) /\
      fs_isfile (fs (base s')) (temp_dir ++ [UPDATE_FILE]) = true)) /\
    log s' = log s ++ l /\
    Forall is_download_report l /\
    (forall q, ~ temp_dir `prefix_of` q -> fs (base s') !! q = fs (base s) !! q).
Proof.
  destruct (download_update_answer s) as (r & s' & Hrun & Hr).
  destruct (download_update_logs s) as (l & Hl & Hreports).
  pose proof (download_update_keeps s) as Hkeep.
  rewrite Hrun in Hl, Hkeep. cbn [snd] in *.
  by exists r, s', l.
Qed.

(** X19. Without a usable record nothing is downloaded. When the record
    names no download URL (the key is missing, or its value is empty or
    null), [download_update] says so and returns [False]; when
    update_info.json does not exist it reports the [FileNotFoundError] and
    returns [False]. In both cases no file is touched, the download
    directory included. *)
Theorem download_update_without_url s :
  (forall text meta d,
     fs (base s) !! update_info_file = Some (NFile (File text meta)) ->
     json_loads text = Ok (JDict d) ->
     truthy float_truth (default JNull (assoc "download_url" d)) = false ->
     download_update retrieve float_truth s =
       (Ok None, Session (base s) (log s ++ [DownloadStatus NoDownloadUrl]))) /\
  (fs (base s) !! update_info_file = None ->
   download_update retrieve float_truth s =
     (Ok None,
      Session (base s)
        (log s ++ [DownloadStatus
                     (DownloadFailed (exn_str (FileNotFoundError update_info_file)))]))).
Proof.
  destruct s as [w0 l0]. cbn [base log]. set (s := Session w0 l0). split.
  - intros text meta d Hfile Hjson Hurl. unfold download_update, utry.
    rewrite (ubind_ok _ _ _ text s).
    2:{ apply core_quiet; [|done]. unfold read_file, fs_read.
        change (fs_node (fs (base s)) update_info_file)
          with (fs w0 !! update_info_file).
        by rewrite Hfile. }
    rewrite (ubind_ok _ _ _ (JDict d) s).
    2:{ apply core_quiet; [|done]. unfold lift. by rewrite Hjson. }
    rewrite (ubind_ok _ _ _ (default JNull (assoc "download_url" d)) s).
    2:{ by apply core_quiet. }
    rewrite Hurl. cbn [negb]. reflexivity.
  - intros Hnone. unfold download_update, utry.
    rewrite (ubind_raise _ _ _ (FileNotFoundError update_info_file) s); [done|].
    apply core_quiet; [|done]. unfold read_file, fs_read.
    change (fs_node (fs (base s)) update_info_file)
      with (fs w0 !! update_info_file).
    by rewrite Hnone.
Qed.

Lemma finished_app l1 l2 : finished (l1 ++ l2) = finished l1 ++ finished l2.
Proof.
  induction l1 as [|x l1 IH]; cbn [app finished]; [done|].
  destruct x as [[]|]; cbn [app]; by rewrite ?IH.
Qed.

Lemma finished_download_reports l : Forall is_download_report l -> finished l = [].
Proof.
  induction 1 as [|x l Hx _ IH]; cbn [finished]; [done|].
  destruct x as [e|]; [|done]. destruct Hx as (v & -> & _). done.
Qed.

Lemma finished_reports l : Forall is_report l -> finished (map Core l) = [].
Proof.
  induction 1 as [|e l He _ IH]; cbn [map finished]; [done|]. by destruct e.
Qed.

Lemma core_emit e s :
  core (emit e) s = (Ok tt, Session (emitting [e] (base s)) (log s ++ [Core e])).
Proof. by apply (core_run (emit e) s (Ok tt) _ [e]). Qed.

(** ** A download that goes through *)

Lemma last_removelast (q : path) (c : string) :
  last q = Some c -> q = removelast q ++ [c].
Proof.
  intros Hlast. destruct (decide (q = [])) as [->|Hne]; [done|].
  rewrite (app_removelast_last "" Hne) at 1. f_equal. f_equal.
  rewrite (app_removelast_last "" Hne), last_snoc in Hlast. by injection Hlast.
Qed.

(** The names [os.listdir(p)] gives are those of the entries in [p]. *)
Lemma elem_of_listdir (m : fsmap) (p : path) (names : list string) (c : string) :
  fs_listdir m p = Ok names -> c ∈ names <-> is_Some (m !! (p ++ [c])).
Proof.
  unfold fs_listdir. destruct (fs_node m p) as [[]|]; try done. intros [= <-].
  rewrite list_elem_of_omap. split.
  - intros (q & Hq & Hc). case_bool_decide as Hd; [|done]. destruct Hd as [Hne Hdir].
    apply last_removelast in Hc. unfold dirname in Hdir. rewrite Hdir in Hc. subst q.
    apply list_elem_of_fmap in Hq as ([q n] & -> & Hin).
    apply elem_of_map_to_list in Hin. by exists n.
  - intros [n Hn]. exists (p ++ [c]). split.
    + apply list_elem_of_fmap. exists (p ++ [c], n). split; [done|].
      by apply elem_of_map_to_list.
    + rewrite bool_decide_eq_true_2; [by rewrite last_snoc|].
      split; [by destruct p|]. unfold dirname. by rewrite removelast_last.
Qed.

Lemma NoDup_omap_inj {A B} (f : A -> option B) (l : list A) :
  (forall x y z, f x = Some z -> f y = Some z -> x = y) ->
  NoDup l -> NoDup (omap f l).
Proof.
  intros Hinj. induction 1 as [|x l Hx _ IH]; cbn [omap list_omap]; [constructor|].
  destruct (f x) as [z|] eqn:Hfx; [|done]. constructor; [|done].
  intros (y & Hy & Hfy)%list_elem_of_omap. by rewrite (Hinj x y z Hfx Hfy) in Hx.
Qed.

Lemma listdir_NoDup (m : fsmap) (p : path) (names : list string) :
  fs_listdir m p = Ok names -> NoDup names.
Proof.
  unfold fs_listdir. destruct (fs_node m p) as [[]|]; try done. intros [= <-].
  apply NoDup_omap_inj; [|apply NoDup_fst_map_to_list].
  intros q q' c Hq Hq'. case_bool_decide as H1; [|done]. case_bool_decide as H2; [|done].
  apply last_removelast in Hq, Hq'. destruct H1 as [_ H1]. destruct H2 as [_ H2].
  unfold dirname in *. congruence.
Qed.

(** The loop that empties the download directory. *)
Lemma remove_all (dir : path) (names : list string) w :
  NoDup names ->
  (forall c, c ∈ names -> exists f, fs w !! (dir ++ [c]) = Some (NFile f)) ->
  exists m,
    for_each names (fun file => remove (dir ++ [file])) w = (Ok tt, set_fs m w) /\
    (forall c, c ∈ names -> m !! (dir ++ [c]) = None) /\
    (forall q, (forall c, c ∈ names -> q <> dir ++ [c]) -> m !! q = fs w !! q).
Proof.
  revert w. induction names as [|c names IH]; intros w Hdup Hfiles; cbn [for_each].
  - exists (fs w). split; [by rewrite set_fs_same|]. split; [|done].
    by intros c Hc%elem_of_nil.
  - apply NoDup_cons in Hdup as [Hc Hdup].
    destruct (Hfiles c) as [f Hf]; [by left|].
    assert (remove (dir ++ [c]) w = (Ok tt, set_fs (delete (dir ++ [c]) (fs w)) w)) as Hrm.
    { unfold remove, fs_do, fs_remove. rewrite fs_node_lookup by (by destruct dir).
      by rewrite Hf. }
    rewrite (bind_ok _ _ _ _ _ Hrm).
    destruct (IH (set_fs (delete (dir ++ [c]) (fs w)) w) Hdup) as (m & Hrun & Hgone & Hsame).
    { intros c' Hc'. destruct (Hfiles c') as [f' Hf']; [by right|]. exists f'.
      cbn [fs set_fs]. rewrite lookup_delete_ne; [done|].
      intros E%app_inv_head. injection E as ->. done. }
    exists m. split; [by rewrite Hrun|]. split.
    + intros c' [->|Hc']%elem_of_cons; [|by apply Hgone].
      rewrite Hsame; [cbn [fs set_fs]; by rewrite lookup_delete_eq|].
      intros c' Hc' E%app_inv_head. injection E as ->. done.
    + intros q Hq. rewrite Hsame; [|intros c' Hc'; apply Hq; by right].
      cbn [fs set_fs]. apply lookup_delete_ne. intros E. by apply (Hq c); [left|].
Qed.

Lemma fs_write_at (m : fsmap) (p : path) (acc b : string) (meta : Z) :
  m !! p = Some (NFile (File acc meta)) ->
  fs_write m p b = <[p := NFile (File (acc ++ b)%string meta)]> m.
Proof.
  intros Hp. unfold fs_write. apply map_eq. intros q.
  destruct (decide (p = q)) as [<-|Hne].
  - by rewrite lookup_alter_eq, lookup_insert_eq, Hp.
  - by rewrite lookup_alter_ne, lookup_insert_ne.
Qed.

Lemma report_progress_run count bs size w :
  exists l, report_progress count bs size w = (Ok tt, emitting l w).
Proof.
  unfold report_progress. destruct (size >? 0); cbn [when].
  - eexists. apply emit_run.
  - exists []. unfold ret, emitting. rewrite app_nil_r. by destruct w.
Qed.

Lemma append_assoc (a b c : string) : ((a ++ b) ++ c = a ++ (b ++ c))%string.
Proof.
  induction a as [|x a IH]; [done|].
  change ((String x a ++ b) ++ c)%string with (String x ((a ++ b) ++ c)%string).
  by rewrite IH.
Qed.

Lemma append_nil_r (a : string) : (a ++ "")%string = a.
Proof.
  induction a as [|x a IH]; [done|].
  change (String x a ++ "")%string with (String x (a ++ "")%string). by rewrite IH.
Qed.

(** The loop of [urlretrieve] appends the blocks to the file. *)
Lemma receive_run filename size blocknum bl w acc meta :
  fs w !! filename = Some (NFile (File acc meta)) ->
  exists l,
    receive filename size blocknum bl w =
      (Ok tt, emitting l (set_fs (<[filename := NFile (File (acc ++ received bl)%string meta)]>
                                    (fs w)) w)).
Proof.
  revert blocknum w acc. induction bl as [|b bl IH]; intros blocknum w acc Hfile;
    cbn [receive received foldr].
  - exists []. unfold ret, emitting, set_fs.
    rewrite append_nil_r.
    rewrite insert_id by done. rewrite app_nil_r. by destruct w.
  - unfold bind at 1, file_write, fs_do. rewrite (fs_write_at _ _ _ _ _ Hfile).
    destruct (report_progress_run (blocknum + 1) 8192 size
                (set_fs (<[filename:=NFile (File (acc ++ block_bytes b)%string meta)]> (fs w)) w))
      as [l1 Hrep].
    rewrite (bind_ok _ _ _ _ _ Hrep).
    destruct (IH (blocknum + 1)
                (emitting l1 (set_fs (<[filename:=NFile (File (acc ++ block_bytes b)%string meta)]> (fs w)) w))
                (acc ++ block_bytes b)%string) as [l2 Hrec].
    { cbn [fs emitting set_fs]. by rewrite lookup_insert_eq. }
    exists (l1 ++ l2). rewrite Hrec. f_equal. fold (received bl).
    unfold emitting, set_fs. cbn [fs clock ticks urlopen new_meta events].
    rewrite insert_insert_eq, append_assoc, app_assoc. done.
Qed.

Lemma length_append (a b : string) :
  String.length (a ++ b)%string = (String.length a + String.length b)%nat.
Proof.
  induction a as [|x a IH]; [done|].
  change (String x a ++ b)%string with (String x (a ++ b)%string). cbn [String.length].
  by rewrite IH.
Qed.

Lemma received_length (bl : list block) :
  Forall (fun b => Z.of_nat (String.length (block_bytes b)) <= 8192) bl ->
  Z.of_nat (String.length (received bl)) <= 8192 * Z.of_nat (length bl).
Proof.
  induction 1 as [|b bl Hb _ IH]; cbn [received foldr length]; [done|].
  fold (received bl). rewrite length_append. lia.
Qed.

(** The last signal of the loop of [urlretrieve], when the length is
    known: the progress after the last block. *)
Lemma receive_last_event filename size blocknum bl w :
  0 < size -> bl <> [] ->
  exists l,
    events (snd (receive filename size blocknum bl w)) =
      events w ++ l ++
      [UpdateProgress
         (Z.min ((blocknum + Z.of_nat (length bl)) * 8192 * 100 / size) 100)].
Proof.
  intros Hsize. revert blocknum w.
  induction bl as [|b bl IH]; intros blocknum w Hne; [done|]. cbn [receive].
  unfold bind at 1, file_write, fs_do. unfold bind at 1, report_progress.
  rewrite (proj2 (Z.gtb_lt size 0) Hsize). cbn [when]. rewrite emit_run.
  destruct bl as [|b' bl].
  - exists []. cbn [receive ret snd events emitting length app].
    repeat f_equal.
  - destruct (IH (blocknum + 1)
                (emitting [UpdateProgress (Z.min ((blocknum + 1) * 8192 * 100 / size) 100)]
                   (set_fs (fs_write (fs w) filename (block_bytes b)) w))) as [l Hl]; [done|].
    eexists (_ :: l). rewrite Hl. cbn [events emitting set_fs]. rewrite <- app_assoc.
    cbn [app].
    replace (blocknum + Z.of_nat (length (b :: b' :: bl)))
      with (blocknum + 1 + Z.of_nat (length (b' :: bl))) by (cbn [length]; lia).
    reflexivity.
Qed.

Lemma urlretrieve_run url t filename w :
  retrieve url = Ok t ->
  read_error t = None ->
  content_length t <= Z.of_nat (String.length (received (blocks t))) ->
  fs w !! filename = None ->
  filename <> [] ->
  fs_isdir (fs w) (dirname filename) = true ->
  exists l,
    urlretrieve retrieve (JStr url) filename w =
      (Ok tt,
       emitting l (set_fs (<[filename := NFile (File (received (blocks t)) (new_meta w))]>
                             (fs w)) w)) /\
    Forall is_percentage l /\
    (0 < content_length t ->
     Forall (fun b => Z.of_nat (String.length (block_bytes b)) <= 8192) (blocks t) ->
     last l = Some (UpdateProgress 100)).
Proof.
  intros Hnet Herr Hsize Hnone Hne Hparent.
  assert (exists l, urlretrieve retrieve (JStr url) filename w =
            (Ok tt,
             emitting l (set_fs (<[filename := NFile (File (received (blocks t)) (new_meta w))]>
                                   (fs w)) w)) /\
            (0 < content_length t ->
             Forall (fun b => Z.of_nat (String.length (block_bytes b)) <= 8192) (blocks t) ->
             last l = Some (UpdateProgress 100))) as (l & Hrun & Hlast).
  { unfold urlretrieve. unfold bind at 1, lift. rewrite Hnet.
    assert (open_w filename w =
              (Ok tt, set_fs (<[filename := NFile (File "" (new_meta w))]> (fs w)) w))
      as Hopen.
    { unfold open_w, fs_do, fs_open_w, fs_isdir in *.
      rewrite (fs_node_lookup _ filename), Hnone by done.
      by destruct (fs_node (fs w) (dirname filename)) as [[]|]. }
    rewrite (bind_ok _ _ _ _ _ Hopen).
    destruct (report_progress_run 0 8192 (content_length t)
                (set_fs (<[filename:=NFile (File "" (new_meta w))]> (fs w)) w)) as [l0 Hrep].
    rewrite (bind_ok _ _ _ _ _ Hrep).
    destruct (receive_run filename (content_length t) 0 (blocks t)
                (emitting l0 (set_fs (<[filename:=NFile (File "" (new_meta w))]> (fs w)) w))
                "" (new_meta w)) as [l1 Hrec].
    { cbn [fs emitting set_fs]. by rewrite lookup_insert_eq. }
    rewrite (bind_ok _ _ _ _ _ Hrec). rewrite Herr.
    assert ((0 <=? content_length t) &&
            (Z.of_nat (String.length (received (blocks t))) <? content_length t) = false)
      as ->.
    { apply andb_false_iff. right. apply Z.ltb_ge. lia. }
    exists (l0 ++ l1). split.
    - unfold ret. f_equal.
      unfold emitting, set_fs. cbn [fs clock ticks urlopen new_meta events].
      rewrite insert_insert_eq, app_assoc. done.
    - intros Hpos Hblocks.
      pose proof (received_length _ Hblocks) as Hlen.
      assert (blocks t <> []) as Hbl.
      { intros E. rewrite E in Hsize. cbn in Hsize. lia. }
      destruct (receive_last_event filename (content_length t) 0 (blocks t)
                  (emitting l0 (set_fs (<[filename:=NFile (File "" (new_meta w))]> (fs w)) w))
                  Hpos Hbl) as [l' Hl'].
      rewrite Hrec in Hl'. cbn [snd events emitting set_fs] in Hl'.
      rewrite <- !app_assoc in Hl'. do 2 apply app_inv_head in Hl'. rewrite Hl'.
      rewrite app_assoc, last_snoc. do 2 f_equal. apply Z.min_r.
      apply Z.div_le_lower_bound; lia. }
  exists l. split; [done|]. split; [|done].
  destruct (urlretrieve_percentages (JStr url) filename w) as (l' & Hl' & Hperc).
  rewrite Hrun in Hl'. cbn [snd events emitting] in Hl'.
  by apply app_inv_head in Hl' as ->.
Qed.

(** A download that goes through, with all that is known of it. *)
Lemma download_update_ok s text meta d url t :
  fs (base s) !! update_info_file = Some (NFile (File text meta)) ->
  json_loads text = Ok (JDict d) ->
  assoc "download_url" d = Some (JStr url) ->
  url <> "" ->
  fs (base s) !! temp_dir = Some NDir ->
  (forall c n, fs (base s) !! (temp_dir ++ [c]) = Some n -> is_file_node n = true) ->
  retrieve url = Ok t ->
  read_error t = None ->
  content_length t <= Z.of_nat (String.length (received (blocks t))) ->
  exists s' progress,
    download_update retrieve float_truth s = (Ok (Some (temp_dir ++ [UPDATE_FILE])), s') /\
    fs (base s') !! (temp_dir ++ [UPDATE_FILE]) =
      Some (NFile (File (received (blocks t)) (new_meta (base s)))) /\
    (forall c, c <> UPDATE_FILE -> fs (base s') !! (temp_dir ++ [c]) = None) /\
    (forall q, (forall c, q <> temp_dir ++ [c]) -> fs (base s') !! q = fs (base s) !! q) /\
    log s' = log s ++ [DownloadStatus Downloading] ++ map Core progress ++
                      [DownloadStatus DownloadDone] /\
    Forall is_percentage progress /\
    (0 < content_length t ->
     Forall (fun b => Z.of_nat (String.length (block_bytes b)) <= 8192) (blocks t) ->
     last progress = Some (UpdateProgress 100)).
Proof.
  destruct s as [w l0]. cbn [base log]. set (s := Session w l0).
  intros Hfile Hjson Hurl Hne Htemp Hflat Hnet Herr Hsize.
  destruct (fs_listdir (fs w) temp_dir) as [names|] eqn:Hls; last first.
  { unfold fs_listdir in Hls. rewrite fs_node_lookup, Htemp in Hls by done. done. }
  pose proof (listdir_NoDup _ _ _ Hls) as Hdup.
  destruct (remove_all temp_dir names w Hdup) as (m & Hrm & Hgone & Hsame).
  { intros c Hc. apply (elem_of_listdir _ _ _ c Hls) in Hc as [n Hn].
    specialize (Hflat c n Hn). destruct n as [f|]; [by exists f|done]. }
  assert (m !! (temp_dir ++ [UPDATE_FILE]) = None) as Hfree.
  { destruct (decide (UPDATE_FILE ∈ names)) as [Hin|Hout]; [by apply Hgone|].
    rewrite Hsame.
    - destruct (fs w !! (temp_dir ++ [UPDATE_FILE])) as [n|] eqn:Hn; [|done].
      exfalso. apply Hout. apply (elem_of_listdir _ _ _ _ Hls). by exists n.
    - intros c Hc E%app_inv_head. injection E as <-. done. }
  destruct (urlretrieve_run url t (temp_dir ++ [UPDATE_FILE]) (set_fs m w)
              Hnet Herr Hsize) as (lp & Hget & Hperc & Hlast); [done|done|..].
  { change (dirname (temp_dir ++ [UPDATE_FILE])) with temp_dir.
    unfold fs_isdir. rewrite fs_node_lookup by done. cbn [fs set_fs].
    rewrite Hsame, Htemp; [done|]. by intros c Hc. }
  eexists _, lp. split; [|split; [|split; [|split; [|split; [|by split]]]]].
  - unfold download_update, utry.
    rewrite (ubind_ok _ _ _ text s).
    2:{ apply core_quiet; [|done]. unfold read_file, fs_read.
        change (fs_node (fs (base s)) update_info_file) with (fs w !! update_info_file).
        by rewrite Hfile. }
    rewrite (ubind_ok _ _ _ (JDict d) s).
    2:{ apply core_quiet; [|done]. unfold lift. by rewrite Hjson. }
    rewrite (ubind_ok _ _ _ (JStr url) s).
    2:{ apply core_quiet; [|done]. unfold lift, py_get. by rewrite Hurl. }
    assert (negb (truthy float_truth (JStr url)) = false) as ->.
    { cbn [truthy]. apply negb_false_iff, negb_true_iff. by apply String.eqb_neq. }
    rewrite (ubind_ok _ _ _ tt (Session w (l0 ++ [DownloadStatus Downloading]))) by done.
    rewrite (ubind_ok _ _ _ names (Session w (l0 ++ [DownloadStatus Downloading]))).
    2:{ apply core_quiet; [|done]. unfold listdir. cbn [base]. by rewrite Hls. }
    rewrite (ubind_ok _ _ _ tt (Session (set_fs m w) (l0 ++ [DownloadStatus Downloading]))).
    2:{ by apply core_quiet. }
    rewrite (ubind_ok _ _ _ _ _
               (core_run _ (Session (set_fs m w) (l0 ++ [DownloadStatus Downloading]))
                  _ _ lp Hget eq_refl)).
    reflexivity.
  - cbn [base fs emitting set_fs]. by rewrite lookup_insert_eq.
  - intros c Hc. cbn [base fs emitting set_fs].
    rewrite lookup_insert_ne by (intros E%app_inv_head; injection E as <-; done).
    destruct (decide (c ∈ names)) as [Hin|Hout]; [by apply Hgone|].
    rewrite Hsame.
    + destruct (fs w !! (temp_dir ++ [c])) as [n|] eqn:Hn; [|done].
      exfalso. apply Hout. apply (elem_of_listdir _ _ _ _ Hls). by exists n.
    + intros c' Hc' E%app_inv_head. injection E as <-. done.
  - intros q Hq. cbn [base fs emitting set_fs].
    rewrite lookup_insert_ne by (intros <-; by apply (Hq UPDATE_FILE)).
    apply Hsame. intros c _. apply Hq.
  - cbn [log]. by rewrite <- !app_assoc.
Qed.

(** X20. A download that goes through leaves exactly the archive in the
    download directory. When the record names a download URL, the
    download directory holds regular files only, and the server delivers
    the blocks without error and without falling short of the announced
    length, [download_update] returns the path of the archive; the bytes
    received are in that file, in order; every other entry of the download
    directory was removed first; no other path changed; and between the
    two status texts only progress values between 0 and 100 were
    emitted. *)
Theorem download_update_leaves_the_archive s text meta d url t :
  fs (base s) !! update_info_file = Some (NFile (File text meta)) ->
  json_loads text = Ok (JDict d) ->
  assoc "download_url" d = Some (JStr url) ->
  url <> "" ->
  fs (base s) !! temp_dir = Some NDir ->
  (forall c n, fs (base s) !! (temp_dir ++ [c]) = Some n -> is_file_node n = true) ->
  retrieve url = Ok t ->
  read_error t = None ->
  content_length t <= Z.of_nat (String.length (received (blocks t))) ->
  exists s' progress,
    download_update retrieve float_truth s = (Ok (Some (temp_dir ++ [UPDATE_FILE])), s') /\
    fs (base s') !! (temp_dir ++ [UPDATE_FILE]) =
      Some (NFile (File (received (blocks t)) (new_meta (base s)))) /\
    (forall c, c <> UPDATE_FILE -> fs (base s') !! (temp_dir ++ [c]) = None) /\
    (forall q, (forall c, q <> temp_dir ++ [c]) -> fs (base s') !! q = fs (base s) !! q) /\
    log s' = log s ++ [DownloadStatus Downloading] ++ map Core progress ++
                      [DownloadStatus DownloadDone] /\
    Forall is_percentage progress.
Proof.
  intros Hfile Hjson Hurl Hne Htemp Hflat Hnet Herr Hsize.
  destruct (download_update_ok s text meta d url t Hfile Hjson Hurl Hne Htemp Hflat
              Hnet Herr Hsize) as (s' & progress & H1 & H2 & H3 & H4 & H5 & H6 & _).
  by exists s', progress.
Qed.

(** X21. The progress of a download ends at 100. Under the conditions
    of a download that goes through, when the server announces a positive
    length and no block read exceeds the 8192 bytes asked for, the last
    progress value emitted before the closing status is exactly 100. *)
Theorem download_progress_ends_at_100 s text meta d url t :
  fs (base s) !! update_info_file = Some (NFile (File text meta)) ->
  json_loads text = Ok (JDict d) ->
  assoc "download_url" d = Some (JStr url) ->
  url <> "" ->
  fs (base s) !! temp_dir = Some NDir ->
  (forall c n, fs (base s) !! (temp_dir ++ [c]) = Some n -> is_file_node n = true) ->
  retrieve url = Ok t ->
  read_error t = None ->
  content_length t <= Z.of_nat (String.length (received (blocks t))) ->
  0 < content_length t ->
  Forall (fun b => Z.of_nat (String.length (block_bytes b)) <= 8192) (blocks t) ->
  exists s' progress,
    download_update retrieve float_truth s = (Ok (Some (temp_dir ++ [UPDATE_FILE])), s') /\
    log s' = log s ++ [DownloadStatus Downloading] ++ map Core progress ++
                      [DownloadStatus DownloadDone] /\
    last progress = Some (UpdateProgress 100).
Proof.
  intros Hfile Hjson Hurl Hne Htemp Hflat Hnet Herr Hsize Hpos Hblocks.
  destruct (download_update_ok s text meta d url t Hfile Hjson Hurl Hne Htemp Hflat
              Hnet Herr Hsize) as (s' & progress & H1 & _ & _ & _ & H5 & _ & Hlast).
  exists s', progress. split; [done|]. split; [done|]. by apply Hlast.
Qed.

(** A run of [perform_update]: one report, the last signal, a failure. *)
Lemma perform_update_run s :
  exists s' l msg,
    perform_update retrieve float_truth s = (Ok tt, s') /\
    log s' = log s ++ l ++ [Core (UpdateFinished false msg)] /\
    finished l = [] /\
    (fst (download_update retrieve float_truth s) = Ok None ->
     msg = "Error en la descarga").
Proof.
  destruct (download_update_answer s) as (r & s1 & Hrun & Hr).
  destruct (download_update_logs s) as (l1 & Hl1 & Hreports1).
  rewrite Hrun in Hl1. cbn [snd] in Hl1.
  pose proof (finished_download_reports _ Hreports1) as Hquiet1.
  unfold perform_update, utry. rewrite (ubind_ok _ _ _ _ _ Hrun). rewrite Hrun. cbn [fst].
  destruct r as [update_file|].
  - pose proof (download_update_temp_dir _ _ _ Hrun) as Htemp.
    destruct (apply_update_fails update_file (base s1) Htemp) as (e0 & w' & Happly).
    destruct (apply_update_reports update_file (base s1)) as (l2 & Hl2 & Hreports2).
    rewrite Happly in Hl2. cbn [snd] in Hl2.
    rewrite (ubind_ok _ _ _ _ _ (core_run _ _ _ _ _ Happly Hl2)).
    pose proof (finished_reports _ Hreports2) as Hquiet2. cbv beta iota.
    cbn [signal_arg].
    rewrite (ubind_ok _ _ _ (exn_str e0) (Session w' (log s1 ++ map Core l2)))
      by (by apply core_quiet).
    rewrite core_emit. cbn [base log].
    eexists _, (l1 ++ map Core l2), (exn_str e0). split; [reflexivity|].
    cbn [log]. rewrite Hl1, <- !app_assoc. split; [done|]. split; [|done].
    by rewrite finished_app, Hquiet1, Hquiet2.
  - rewrite core_emit. eexists _, l1, "Error en la descarga".
    split; [reflexivity|]. cbn [log]. rewrite Hl1, <- app_assoc. done.
Qed.

(** X22. [perform_update] always reports, and reports once: whatever
    the record, the files and the server are, it does not raise, and the
    last signal it emits is [update_finished], the only one of the run.
    When the download fails, the message is "Error en la descarga". *)
Theorem perform_update_reports_once s :
  exists s' l ok msg,
    perform_update retrieve float_truth s = (Ok tt, s') /\
    log s' = log s ++ l ++ [Core (UpdateFinished ok msg)] /\
    finished l = [] /\
    finished (log s') = finished (log s) ++ [(ok, msg)] /\
    (fst (download_update retrieve float_truth s) = Ok None ->
     msg = "Error en la descarga").
Proof.
  destruct (perform_update_run s) as (s' & l & msg & Hrun & Hlog & Hquiet & Hmsg).
  exists s', l, false, msg. split; [done|]. split; [done|]. split; [done|].
  split; [|done]. by rewrite Hlog, !finished_app, Hquiet.
Qed.

(** X23. [perform_update] never reports success. Whatever the record,
    the files, the server and the archive are, the one [update_finished]
    it emits carries [False]. *)
Theorem perform_update_never_reports_success s :
  exists s' msg,
    perform_update retrieve float_truth s = (Ok tt, s') /\
    finished (log s') = finished (log s) ++ [(false, msg)].
Proof.
  destruct (perform_update_run s) as (s' & l & msg & Hrun & Hlog & Hquiet & _).
  exists s', msg. split; [done|]. by rewrite Hlog, !finished_app, Hquiet.
Qed.

(** X24. From the manifest to the archive: after a check that found a
    newer version whose manifest names a download URL, [download_update]
    asks the server for that URL and, when the transfer goes through,
    leaves the bytes received in temp_updates/launcher_update.zip. (The
    JSON decoder gives back the record the encoder was given; the
    download directory holds regular files only.) *)
Theorem check_then_download force w w0 body d v c cs url t l :
  starts_fetch force w w0 ->
  urlopen w0 (UPDATE_SERVER ++ VERSION_FILE)%string = Ok body ->
  json_loads body = Ok (JDict d) ->
  manifest_version d = JStr v ->
  compare_versions v VERSION = Ok c ->
  0 < c ->
  signal_arg (manifest_changelog d) = Ok cs ->
  fs_isdir (fs w0) update_info_file = false ->
  manifest_download_url d = JStr url ->
  url <> "" ->
  (let record := update_info_of (JStr v) (manifest_changelog d) (JStr url)
                   (manifest_files d) (clock w0 (ticks w0)) in
   json_loads (json_dumps record) = Ok record) ->
  fs w !! temp_dir = Some NDir ->
  (forall c n, fs w !! (temp_dir ++ [c]) = Some n -> is_file_node n = true) ->
  retrieve url = Ok t ->
  read_error t = None ->
  content_length t <= Z.of_nat (String.length (received (blocks t))) ->
  exists w' s',
    check_for_updates force w = (Ok true, w') /\
    download_update retrieve float_truth (Session w' l) =
      (Ok (Some (temp_dir ++ [UPDATE_FILE])), s') /\
    fs (base s') !! (temp_dir ++ [UPDATE_FILE]) =
      Some (NFile (File (received (blocks t)) (new_meta w))).
Proof.
  intros Hstart Hurl Hjson Hv Hc Hlt Hcs Hdir Hdl Hne Hcodec Htemp Hflat Hnet Herr Hsize.
  assert (fs w0 = fs w /\ new_meta w0 = new_meta w) as [Hfs Hmeta].
  { by destruct (starts_fetch_same _ _ _ Hstart) as [->| ->]. }
  rewrite (check_for_updates_fetch _ _ _ Hstart).
  pose proof (check_body_newer force (emitting [StatusChanged Searching] w0)
                body d v c cs Hurl Hjson Hv Hc Hlt Hcs Hdir) as Hbody.
  cbv zeta in Hbody. rewrite Hdl in Hbody.
  match type of Hbody with _ = (_, ?x) => set (w' := x) in * end.
  assert (forall q, q <> last_check_file -> q <> update_info_file ->
                    fs w' !! q = fs w !! q) as Hframe.
  { intros q Hq1 Hq2. subst w'.
    destruct (fs_isdir _ last_check_file); cbn [fs stamped ticking set_fs emitting persisted];
      rewrite ?(lookup_insert_ne _ last_check_file) by done;
      rewrite lookup_insert_ne by done; by rewrite Hfs. }
  assert (new_meta w' = new_meta w) as Hmeta'.
  { subst w'. by destruct (fs_isdir _ last_check_file). }
  destruct (download_update_ok (Session w' l)
              (json_dumps (update_info_of (JStr v) (manifest_changelog d) (JStr url)
                             (manifest_files d) (clock w0 (ticks w0))))
              (new_meta w0)
              [("remote_version", JStr v); ("changelog", manifest_changelog d);
               ("download_url", JStr url); ("files", manifest_files d);
               ("timestamp", JStr (isoformat (clock w0 (ticks w0))))]
              url t) as (s' & progress & Hrun & Hfile & _);
    cbn [base]; try done.
  - subst w'.
    destruct (fs_isdir _ last_check_file); cbn [fs stamped ticking set_fs emitting persisted];
      rewrite ?(lookup_insert_ne _ last_check_file) by done;
      by rewrite lookup_insert_eq.
  - by rewrite Hframe.
  - intros c' n. rewrite Hframe by done. apply Hflat.
  - exists w', s'. split; [by apply try_ok|]. split; [done|].
    cbn [base] in Hfile. by rewrite Hfile, Hmeta'.
Qed.

End DownloadFacts.

(** * The login screen *)

Section Login.

Lemma lstrip_no_leading_space k s : Py.starts_with_space (Py.lstrip_from k s) = false.
Proof.
  revert k. induction s as [|a r IH]; intros k; [done|].
  cbn [Py.lstrip_from]. destruct k as [|k]; [|apply IH].
  destruct (Py.starts_with_space (String a r)) eqn:Hs; [apply IH|exact Hs].
Qed.

(** The first character of a string is the first character of any
    string it starts. *)
Lemma first_char_app t x :
  fst (Py.first_char t) <> -1 -> Py.first_char (t ++ x) = Py.first_char t.
Proof.
  destruct t as [|a t]; [done|].
  change (String a t ++ x)%string with (String a (t ++ x)%string).
  unfold Py.first_char.
  destruct (Py.byte a <? 128); [done|].
  destruct ((192 <=? Py.byte a) && (Py.byte a <? 224)).
  { destruct t as [|b t]; [done|]. done. }
  destruct ((224 <=? Py.byte a) && (Py.byte a <? 240)).
  { destruct t as [|b [|c t]]; done. }
  destruct (240 <=? Py.byte a); [|done].
  destruct t as [|b [|c [|d t]]]; done.
Qed.

Lemma rstrip_prefix s : exists x, s = (Py.rstrip s ++ x)%string.
Proof.
  induction s as [|a r [x IH]]; [by exists ""|]. cbn [Py.rstrip].
  destruct (Py.one_space _).
  - by exists (String a r).
  - exists x. change (String a (Py.rstrip r) ++ x)%string with (String a (Py.rstrip r ++ x)%string).
    by rewrite <- IH.
Qed.

Lemma is_space_char n : Py.is_space n = true -> n <> -1.
Proof. by intros H ->. Qed.

Lemma rstrip_keeps_head s :
  Py.starts_with_space s = false -> Py.starts_with_space (Py.rstrip s) = false.
Proof.
  intros Hs. destruct (Py.starts_with_space (Py.rstrip s)) eqn:Hr; [|done].
  destruct (rstrip_prefix s) as [x Hx]. unfold Py.starts_with_space in *.
  rewrite Hx, first_char_app, Hr in Hs; [done|]. by apply is_space_char.
Qed.

Lemma rstrip_no_trailing_space s : ends_with_space (Py.rstrip s) = false.
Proof.
  induction s as [|a r IH]; [done|]. cbn [Py.rstrip].
  destruct (Py.one_space (String a (Py.rstrip r))) eqn:Hone; [done|].
  cbn [ends_with_space]. by rewrite Hone, IH.
Qed.

Lemma lstrip_all_space k s :
  forallb Py.is_space (Py.code_points_from k s) = true -> Py.lstrip_from k s = EmptyString.
Proof.
  revert k. induction s as [|a r IH]; intros k; [done|].
  cbn [Py.code_points_from Py.lstrip_from]. destruct k as [|k]; [|apply IH].
  cbn [forallb]. intros [Ha Hr]%andb_true_iff.
  unfold Py.starts_with_space. rewrite Ha. by apply IH.
Qed.

(** X25. [attempt_login] lets a player in only under a name: the text
    of the field, stripped as [str.strip] does it (the white space of
    Unicode included), must be non-empty and must not be the placeholder
    "Ingresa tu nombre". The name kept is the stripped text, so it neither
    starts nor ends with white space. Otherwise the window warns and the
    account is left as it was; a field of white space only is always
    refused. *)
Theorem attempt_login_needs_a_name (text : string) (a : account) :
  match attempt_login text a with
  | (a', MainScreen) =>
      user_logged_in a' = true /\
      current_user a' = Py.strip text /\
      current_user a' <> "" /\
      current_user a' <> "Ingresa tu nombre" /\
      Py.starts_with_space (current_user a') = false /\
      ends_with_space (current_user a') = false
  | (a', Warning) =>
      a' = a /\ (Py.strip text = "" \/ Py.strip text = "Ingresa tu nombre")
  end /\
  (all_space text = true -> attempt_login text a = (a, Warning)).
Proof.
  unfold attempt_login. split.
  - destruct (String.eqb_spec (Py.strip text) "") as [E|Hne]; cbn [negb andb].
    { split; [done|by left]. }
    destruct (String.eqb_spec (Py.strip text) "Ingresa tu nombre") as [E|Hnp]; cbn [negb].
    { split; [done|by right]. }
    cbn [user_logged_in current_user]. repeat split; try done.
    + apply rstrip_keeps_head, lstrip_no_leading_space.
    + apply rstrip_no_trailing_space.
  - intros Hsp. unfold Py.strip, Py.lstrip. by rewrite (lstrip_all_space 0 _ Hsp).
Qed.

End Login.

(** * The window on [update_finished] *)

Section Window.
Context {RT : Runtime}.
Variable retrieve : string -> result transfer.
Variable float_truth : string -> bool.
Local Open Scope list_scope.

Lemma finished_events_app l1 l2 :
  finished_events (l1 ++ l2) = finished_events l1 ++ finished_events l2.
Proof.
  induction l1 as [|e l1 IH]; cbn [app finished_events]; [done|].
  destruct e; cbn [app]; by rewrite ?IH.
Qed.

(** X26. A manual check on the latest version restarts the launcher.
    When the manifest's version is not newer than [VERSION], the forced
    check that the update button starts emits [update_finished] with
    [True], and the slot connected to it announces a completed update and
    schedules [restart_launcher] in 2000 ms, although the check found
    nothing to install (it returns [False]). The automatic check of the
    same manifest makes the window do nothing. *)
Theorem manual_check_on_latest_version_restarts force w w0 body d v c :
  starts_fetch force w w0 ->
  urlopen w0 (UPDATE_SERVER ++ VERSION_FILE)%string = Ok body ->
  json_loads body = Ok (JDict d) ->
  manifest_version d = JStr v ->
  compare_versions v VERSION = Ok c ->
  c <= 0 ->
  exists w' l,
    check_for_updates force w = (Ok false, w') /\
    events w' = events w ++ l /\
    reactions_to (finished_events l) =
      if force then [AnnounceCompleted; ScheduleRestart 2000] else [].
Proof.
  intros Hstart Hurl Hjson Hv Hc Hle.
  assert (events w0 = events w) as Hev.
  { by destruct (starts_fetch_same _ _ _ Hstart) as [->| ->]. }
  rewrite (check_for_updates_fetch _ _ _ Hstart).
  rewrite (try_ok _ _ _ _ _
             (check_body_not_newer force (emitting [StatusChanged Searching] w0)
                body d v c Hurl Hjson Hv Hc Hle)).
  eexists _, _. split; [reflexivity|]. split.
  - cbv zeta. rewrite events_stamped_if. cbn [events emitting].
    rewrite Hev, <- !app_assoc. reflexivity.
  - by destruct force.
Qed.

(** X27. An update never restarts the launcher. Whatever the record,
    the files, the server and the archive are, the reaction of the window
    to a whole run of [perform_update] is one warning that the update
    could not be completed; [restart_launcher] is never scheduled. *)
Theorem perform_update_never_restarts s :
  exists s' l msg,
    perform_update retrieve float_truth s = (Ok tt, s') /\
    log s' = log s ++ l /\
    reactions_to (finished l) = [WarnFailed msg].
Proof.
  destruct (perform_update_run retrieve float_truth s)
    as (s' & l & msg & Hrun & Hlog & Hquiet & _).
  exists s', (l ++ [Core (UpdateFinished false msg)]), msg.
  split; [done|]. split; [done|]. by rewrite finished_app, Hquiet.
Qed.

End Window.

(** * Runs on a concrete installation *)

Import Sample.

Lemma compare_versions_refines_spec_witness :
  is_version "1.3.0" = true /\ within_int_limit "1.3.0" = true /\
  is_version "1.2.9" = true /\ within_int_limit "1.2.9" = true /\
  compare_versions "1.3.0" "1.2.9" = Ok (spec_compare "1.3.0" "1.2.9").
Proof.
  do 4 (split; [reflexivity|]).
  apply (compare_versions_refines_spec "1.3.0" "1.2.9"); reflexivity.
Defined.

(** C2 as stated fails: a version of 4301 digits is a non-negative
    integer, greater than 1, and [int] does not read it. *)
Lemma long_segment_is_not_compared :
  let a := ones 4301 in
  is_version a = true /\ is_version "1" = true /\
  spec_compare a "1" = 1 /\
  compare_versions a "1" = Raise (ValueError "int" a).
Proof.
  intros a. split; [vm_compute; reflexivity|]. split; [reflexivity|].
  split; vm_compute; reflexivity.
Defined.

Lemma compare_versions_antisym_refl_witness :
  is_version "1.2" = true /\ within_int_limit "1.2" = true /\
  is_version "1.2.1" = true /\ within_int_limit "1.2.1" = true /\
  (exists r, compare_versions "1.2" "1.2.1" = Ok r /\
             compare_versions "1.2.1" "1.2" = Ok (- r)).
Proof.
  do 4 (split; [reflexivity|]).
  apply (compare_versions_antisym_refl "1.2" "1.2.1"); reflexivity.
Defined.

(** C10 as stated fails: a version of 4301 digits does not compare equal
    to itself, the comparison raises. *)
Lemma long_version_is_not_reflexive :
  let a := ones 4301 in
  is_version a = true /\
  compare_versions a a = Raise (ValueError "int" a) /\
  compare_versions a a <> Ok 0.
Proof.
  intros a.
  assert (compare_versions a a = Raise (ValueError "int" a)) as H
    by (vm_compute; reflexivity).
  split; [vm_compute; reflexivity|]. split; [exact H|]. rewrite H. discriminate.
Defined.

(** A forced check against a manifest announcing 0.1.0. *)
Lemma update_available_iff_newer_witness :
  let w := world_of installed (Ok (dumps manifest_full)) in
  starts_fetch true w w /\
  compare_versions "0.1.0" VERSION = Ok 1 /\
  exists w',
    check_for_updates true w = (Ok true, w') /\
    fs w' !! update_info_file =
      Some (NFile (File (dumps (JDict
        [("remote_version", JStr "0.1.0"); ("changelog", JStr "Fixes");
         ("download_url", JStr "https://example.org/launcher_update.zip");
         ("files", JList [JStr "launcher.py"]); ("timestamp", JStr "1000")])) 0)) /\
    announced (events w') = [("0.1.0", "Fixes")].
Proof.
  intros w. split; [reflexivity|]. split; [reflexivity|].
  destruct (update_available_iff_newer true w w (dumps manifest_full)
              [("version", JStr "0.1.0"); ("changelog", JStr "Fixes");
               ("download_url", JStr "https://example.org/launcher_update.zip");
               ("files", JList [JStr "launcher.py"])] "0.1.0" 1
              eq_refl eq_refl eq_refl eq_refl eq_refl)
    as (found & w' & Hrun & Hnewer & _).
  destruct (Hnewer ltac:(lia)) as (Hfile & -> & Hann).
  exists w'. split; [exact Hrun|]. split; [exact Hfile|exact Hann].
Defined.

(** C3 as stated fails: a newer version whose changelog is a list is
    not announced, the [str] signal does not carry it. *)
Lemma list_changelog_is_not_announced :
  let w := world_of installed (Ok (dumps manifest_list_changelog)) in
  let run := check_for_updates true w in
  compare_versions "1.0.0" VERSION = Ok 1 /\
  fst run = Ok false /\
  announced (events (snd run)) = [].
Proof.
  intros w run. repeat split; vm_compute; reflexivity.
Defined.

(** A forced check against a manifest whose version is "1.2b". *)
Lemma bad_version_is_not_newer_witness :
  let w := world_of installed (Ok (dumps manifest_bad_version)) in
  Exists (fun seg => int_literal seg = false) (Py.split "." "1.2b") /\
  compare_versions "1.2b" VERSION = Raise (ValueError "int" "2b") /\
  exists w',
    check_for_updates true w = (Ok false, w') /\
    announced (events w') = [] /\
    fs w' = fs w.
Proof.
  intros w.
  assert (Exists (fun seg => int_literal seg = false) (Py.split "." "1.2b")) as Hbad.
  { apply Exists_cons_tl, Exists_cons_hd. reflexivity. }
  split; [exact Hbad|]. split; [reflexivity|].
  apply (bad_version_is_not_newer true w (dumps manifest_bad_version)
           manifest_bad_version "1.2b" eq_refl eq_refl eq_refl). exact Hbad.
Defined.

(** C4 as stated fails: the segment "1_0" is not a number written in
    digits, and [int] reads it as 10; the version is announced. *)
Lemma underscore_version_is_announced :
  let w := world_of installed (Ok (dumps manifest_underscore)) in
  let run := check_for_updates true w in
  is_segment "1_0" = false /\
  compare_versions "1_0" VERSION = Ok 1 /\
  fst run = Ok true /\
  announced (events (snd run)) = [("1_0", "Sin información de cambios")].
Proof.
  intros w run. repeat split; vm_compute; reflexivity.
Defined.

(** First start, then a recorded check, seen again 60 and 5000 seconds
    later. *)
Lemma should_check_update_spec_witness :
  let w := world_at 60 installed (Ok "") in
  let soon := snd (update_last_check w) in
  let late := World (fs soon) (clock_by 5000) 1 (urlopen soon) (new_meta soon) [] in
  fs_exists (fs w) last_check_file = false /\
  fs_isdir (fs w) last_check_file = false /\
  float_of_str (Py.strip (str_of_float 1000)) = Some 1000 /\
  should_check_update w = (Ok true, w) /\
  fst (should_check_update soon) = Ok false /\
  fst (should_check_update late) = Ok true.
Proof.
  intros w soon late.
  destruct (should_check_update_spec w) as (Hnone & Hafter & _).
  split; [reflexivity|]. split; [reflexivity|]. split; [reflexivity|].
  split; [apply Hnone; reflexivity|]. split.
  - apply (Hafter soon 1000); reflexivity.
  - apply (Hafter late 1000); reflexivity.
Defined.

(** C6 as stated fails: a forced check that cannot reach the server
    fetches, fails, and leaves no timestamp. *)
Lemma failed_check_leaves_no_timestamp :
  let w := world_of installed (Raise (URLError "timed out")) in
  let run := check_for_updates true w in
  fst run = Ok false /\
  events (snd run) =
    [StatusChanged Searching; StatusChanged Connecting;
     StatusChanged (ConnectionFailed "<urlopen error timed out>")] /\
  ticks (snd run) = ticks w /\
  fs (snd run) !! last_check_file = None.
Proof.
  intros w run. repeat split; vm_compute; reflexivity.
Defined.

(** A forced check that finds the running version writes the timestamp. *)
Lemma last_check_written_unless_failed_witness :
  let w := world_of installed (Ok (dumps manifest_same)) in
  let run := check_for_updates true w in
  starts_fetch true w w /\
  fs_isdir (fs w) last_check_file = false /\
  fst run = Ok false /\
  fs (snd run) !! last_check_file = Some (NFile (File "1000" 0)).
Proof.
  intros w run. split; [reflexivity|]. split; [reflexivity|].
  destruct (last_check_written_unless_failed true w w eq_refl) as [_ H].
  assert (fst (check_body true (emitting [StatusChanged Searching] w)) = Ok false)
    as Hfound by (vm_compute; reflexivity).
  assert (let w' := snd (check_body true (emitting [StatusChanged Searching] w)) in
          str_of_float (timestamp (clock w' (pred (ticks w')))) = "1000" /\
          new_meta w' = 0) as Hread by (split; vm_compute; reflexivity).
  destruct (check_body true (emitting [StatusChanged Searching] w)) as [r w'].
  cbv beta iota zeta delta [fst snd] in Hfound, Hread. subst r.
  destruct Hread as [Htime Hmeta].
  destruct H as [Hrun Hstamp]. destruct (Hstamp eq_refl) as [_ Hfile].
  subst run. rewrite Hrun. cbv beta iota zeta delta [fst snd].
  rewrite Hfile, Htime, Hmeta. split; reflexivity.
Defined.

(** C7 as stated fails: without "changelog" the changelog is not the
    empty string. *)
Lemma missing_changelog_is_not_empty :
  let w := world_of installed (Ok (dumps manifest_newer)) in
  let run := check_for_updates true w in
  assoc "changelog" [("version", JStr "1.0.0")] = None /\
  fst run = Ok true /\
  announced (events (snd run)) = [("1.0.0", "Sin información de cambios")] /\
  announced (events (snd run)) <> [("1.0.0", "")].
Proof.
  intros w run. split; [reflexivity|]. split; [vm_compute; reflexivity|].
  assert (announced (events (snd run)) = [("1.0.0", "Sin información de cambios")])
    as -> by (vm_compute; reflexivity).
  split; [reflexivity|discriminate].
Defined.

(** A manifest without "version", then one with nothing but "version". *)
Lemma manifest_defaults_witness :
  let w := world_of installed (Ok (dumps manifest_empty)) in
  let w1 := world_of installed (Ok (dumps manifest_newer)) in
  starts_fetch false w w /\
  (exists w', check_for_updates false w = (Ok false, w') /\
     events w' = [StatusChanged Searching; StatusChanged Connecting;
                  StatusChanged (RemoteVersion (JStr "0.0.0")); StatusChanged UpToDate]) /\
  (exists w', check_for_updates true w1 = (Ok true, w') /\
     fs w' !! update_info_file =
       Some (NFile (File (dumps (JDict
         [("remote_version", JStr "1.0.0");
          ("changelog", JStr "Sin información de cambios");
          ("download_url", JStr ""); ("files", JList []);
          ("timestamp", JStr "1000")])) 0))).
Proof.
  intros w w1. split; [reflexivity|]. split.
  - destruct (manifest_defaults false w w (dumps manifest_empty) [] eq_refl eq_refl eq_refl)
      as [Hnone _].
    exact (Hnone eq_refl).
  - destruct (manifest_defaults true w1 w1 (dumps manifest_newer)
                [("version", JStr "1.0.0")] eq_refl eq_refl eq_refl) as [_ Hnewer].
    destruct (Hnewer "1.0.0" 1 "Sin información de cambios" eq_refl eq_refl ltac:(lia)
                eq_refl eq_refl) as (w' & Hrun & _ & Hfile).
    exists w'. split; [exact Hrun|exact Hfile].
Defined.

Lemma installed_tree_shaped : tree_shaped installed.
Proof.
  intros p n Hp. unfold installed in Hp. apply elem_of_list_to_map_2 in Hp.
  rewrite !elem_of_cons, elem_of_nil in Hp.
  destruct Hp as [[= -> ->]|[[= -> ->]|[[= -> ->]|[[= -> ->]|[[= -> ->]|[]]]]]];
    (split; [done|reflexivity]).
Defined.

(** The backup of the sample installation, where two assets are absent. *)
Lemma create_backup_snapshot_witness :
  let w := world_of installed (Ok "") in
  tree_shaped (fs w) /\
  fs_isfile (fs w) backup_dir = false /\
  exists m,
    create_backup w =
      (Ok true,
       emitting [StatusChanged BackingUp; StatusChanged BackupDone] (set_fs m w)) /\
    m !! ["backup"; "launcher.py"] = Some (NFile (File "print('0.0.7')" 7)) /\
    m !! ["backup"; "assets"; "fondo.png"] = None.
Proof.
  intros w. split; [exact installed_tree_shaped|]. split; [reflexivity|].
  destruct (create_backup_snapshot w installed_tree_shaped eq_refl)
    as (m & Hrun & _ & _ & Hcopied & _).
  { unfold files_to_backup. intros p. rewrite !elem_of_cons, elem_of_nil.
    intros [->|[->|[->|[->|[]]]]]; reflexivity. }
  exists m. split; [exact Hrun|]. split.
  - apply (Hcopied ["launcher.py"]). by left.
  - apply (Hcopied ["assets"; "fondo.png"]). right; right; by left.
Defined.

(** A sound archive: the update is unpacked, announced as applied, then
    reported as failed and rolled back. *)
Lemma apply_update_reads_deleted_record_witness :
  let w := world_of (downloaded "good archive") (Ok "") in
  let unpacked := snd (unpack update_file w) in
  fst (unpack update_file w) = Ok tt /\
  fs_isfile (fs unpacked) temp_dir = false /\
  fs_isdir (fs unpacked) update_info_file = false /\
  fs unpacked !! ["launcher.py"] = Some (NFile (File "print('0.1.0')" 0)) /\
  fst (apply_update update_file w) =
    Ok (false, JStr "[Errno 2] No such file or directory: '/update_info.json'") /\
  fs (snd (apply_update update_file w)) !! ["launcher.py"] =
    Some (NFile (File "print('0.0.7')" 7)).
Proof.
  intros w unpacked.
  assert (fst (unpack update_file w) = Ok tt) as Hok by (vm_compute; reflexivity).
  assert (fs_isfile (fs unpacked) temp_dir = false) as Htemp by (vm_compute; reflexivity).
  assert (fs_isdir (fs unpacked) update_info_file = false) as Hinfo
    by (vm_compute; reflexivity).
  split; [exact Hok|]. split; [exact Htemp|]. split; [exact Hinfo|].
  split; [vm_compute; reflexivity|]. split; [|vm_compute; reflexivity].
  subst unpacked. destruct (unpack update_file w) as [r w2] eqn:Hunpack.
  cbv beta iota zeta delta [fst snd] in Hok, Htemp, Hinfo. subst r.
  destruct (apply_update_reads_deleted_record update_file w w2 Hunpack Htemp Hinfo)
    as (m & restored & w' & s & _ & _ & _ & _ & Happly & _).
  rewrite Happly. reflexivity.
Defined.

(** ** More runs: the comparison, the check and the record *)

Lemma compare_versions_transitive_witness :
  compare_versions "1.2" "1.2.1" = Ok (-1) /\
  compare_versions "1.2.1" "1.3" = Ok (-1) /\
  exists r3, compare_versions "1.2" "1.3" = Ok r3 /\ r3 <= 0 /\
             (r3 = 0 -> -1 = 0 /\ -1 = 0).
Proof.
  split; [reflexivity|]. split; [reflexivity|].
  apply (compare_versions_transitive "1.2" "1.2.1" "1.3" (-1) (-1));
    [reflexivity|reflexivity|lia|lia].
Defined.


(** A forced check against a manifest announcing 0.1.0, then the record
    read back. *)
Lemma get_update_info_after_check_witness :
  let w := world_of installed (Ok (dumps manifest_full)) in
  json_loads (json_dumps pending_record) = Ok pending_record /\
  exists w',
    check_for_updates true w = (Ok true, w') /\
    get_update_info w' = (Ok pending_record, w').
Proof.
  intros w. split; [vm_compute; reflexivity|].
  apply (get_update_info_after_check true w w (dumps manifest_full)
           [("version", JStr "0.1.0"); ("changelog", JStr "Fixes");
            ("download_url", JStr "https://example.org/launcher_update.zip");
            ("files", JList [JStr "launcher.py"])] "0.1.0" 1 "Fixes");
    reflexivity.
Defined.

(** A first start, and a start with a file in the place of the download
    directory. *)
Lemma init_makes_the_two_directories_witness :
  let w := world_of (list_to_map [(["launcher.py"], NFile (File "print('0.0.7')" 7))])
                    (Ok "") in
  let blocked := world_of (list_to_map [(["temp_updates"], NFile (File "" 0))]) (Ok "") in
  (exists w', init w = (Ok tt, w') /\
              fs_isdir (fs w') temp_dir = true /\ fs_isdir (fs w') backup_dir = true /\
              init w' = (Ok tt, w')) /\
  init blocked = (Raise (FileExistsError temp_dir), blocked).
Proof.
  intros w blocked. split.
  - destruct (init_makes_the_two_directories w) as [Hok _].
    destruct (Hok eq_refl eq_refl) as (w' & Hrun & Ht & Hb & _ & Hagain).
    by exists w'.
  - destruct (init_makes_the_two_directories blocked) as [_ Hfile].
    exact (Hfile eq_refl).
Defined.

(** ** More runs: backup and restore *)

(** A regular file in the place of the backup directory. *)
Lemma create_backup_never_raises_witness :
  let w := world_of (<[backup_dir := NFile (File "" 0)]> installed) (Ok "") in
  fs_isfile (fs w) backup_dir = true /\
  create_backup w =
    (Ok false,
     emitting [StatusChanged BackingUp;
               StatusChanged (BackupFailed "[Errno 20] Not a directory: '/backup'")] w).
Proof.
  intros w. split; [reflexivity|].
  destruct (create_backup_never_raises w) as [_ Hfile]. exact (Hfile eq_refl).
Defined.

(** The launcher is lost after the backup; the restore brings it back. *)
Lemma restore_after_backup_gives_files_back_witness :
  let w0 := world_of installed (Ok "") in
  let w2 := set_fs (Served.damaged (fs (snd (create_backup w0)))) w0 in
  fs w2 !! ["launcher.py"] = None /\
  exists m,
    restore_backup w2 =
      (Ok true, emitting [StatusChanged Restoring; StatusChanged Restored] (set_fs m w2)) /\
    m !! ["launcher.py"] = Some (NFile (File "print('0.0.7')" 7)).
Proof.
  intros w0 w2. split; [apply lookup_delete_eq|].
  destruct (restore_after_backup_gives_files_back w0 w2) as (_ & m & Hrun & Hback & _).
  - exact installed_tree_shaped.
  - reflexivity.
  - unfold files_to_backup. intros p. rewrite !elem_of_cons, elem_of_nil.
    intros [->|[->|[->|[->|[]]]]]; reflexivity.
  - intros q [k ->]. apply lookup_delete_ne. done.
  - unfold files_to_backup. intros p. rewrite !elem_of_cons, elem_of_nil.
    intros [->|[->|[->|[->|[]]]]]; vm_compute; reflexivity.
  - vm_compute. reflexivity.
  - exists m. split; [exact Hrun|].
    rewrite (Hback ["launcher.py"]); [reflexivity|by left|by eexists].
Defined.

(** ** More runs: the application of an update *)

(** The tree a failed update leaves: the truncated archive replaced
    launcher.py and began assets/logo.png; the snapshot is in place. *)
Lemma snapshot_after_truncated_archive :
  let w := world_of (downloaded "truncated archive") (Ok "") in
  snapshot_in_place (fs (snd (apply_body update_file w))).
Proof.
  intros w. split; [vm_compute; reflexivity|]. split; [|split].
  - intros q n Hq Hn. apply elem_of_map_to_list in Hn.
    remember (map_to_list (fs (snd (apply_body update_file w)))) as l eqn:Hl.
    vm_compute in Hl. subst l. rewrite !elem_of_cons, elem_of_nil in Hn.
    destruct Hn as [Hn|[Hn|[Hn|[Hn|[Hn|[Hn|[Hn|[Hn|[Hn|[Hn|[]]]]]]]]]]];
      injection Hn as -> ->;
      try (by destruct Hq as [k [=]]).
    + right; right. exists ["launcher.py"]. split; [by left|done].
    + right; left. done.
    + by left.
    + right; right. exists ["assets"; "logo.png"]. split; [right; by left|done].
  - unfold files_to_backup. intros p. rewrite !elem_of_cons, elem_of_nil.
    intros [->|[->|[->|[->|[]]]]]; vm_compute; reflexivity.
  - vm_compute; reflexivity.
Defined.

(** An archive whose second entry is cut short: the update fails with
    the error of that entry, and the rollback puts the files of the
    backup back. *)
Lemma rollback_reports_original_error_witness :
  let w := world_of (downloaded "truncated archive") (Ok "") in
  let failed := snd (apply_body update_file w) in
  fst (apply_body update_file w) =
    Raise (LibraryError "BadZipFile" "Bad CRC-32 for file 'assets/logo.png'") /\
  fs failed !! ["launcher.py"] = Some (NFile (File "print('0.1.0')" 0)) /\
  fs failed !! ["assets"; "logo.png"] = Some (NFile (File "new" 0)) /\
  exists w2,
    apply_update update_file w =
      (Ok (false, JStr "Bad CRC-32 for file 'assets/logo.png'"), w2) /\
    fs w2 !! ["launcher.py"] = Some (NFile (File "print('0.0.7')" 7)) /\
    fs w2 !! ["assets"; "logo.png"] = Some (NFile (File "old logo" 8)).
Proof.
  intros w failed.
  assert (fst (apply_body update_file w) =
            Raise (LibraryError "BadZipFile" "Bad CRC-32 for file 'assets/logo.png'"))
    as Hraise by (vm_compute; reflexivity).
  split; [exact Hraise|].
  split; [vm_compute; reflexivity|]. split; [vm_compute; reflexivity|].
  pose proof snapshot_after_truncated_archive as Hsnap. cbv zeta in Hsnap.
  fold w in Hsnap. fold failed in Hsnap.
  assert (fs failed !! ["backup"; "launcher.py"] =
            Some (NFile (File "print('0.0.7')" 7))) as Hlauncher
    by (vm_compute; reflexivity).
  assert (fs failed !! ["backup"; "assets"; "logo.png"] =
            Some (NFile (File "old logo" 8))) as Hlogo
    by (vm_compute; reflexivity).
  subst failed. destruct (apply_body update_file w) as [r w1] eqn:Hbody.
  cbv beta iota zeta delta [fst snd] in Hraise, Hsnap, Hlauncher, Hlogo. subst r.
  destruct (rollback_reports_original_error update_file w _ w1 Hbody)
    as (restored & w2 & s & _ & Happly & _ & _ & Hback & _).
  destruct (Hback Hsnap) as (_ & _ & Hfiles & _).
  exists w2. split; [exact Happly|]. split.
  - apply (Hfiles ["launcher.py"]); [by left|exact Hlauncher].
  - apply (Hfiles ["assets"; "logo.png"]); [right; by left|exact Hlogo].
Defined.


(** The entries of the sound archive, extracted over the installation. *)
Lemma extraction_installs_every_entry_witness :
  let w := world_of installed (Ok "") in
  let names := map zname good_archive in
  let run := extract_all good_archive 3 0 names w in
  fst run = Ok tt /\
  fs (snd run) !! ["launcher.py"] = Some (NFile (File "print('0.1.0')" 0)) /\
  fs (snd run) !! ["assets"; "logo.png"] = Some (NFile (File "new logo" 0)).
Proof.
  intros w names run.
  assert (fst run = Ok tt) as Hok by (vm_compute; reflexivity).
  split; [exact Hok|]. subst run.
  destruct (extract_all good_archive 3 0 names w) as [r w'] eqn:Hrun.
  cbv beta iota zeta delta [fst snd] in *. subst r.
  destruct (extraction_installs_every_entry good_archive 3 0 names w w' Hrun) as [Hfiles _].
  { apply (bool_decide_unpack _). vm_compute. reflexivity. }
  split.
  - apply (Hfiles "launcher.py" (ZipMember "launcher.py" ["launcher.py"]
                                   (ZData "print('0.1.0')")) "print('0.1.0')");
      [by left|reflexivity|reflexivity].
  - apply (Hfiles "assets/logo.png" (ZipMember "assets/logo.png" ["assets"; "logo.png"]
                                       (ZData "new logo")) "new logo");
      [right; right; by left|reflexivity|reflexivity].
Defined.

(** A sound archive, downloaded where [download_update] puts it. *)
Lemma apply_update_never_succeeds_witness :
  let w := world_of (downloaded "good archive") (Ok "") in
  fs w !! temp_dir = Some NDir /\
  exists e w',
    apply_update update_file w = (Ok (false, JStr (exn_str e)), w') /\
    exists w1, apply_body update_file w = (Raise e, w1).
Proof.
  intros w. split; [reflexivity|].
  apply (apply_update_never_succeeds update_file w). reflexivity.
Defined.

(** ** More runs: the download *)

Lemma pending_download_dir_flat (c : string) (n : node) :
  Served.pending !! (temp_dir ++ [c])%list = Some n -> is_file_node n = true.
Proof.
  change (temp_dir ++ [c])%list with ["temp_updates"; c]. unfold Served.pending.
  intros H. apply lookup_insert_Some in H as [[_ <-]|[_ H]]; [done|].
  apply lookup_insert_Some in H as [[[=] _]|[_ H]].
  unfold installed in H. apply elem_of_list_to_map_2 in H.
  rewrite !elem_of_cons, elem_of_nil in H.
  by destruct H as [[=]|[[=]|[[=]|[[=]|[[=]|[]]]]]].
Defined.

(** A record that names no URL. *)
Lemma download_update_without_url_witness :
  let s := Session (world_of Served.pending_without_url (Ok "")) [] in
  download_update Served.retrieve Served.float_truth s =
    (Ok None, Session (base s) [DownloadStatus NoDownloadUrl]).
Proof.
  intros s.
  destruct (download_update_without_url Served.retrieve Served.float_truth s) as [Hno _].
  apply (Hno (dumps manifest_newer) 0 [("version", JStr "1.0.0")]);
    [reflexivity|vm_compute; reflexivity|reflexivity].
Defined.

(** The archive is fetched; the file of an earlier download is gone. *)
Lemma download_update_leaves_the_archive_witness :
  let s := Session (world_of Served.pending (Ok "")) [] in
  exists s',
    download_update Served.retrieve Served.float_truth s =
      (Ok (Some ["temp_updates"; "launcher_update.zip"]), s') /\
    fs (base s') !! ["temp_updates"; "launcher_update.zip"] =
      Some (NFile (File "good archive" 0)) /\
    fs (base s') !! ["temp_updates"; "old.zip"] = None.
Proof.
  intros s.
  destruct (download_update_leaves_the_archive Served.retrieve Served.float_truth s
              (dumps pending_record) 0
              [("remote_version", JStr "0.1.0"); ("changelog", JStr "Fixes");
               ("download_url", JStr "https://example.org/launcher_update.zip");
               ("files", JList [JStr "launcher.py"]); ("timestamp", JStr "1000")]
              Served.archive_url Served.transfer_of_archive)
    as (s' & progress & Hrun & Hfile & Hgone & _).
  - reflexivity.
  - vm_compute. reflexivity.
  - reflexivity.
  - done.
  - reflexivity.
  - exact pending_download_dir_flat.
  - reflexivity.
  - reflexivity.
  - apply Z.leb_le. reflexivity.
  - exists s'. split; [exact Hrun|]. split; [exact Hfile|].
    apply (Hgone "old.zip"). done.
Defined.

(** Twelve bytes announced, twelve received in two blocks: the last
    progress value is 100. *)
Lemma download_progress_ends_at_100_witness :
  let s := Session (world_of Served.pending (Ok "")) [] in
  exists s' progress,
    download_update Served.retrieve Served.float_truth s =
      (Ok (Some ["temp_updates"; "launcher_update.zip"]), s') /\
    log s' = ([DownloadStatus Downloading] ++ map Core progress ++
              [DownloadStatus DownloadDone])%list /\
    last progress = Some (UpdateProgress 100).
Proof.
  intros s.
  apply (download_progress_ends_at_100 Served.retrieve Served.float_truth s
           (dumps pending_record) 0
           [("remote_version", JStr "0.1.0"); ("changelog", JStr "Fixes");
            ("download_url", JStr "https://example.org/launcher_update.zip");
            ("files", JList [JStr "launcher.py"]); ("timestamp", JStr "1000")]
           Served.archive_url Served.transfer_of_archive).
  - reflexivity.
  - vm_compute. reflexivity.
  - reflexivity.
  - done.
  - reflexivity.
  - exact pending_download_dir_flat.
  - reflexivity.
  - reflexivity.
  - apply Z.leb_le. reflexivity.
  - reflexivity.
  - repeat constructor; apply Z.leb_le; reflexivity.
Defined.

(** From the manifest of version 0.1.0 to its archive. *)
Lemma check_then_download_witness :
  let w := world_of installed (Ok (dumps manifest_full)) in
  exists w' s',
    check_for_updates true w = (Ok true, w') /\
    download_update Served.retrieve Served.float_truth (Session w' []) =
      (Ok (Some ["temp_updates"; "launcher_update.zip"]), s') /\
    fs (base s') !! ["temp_updates"; "launcher_update.zip"] =
      Some (NFile (File "good archive" 0)).
Proof.
  intros w.
  apply (check_then_download Served.retrieve Served.float_truth true w w
           (dumps manifest_full)
           [("version", JStr "0.1.0"); ("changelog", JStr "Fixes");
            ("download_url", JStr "https://example.org/launcher_update.zip");
            ("files", JList [JStr "launcher.py"])] "0.1.0" 1 "Fixes"
           Served.archive_url Served.transfer_of_archive []);
    try reflexivity.
  - done.
  - intros c n. change (temp_dir ++ [c])%list with ["temp_updates"; c].
    unfold w, world_of, world_at, installed. cbn [fs]. intros H.
    apply elem_of_list_to_map_2 in H. rewrite !elem_of_cons, elem_of_nil in H.
    by destruct H as [[=]|[[=]|[[=]|[[=]|[[=]|[]]]]]].
Defined.

(** ** More runs: the login *)

(** A name between spaces; then a field of a no-break space (U+00A0)
    and an ideographic space (U+3000), in UTF-8. *)
Lemma attempt_login_needs_a_name_witness :
  let blank := String "194" (String "160" (String "227" (String "128" (String "128" ""))))
  in
  attempt_login "  Sakura " (Account "" false) = (Account "Sakura" true, MainScreen) /\
  all_space blank = true /\
  attempt_login blank (Account "" false) = (Account "" false, Warning).
Proof.
  intros blank. split; [reflexivity|]. split; [reflexivity|].
  apply (proj2 (attempt_login_needs_a_name blank (Account "" false))). reflexivity.
Defined.

(** ** More runs: the window *)

(** The update button, pressed on the latest version. *)
Lemma manual_check_on_latest_version_restarts_witness :
  let w := world_of installed (Ok (dumps manifest_same)) in
  exists w' l,
    check_for_updates true w = (Ok false, w') /\
    events w' = (events w ++ l)%list /\
    reactions_to (finished_events l) = [AnnounceCompleted; ScheduleRestart 2000].
Proof.
  intros w.
  apply (manual_check_on_latest_version_restarts true w w (dumps manifest_same)
           [("version", JStr "0.0.7")] "0.0.7" 0); reflexivity.
Defined.
